(** * FieldChartOCR: a shallow embedding of the dataset tooling scripts

    The development follows the Python sources file by file:
    - [PyStr], [OsPath], [PyNum] : the pieces of [str], [os.path] and of
                     float arithmetic that the scripts rely on;
    - [Barcode]    : the 4-state bar encoder of [scripts/homework_signer.py];
    - [Signer]     : the CSV bookkeeping of [sign_with_next_uuid] and
                     [sign_pdf_with_barcodes] in the same file;
    - [Corners]    : [scripts/auto_detect_corners.py], multi-scale template
                     matching and the annotations it writes;
    - [Coco]       : the filter and the split of
                     [scripts/convert_to_coco.py];
    - [Distort]    : the files created by [scripts/distort_images_pil.py];
    - [SynthTables]: the table generators of
                     [FieldChartOCR/generate_synthetic_bar_tables.py];
    - [BinaryMatrix]: the cell pattern of
                     [scripts/extract_binary_matrix.py].

    Python [str] values are modelled as [string] (one [ascii] per code
    point below 256), Python [int] as [Z] or [nat], Python [float] as
    exact rationals [Q], [None] as [option]. Calls into OpenCV, Pillow,
    numpy's shuffle and the [random] module are parameters of the
    sections that use them. *)

From Stdlib Require Import Ascii String ZArith QArith Qround List Lia.
From Stdlib Require Import DecimalString Lqa Qabs.
From stdpp Require Import gmap strings list fin_maps sorting.

Open Scope string_scope.
Open Scope list_scope.

(** ** Generic Python string helpers *)

Module PyStr.

(** [str.upper] on one code point: only the ASCII letters a-z move. *)
Definition upper_char (c : ascii) : ascii :=
  let n := nat_of_ascii c in
  if (97 <=? n)%nat && (n <=? 122)%nat then ascii_of_nat (n - 32) else c.

(** [str.lower] on one code point. *)
Definition lower_char (c : ascii) : ascii :=
  let n := nat_of_ascii c in
  if (65 <=? n)%nat && (n <=? 90)%nat then ascii_of_nat (n + 32) else c.

Fixpoint lower (s : string) : string :=
  match s with
  | EmptyString => EmptyString
  | String c r => String (lower_char c) (lower r)
  end.

(** The code points below 256 on which [str.isspace] holds: tab to
    carriage return, the four separators 0x1c-0x1f, the space, NEL and the
    no-break space. *)
Definition is_space (c : ascii) : bool :=
  let n := nat_of_ascii c in
  ((9 <=? n)%nat && (n <=? 13)%nat) || ((28 <=? n)%nat && (n <=? 32)%nat)
  || (n =? 133)%nat || (n =? 160)%nat.

Fixpoint lstrip (s : string) : string :=
  match s with
  | EmptyString => EmptyString
  | String c r => if is_space c then lstrip r else s
  end.

Fixpoint rstrip (s : string) : string :=
  match s with
  | EmptyString => EmptyString
  | String c r =>
      match rstrip r with
      | EmptyString => if is_space c then EmptyString else String c EmptyString
      | r' => String c r'
      end
  end.

(** [s.strip()] with no argument. *)
Definition strip (s : string) : string := rstrip (lstrip s).

(** Truth value of a [str]: the empty string is false. *)
Definition truthy (s : string) : bool :=
  match s with EmptyString => false | String _ _ => true end.

(** [s.replace(old, new)] for a one-character [old]. *)
Fixpoint replace_char (old : ascii) (new : string) (s : string) : string :=
  match s with
  | EmptyString => EmptyString
  | String c r =>
      if Ascii.eqb c old then new +:+ replace_char old new r
      else String c (replace_char old new r)
  end.

(** [str(n)] for a non-negative [int]. *)
Definition str_of_nat (n : nat) : string :=
  NilEmpty.string_of_uint (Nat.to_uint n).

(** [sub in s]. *)
Fixpoint contains (sub s : string) : bool :=
  String.prefix sub s ||
  match s with
  | EmptyString => false
  | String _ r => contains sub r
  end.

(** [s.endswith(suffix)]. *)
Fixpoint endswith (s suffix : string) : bool :=
  String.eqb s suffix ||
  match s with
  | EmptyString => false
  | String _ r => endswith r suffix
  end.

End PyStr.

(** ** posixpath, as used by the scripts *)

Module OsPath.

(** Split at the last ['/']: the head keeps that slash, the tail has none
    ([i = p.rfind('/') + 1; p[:i], p[i:]]). *)
Fixpoint split_sep (p : string) : string * string :=
  match p with
  | EmptyString => (EmptyString, EmptyString)
  | String c r =>
      let '(h, t) := split_sep r in
      if PyStr.truthy h then (String c h, t)
      else if Ascii.eqb c "/" then (String c EmptyString, t)
      else (EmptyString, String c t)
  end.

Fixpoint all_sep (s : string) : bool :=
  match s with
  | EmptyString => true
  | String c r => Ascii.eqb c "/" && all_sep r
  end.

(** [head.rstrip('/')]. *)
Fixpoint rstrip_sep (s : string) : string :=
  match s with
  | EmptyString => EmptyString
  | String c r =>
      match rstrip_sep r with
      | EmptyString =>
          if Ascii.eqb c "/" then EmptyString else String c EmptyString
      | r' => String c r'
      end
  end.

Definition dirname (p : string) : string :=
  let head := fst (split_sep p) in
  if PyStr.truthy head && negb (all_sep head) then rstrip_sep head else head.

Definition basename (p : string) : string := snd (split_sep p).

(** [os.path.join(a, b)] for two components. *)
Definition join (a b : string) : string :=
  if String.prefix "/" b then b
  else if negb (PyStr.truthy a) || PyStr.endswith a "/" then a +:+ b
  else a +:+ "/" +:+ b.

(** [os.path.splitext]: the extension starts at the last dot of the last
    component, unless that component has only dots before it. *)
Fixpoint split_dot (f : string) : string * string :=
  match f with
  | EmptyString => (EmptyString, EmptyString)
  | String c r =>
      let '(h, t) := split_dot r in
      if PyStr.truthy t then (String c h, t)
      else if Ascii.eqb c "." then (EmptyString, f)
      else (String c h, t)
  end.

Fixpoint all_dots (s : string) : bool :=
  match s with
  | EmptyString => true
  | String c r => Ascii.eqb c "." && all_dots r
  end.

Definition splitext (p : string) : string * string :=
  let '(head, file) := split_sep p in
  let '(name, ext) := split_dot file in
  if PyStr.truthy ext && negb (all_dots name) then (head +:+ name, ext)
  else (p, EmptyString).

End OsPath.

Module PyChecks.
Example strip1 : PyStr.strip "  a b  " = "a b". Proof. reflexivity. Qed.
Example dirname1 : OsPath.dirname "a/b/c.svg" = "a/b". Proof. reflexivity. Qed.
Example dirname2 : OsPath.dirname "/c.svg" = "/". Proof. reflexivity. Qed.
Example dirname3 : OsPath.dirname "c.svg" = "". Proof. reflexivity. Qed.
Example dirname4 : OsPath.dirname "a//c" = "a". Proof. reflexivity. Qed.
Example basename1 : OsPath.basename "a/b/c.svg" = "c.svg". Proof. reflexivity. Qed.
Example join1 : OsPath.join "a" "b" = "a/b". Proof. reflexivity. Qed.
Example join2 : OsPath.join "a/" "b" = "a/b". Proof. reflexivity. Qed.
Example join3 : OsPath.join "" "b" = "b". Proof. reflexivity. Qed.
Example join4 : OsPath.join "a" "/b" = "/b". Proof. reflexivity. Qed.
Example splitext1 : OsPath.splitext "a.b.jpg" = ("a.b", ".jpg"). Proof. reflexivity. Qed.
Example splitext2 : OsPath.splitext ".jpg" = (".jpg", ""). Proof. reflexivity. Qed.
Example splitext3 : OsPath.splitext "..jpg" = ("..jpg", ""). Proof. reflexivity. Qed.
Example splitext4 : OsPath.splitext "a" = ("a", ""). Proof. reflexivity. Qed.
Example splitext5 : OsPath.splitext "a." = ("a", "."). Proof. reflexivity. Qed.
Example splitext6 : OsPath.splitext "x.y/a" = ("x.y/a", ""). Proof. reflexivity. Qed.
Example contains1 : PyStr.contains "_d" "a_d.jpg" = true. Proof. reflexivity. Qed.
Example contains2 : PyStr.contains "" "" = true. Proof. reflexivity. Qed.
Example contains3 : PyStr.contains "_d" "a_.jpg" = false. Proof. reflexivity. Qed.
Example endswith1 : PyStr.endswith "a.jpg" ".jpg" = true. Proof. reflexivity. Qed.
Example endswith2 : PyStr.endswith "a.jpgx" ".jpg" = false. Proof. reflexivity. Qed.
Example replace1 : PyStr.replace_char "-" "_" "a-b-c" = "a_b_c". Proof. reflexivity. Qed.
Example str1 : PyStr.str_of_nat 12 = "12". Proof. reflexivity. Qed.
End PyChecks.

(** ** Python numbers: floats as exact rationals *)

Module PyNum.

(** [int(x)] on a float: truncation toward zero. *)
Definition py_int (x : Q) : Z :=
  if Qle_bool 0 x then Qfloor x else Qceiling x.

(** [a > b] on floats. *)
Definition Qgtb (a b : Q) : bool := negb (Qle_bool a b).

(** [a < b] on floats. *)
Definition Qltb (a b : Q) : bool := negb (Qle_bool b a).

Lemma Qgtb_true a b : Qgtb a b = true ↔ (b < a)%Q.
Proof.
  unfold Qgtb. rewrite negb_true_iff. split.
  - intros H. apply Qnot_le_lt. intros Hle.
    apply Qle_bool_iff in Hle. congruence.
  - intros H. destruct (Qle_bool a b) eqn:E; [|reflexivity].
    apply Qle_bool_iff in E. lra.
Qed.

Lemma Qgtb_false a b : Qgtb a b = false ↔ (a <= b)%Q.
Proof.
  unfold Qgtb. rewrite negb_false_iff. apply Qle_bool_iff.
Qed.

Lemma py_int_nonneg x : (0 <= x)%Q → py_int x = Qfloor x.
Proof.
  intros H. unfold py_int. apply Qle_bool_iff in H. by rewrite H.
Qed.

End PyNum.

(** ** scripts/homework_signer.py: the bar encoder *)

Module Barcode.

(** The table [CHAR_MAP], entry for entry. *)
Definition CHAR_MAP : gmap ascii string :=
  list_to_map
    [ ("A"%char, "ATDA"); ("B"%char, "ADTA"); ("C"%char, "AATD");
      ("D"%char, "ADAT"); ("E"%char, "TADA"); ("F"%char, "TDAA");
      ("G"%char, "TDDA"); ("H"%char, "TADA"); ("I"%char, "DTAA");
      ("J"%char, "DATD"); ("K"%char, "DAAT"); ("L"%char, "DAAD");
      ("M"%char, "ATAD"); ("N"%char, "TDAA"); ("O"%char, "TDAD");
      ("P"%char, "TDDA"); ("Q"%char, "ATAA"); ("R"%char, "AADT");
      ("S"%char, "AADT"); ("T"%char, "AATA"); ("U"%char, "ATDD");
      ("V"%char, "TADD"); ("W"%char, "TDDA"); ("X"%char, "TADA");
      ("Y"%char, "DTAA"); ("Z"%char, "DATD");
      ("0"%char, "ADDA"); ("1"%char, "DADA"); ("2"%char, "DAAD");
      ("3"%char, "ADAD"); ("4"%char, "DADA"); ("5"%char, "DAAD");
      ("6"%char, "DDAA"); ("7"%char, "DADA"); ("8"%char, "DAAD");
      ("9"%char, "DDAA") ].

(** [char_to_bars]: upper-case the character, look it up, fall back to
    ['ATDA']. *)
Definition char_to_bars (c : ascii) : string :=
  default "ATDA" (CHAR_MAP !! PyStr.upper_char c).

(** [encode_4state_barcode]: [bars.extend] appends the characters of the
    looked-up string one by one. *)
Fixpoint encode_4state_barcode (data : string) : list ascii :=
  match data with
  | EmptyString => []
  | String c rest =>
      list_ascii_of_string (char_to_bars c) ++ encode_4state_barcode rest
  end.

(** The four bar states drawn by [generate_4state_barcode_svg]. *)
Inductive bar_state := Full | Ascender | Descender | Tracker.

(** The [if bar == 'F' ... elif bar == 'T'] chain of the renderers: a
    character outside the four letters draws nothing. *)
Definition bar_state_of (bar : ascii) : option bar_state :=
  if Ascii.eqb bar "F" then Some Full
  else if Ascii.eqb bar "A" then Some Ascender
  else if Ascii.eqb bar "D" then Some Descender
  else if Ascii.eqb bar "T" then Some Tracker
  else None.

Definition is_bar_state (bar : ascii) : Prop :=
  bar = "F"%char ∨ bar = "A"%char ∨ bar = "D"%char ∨ bar = "T"%char.

(** The three states that the table really uses. *)
Definition is_used_state (bar : ascii) : Prop :=
  bar = "A"%char ∨ bar = "D"%char ∨ bar = "T"%char.

Definition used_stateb (bar : ascii) : bool :=
  Ascii.eqb bar "A" || Ascii.eqb bar "D" || Ascii.eqb bar "T".

Lemma used_stateb_spec bar : used_stateb bar = true → is_used_state bar.
Proof.
  unfold used_stateb, is_used_state.
  rewrite !orb_true_iff, !Ascii.eqb_eq. tauto.
Qed.

Lemma is_used_is_bar bar : is_used_state bar → is_bar_state bar.
Proof. unfold is_used_state, is_bar_state. tauto. Qed.

(** Every one of the 256 code points is looked up to a string over
    A, D, T: checked by running the lookup on each of them. *)
Lemma char_to_bars_used c :
  forallb used_stateb (list_ascii_of_string (char_to_bars c)) = true.
Proof.
  destruct c as [[] [] [] [] [] [] [] []]; vm_compute; reflexivity.
Qed.

Lemma char_to_bars_length c : String.length (char_to_bars c) = 4%nat.
Proof.
  destruct c as [[] [] [] [] [] [] [] []]; vm_compute; reflexivity.
Qed.

Lemma encode_used data :
  Forall is_used_state (encode_4state_barcode data).
Proof.
  induction data as [|c rest IH]; cbn [encode_4state_barcode].
  - constructor.
  - apply Forall_app. split; [|exact IH].
    apply Forall_forall. intros b Hb.
    apply used_stateb_spec.
    pose proof (char_to_bars_used c) as Hc.
    rewrite forallb_forall in Hc. apply Hc.
    by apply list_elem_of_In.
Qed.

Lemma encode_no_full data :
  existsb (Ascii.eqb "F") (encode_4state_barcode data) = false.
Proof.
  induction data as [|c rest IH]; cbn [encode_4state_barcode].
  - reflexivity.
  - rewrite existsb_app, IH, orb_false_r.
    destruct c as [[] [] [] [] [] [] [] []]; vm_compute; reflexivity.
Qed.

(** C1 as stated fails: the second half asks every one of the four
    states, the full bar included, to occur in the bars of some
    character, and no character has a full bar. *)
Lemma C1_full_bar_never_encoded :
  ¬ ((∀ data, Forall is_bar_state (encode_4state_barcode data)) ∧
     (∀ bar, is_bar_state bar →
        ∃ c, In bar (list_ascii_of_string (char_to_bars c)))).
Proof.
  intros [_ Hall].
  destruct (Hall "F"%char) as [c Hc]; [left; reflexivity|].
  pose proof (encode_no_full (String c EmptyString)) as Hno.
  cbn [encode_4state_barcode] in Hno. rewrite app_nil_r in Hno.
  assert (existsb (Ascii.eqb "F")
            (list_ascii_of_string (char_to_bars c)) = true) as Hyes.
  { apply existsb_exists. exists "F"%char. split; [exact Hc|reflexivity]. }
  congruence.
Qed.

(** C1 (amended): for every input string, every bar produced by
    [encode_4state_barcode] is an ascender, a descender or a tracker,
    hence one of the four bar states; each of these three states occurs
    in the bars of some character, and the full bar ['F'] occurs in the
    encoding of no input at all. *)
Theorem C1_bars_are_ascender_descender_tracker :
  (∀ data, Forall is_bar_state (encode_4state_barcode data)) ∧
  (∀ data, Forall is_used_state (encode_4state_barcode data)) ∧
  (∃ c, In "A"%char (list_ascii_of_string (char_to_bars c))) ∧
  (∃ c, In "D"%char (list_ascii_of_string (char_to_bars c))) ∧
  (∃ c, In "T"%char (list_ascii_of_string (char_to_bars c))) ∧
  (∀ data, existsb (Ascii.eqb "F") (encode_4state_barcode data) = false).
Proof.
  split; [|split; [|split; [|split; [|split]]]].
  - intros data. eapply Forall_impl; [apply encode_used|].
    apply is_used_is_bar.
  - apply encode_used.
  - exists "A"%char. vm_compute. tauto.
  - exists "A"%char. vm_compute. tauto.
  - exists "A"%char. vm_compute. tauto.
  - apply encode_no_full.
Qed.

(** C6: the character table is not injective. The digits 1 and 4 share
    the bars DADA and the letters E and H share TADA, so two different
    payloads encode to the same bar sequence. *)
Theorem C6_char_map_not_injective :
  ("1"%char ≠ "4"%char ∧ char_to_bars "1" = char_to_bars "4") ∧
  ("E"%char ≠ "H"%char ∧ char_to_bars "E" = char_to_bars "H") ∧
  (∃ d1 d2 : string,
      d1 ≠ d2 ∧ encode_4state_barcode d1 = encode_4state_barcode d2).
Proof.
  split; [|split].
  - split; [discriminate|vm_compute; reflexivity].
  - split; [discriminate|vm_compute; reflexivity].
  - exists "1", "4". split; [discriminate|vm_compute; reflexivity].
Qed.

End Barcode.

(** ** scripts/homework_signer.py: UUID bookkeeping in the CSV file *)

Module Signer.

(** One [csv.DictReader] row of [v4_uuids.csv]; the file has the three
    columns [uuid,entity,state] that the write-back names. *)
Record row := Row { uuid : string; entity : string; state : string }.

(** [not row.get('entity', '').strip() and not row.get('state', '').strip()] *)
Definition available (r : row) : bool :=
  negb (PyStr.truthy (PyStr.strip (entity r)))
  && negb (PyStr.truthy (PyStr.strip (state r))).

(** The [for i, row in enumerate(rows)] loop with its [break]: index and
    uuid of the first available row. *)
Fixpoint find_available_from (i : nat) (rows : list row)
  : option (nat * string) :=
  match rows with
  | [] => None
  | r :: rest =>
      if available r then Some (i, uuid r)
      else find_available_from (S i) rest
  end.

Definition find_available (rows : list row) : option (nat * string) :=
  find_available_from 0 rows.

Definition set_entity (e : string) (r : row) : row :=
  {| uuid := uuid r; entity := e; state := state r |}.

Definition set_state (st : string) (r : row) : row :=
  {| uuid := uuid r; entity := entity r; state := st |}.

(** [rows[i]['entity'] = e; rows[i]['state'] = 'active'] *)
Definition mark_active (i : nat) (e : string) (rows : list row) : list row :=
  alter (set_state "active") i (alter (set_entity e) i rows).

(** An SVG written by [insert_barcode_into_svg]: where, the bars drawn and
    the label text. *)
Record svg_file := Svg {
  svg_path : string; svg_bars : list ascii; svg_label : string }.

(** The files the signer reads and writes: the CSV rows, the signed SVGs,
    and the pages of the merged PDF when one was saved. *)
Record world := World {
  csv_rows : list row;
  svgs : list svg_file;
  merged_pdf : option (list nat) }.

(** [sign_with_next_uuid(csv_path, input_svg_path, output_filename,
    output_dir)]; the template is assumed to parse, so that
    [insert_barcode_into_svg] returns. *)
Definition sign_with_next_uuid (w : world) (input_svg_path : string)
    (output_filename output_dir : option string)
  : option (string * string) * world :=
  let rows := csv_rows w in
  match find_available rows with
  | None => (None, w)
  | Some (selected_index, selected_uuid) =>
      let uuid_for_barcode := PyStr.replace_char "-" "" selected_uuid in
      let output_dir :=
        match output_dir with
        | Some d => d
        | None =>
            let d := OsPath.dirname input_svg_path in
            if PyStr.truthy d then d else "."
        end in
      let output_filename :=
        match output_filename with
        | Some f => f
        | None => PyStr.replace_char "-" "_" selected_uuid
        end in
      let output_path := OsPath.join output_dir (output_filename +:+ ".svg") in
      let svg :=
        {| svg_path := output_path;
           svg_bars := Barcode.encode_4state_barcode uuid_for_barcode;
           svg_label := selected_uuid |} in
      let output_filename_with_ext := output_filename +:+ ".svg" in
      let rows := mark_active selected_index output_filename_with_ext rows in
      (Some (selected_uuid, output_path),
       {| csv_rows := rows; svgs := svgs w ++ [svg];
          merged_pdf := merged_pdf w |})
  end.

(** The page loop of [sign_pdf_with_barcodes]: [page_num] counts up,
    [remaining] pages are left; it stops early when no row is available.
    Each signed page is recorded as [(page_num + 1, uuid, temp_pdf)]. *)
Fixpoint sign_pages (output_path output_dir : string)
    (page_num remaining : nat) (rows : list row)
    (signed_pages : list (nat * string * string))
  : list row * list (nat * string * string) :=
  match remaining with
  | O => (rows, signed_pages)
  | S k =>
      match find_available rows with
      | None => (rows, signed_pages)
      | Some (selected_index, selected_uuid) =>
          let temp_pdf :=
            OsPath.join output_dir
              ("temp_page_" +:+ PyStr.str_of_nat page_num +:+ ".pdf") in
          let e := OsPath.basename output_path +:+ "_page_"
                   +:+ PyStr.str_of_nat (page_num + 1) in
          sign_pages output_path output_dir (S page_num) k
            (mark_active selected_index e rows)
            (signed_pages ++ [(page_num + 1, selected_uuid, temp_pdf)])
      end
  end.

(** [sign_pdf_with_barcodes] on a PDF of [num_pages] pages whose templates
    load: the merged PDF holds the signed pages in order, the CSV is
    written back, and [(output_path, signed_pages)] is returned. *)
Definition sign_pdf_with_barcodes (w : world) (pdf_path : string)
    (num_pages : nat) (output_path output_dir : option string)
  : (string * list (nat * string * string)) * world :=
  let output_dir :=
    match output_dir with
    | Some d => d
    | None =>
        let d := OsPath.dirname pdf_path in
        if PyStr.truthy d then d else "."
    end in
  let output_path :=
    match output_path with
    | Some o => o
    | None =>
        let base_name := fst (OsPath.splitext (OsPath.basename pdf_path)) in
        OsPath.join output_dir (base_name +:+ "_signed.pdf")
    end in
  let '(rows, signed_pages) :=
    sign_pages output_path output_dir 0 num_pages (csv_rows w) [] in
  ((output_path, signed_pages),
   {| csv_rows := rows; svgs := svgs w;
      merged_pdf := Some (map (λ p, fst (fst p)) signed_pages) |}).

(** The uuids still free, in file order. *)
Definition blank_uuids (rows : list row) : list string :=
  map uuid (List.filter available rows).

Definition page_of (p : nat * string * string) : nat := fst (fst p).
Definition uuid_of (p : nat * string * string) : string := snd (fst p).

Lemma available_active u e : available (Row u e "active") = false.
Proof. unfold available. cbn. apply andb_false_r. Qed.

Lemma find_available_from_None i rows :
  find_available_from i rows = None ↔
  Forall (λ r, available r = false) rows.
Proof.
  revert i. induction rows as [|r rest IH]; intros i; cbn.
  - split; [constructor|reflexivity].
  - destruct (available r) eqn:Ha.
    + split; [discriminate|]. intros H. inversion H; congruence.
    + rewrite IH. split.
      * intros H. by constructor.
      * intros H. by inversion H.
Qed.

Lemma find_available_from_Some i rows j u :
  find_available_from i rows = Some (j, u) →
  ∃ pre r post,
    rows = pre ++ r :: post ∧ j = i + length pre ∧
    Forall (λ r, available r = false) pre ∧
    available r = true ∧ uuid r = u.
Proof.
  revert i. induction rows as [|r rest IH]; intros i; cbn; [discriminate|].
  destruct (available r) eqn:Ha.
  - intros [= <- <-]. exists [], r, rest. cbn.
    repeat split; [lia|constructor|exact Ha].
  - intros H. destruct (IH _ H) as (pre & r' & post & -> & -> & Hpre & Hr & Hu).
    exists (r :: pre), r', post. cbn.
    repeat split; [lia|by constructor|exact Hr|exact Hu].
Qed.

Lemma mark_active_middle pre r post e :
  mark_active (length pre) e (pre ++ r :: post)
  = pre ++ Row (uuid r) e "active" :: post.
Proof.
  unfold mark_active.
  induction pre as [|x pre IH]; cbn.
  - reflexivity.
  - cbn in IH. by rewrite IH.
Qed.

Lemma filter_none_available pre :
  Forall (λ r, available r = false) pre → List.filter available pre = [].
Proof.
  induction 1 as [|x l Hx _ IH]; cbn; [reflexivity|]. by rewrite Hx.
Qed.

Lemma blank_uuids_split pre r post :
  Forall (λ r, available r = false) pre →
  blank_uuids (pre ++ r :: post)
  = (if available r then [uuid r] else []) ++ blank_uuids post.
Proof.
  intros Hpre. unfold blank_uuids.
  rewrite List.filter_app, (filter_none_available _ Hpre). cbn.
  by destruct (available r).
Qed.

(** What one run of the page loop does to the CSV rows and to the list of
    signed pages. *)
Lemma sign_pages_spec o d n : ∀ p rows signed rows' signed',
  sign_pages o d p n rows signed = (rows', signed') →
  map uuid_of signed' = map uuid_of signed ++ take n (blank_uuids rows) ∧
  map page_of signed'
    = map page_of signed ++ seq (p + 1) (n `min` length (blank_uuids rows)) ∧
  blank_uuids rows' = drop n (blank_uuids rows) ∧
  map uuid rows' = map uuid rows ∧
  (∀ j r, rows !! j = Some r → available r = false → rows' !! j = Some r).
Proof.
  induction n as [|n IH]; intros p rows signed rows' signed'; cbn [sign_pages].
  - intros [= <- <-]. rewrite take_0, drop_0, !app_nil_r. auto.
  - destruct (find_available rows) as [[i u]|] eqn:Hf.
    + apply find_available_from_Some in Hf
        as (pre & r & post & -> & -> & Hpre & Hr & <-).
      cbn [Nat.add]. rewrite mark_active_middle. intros Hrun.
      apply IH in Hrun as (Hu & Hp & Hb & Hcol & Hkeep).
      rewrite blank_uuids_split in Hu, Hp, Hb by exact Hpre.
      rewrite available_active in Hu, Hp, Hb. cbn [app] in Hu, Hp, Hb.
      rewrite blank_uuids_split by exact Hpre. rewrite Hr. cbn [app].
      rewrite !map_app in Hu, Hp. cbn [map uuid_of page_of fst snd] in Hu, Hp.
      rewrite <- !app_assoc in Hu, Hp. cbn [app] in Hu, Hp.
      repeat split.
      * exact Hu.
      * rewrite Hp. cbn [length Nat.min seq].
        replace (S p + 1) with (S (p + 1)) by lia. reflexivity.
      * exact Hb.
      * rewrite Hcol, !map_app. reflexivity.
      * intros j r0 Hj Ha. apply Hkeep; [|exact Ha].
        destruct (decide (j = length pre)) as [->|Hne].
        -- rewrite list_lookup_middle in Hj by reflexivity.
           injection Hj as <-. congruence.
        -- destruct (decide (j < length pre)) as [Hlt|Hge].
           ++ rewrite lookup_app_l in Hj |- * by exact Hlt. exact Hj.
           ++ rewrite lookup_app_r in Hj |- * by lia.
              destruct (j - length pre) as [|m] eqn:Hm; [lia|]. exact Hj.
    + intros [= <- <-].
      apply find_available_from_None, filter_none_available in Hf.
      unfold blank_uuids. rewrite Hf. cbn.
      rewrite !app_nil_r. auto.
Qed.

Lemma first_available_unique pre r0 post i r :
  Forall (λ r, available r = false) pre → available r0 = true →
  (pre ++ r0 :: post) !! i = Some r → available r = true →
  (∀ j r', j < i → (pre ++ r0 :: post) !! j = Some r' → available r' = false) →
  i = length pre ∧ r = r0.
Proof.
  intros Hpre Hr0 Hi Hr Hfirst.
  destruct (lt_eq_lt_dec i (length pre)) as [[Hlt | ->] | Hgt].
  - rewrite lookup_app_l in Hi by exact Hlt.
    rewrite Forall_forall in Hpre.
    apply list_elem_of_lookup_2, Hpre in Hi. congruence.
  - rewrite list_lookup_middle in Hi by reflexivity. split; congruence.
  - specialize (Hfirst (length pre) r0 Hgt).
    rewrite list_lookup_middle in Hfirst by reflexivity.
    specialize (Hfirst eq_refl). congruence.
Qed.

(** C3: [sign_with_next_uuid] returns [None] exactly when no row has both
    fields blank, and then leaves the files as they were. Otherwise the
    first such row in file order is selected: the call returns its uuid
    with the output path, that row gets the output file name as entity and
    ['active'] as state, its uuid stays, and every other row is the row it
    was. *)
Theorem C3_sign_with_next_uuid_first_blank_row
    (w : world) (input_svg_path : string)
    (output_filename output_dir : option string) :
  let res := fst (sign_with_next_uuid w input_svg_path output_filename output_dir) in
  let w' := snd (sign_with_next_uuid w input_svg_path output_filename output_dir) in
  (res = None ↔ ∀ r, r ∈ csv_rows w → available r = false) ∧
  (res = None → w' = w) ∧
  (∀ i r,
     csv_rows w !! i = Some r → available r = true →
     (∀ j r', j < i → csv_rows w !! j = Some r' → available r' = false) →
     let fname :=
       default (PyStr.replace_char "-" "_" (uuid r)) output_filename
       +:+ ".svg" in
     let dir :=
       default (if PyStr.truthy (OsPath.dirname input_svg_path)
                then OsPath.dirname input_svg_path else ".") output_dir in
     res = Some (uuid r, OsPath.join dir fname) ∧
     csv_rows w' !! i = Some (Row (uuid r) fname "active") ∧
     length (csv_rows w') = length (csv_rows w) ∧
     ∀ j, j ≠ i → csv_rows w' !! j = csv_rows w !! j).
Proof.
  cbv zeta. unfold sign_with_next_uuid.
  destruct (find_available (csv_rows w)) as [[i0 u]|] eqn:Hf.
  - apply find_available_from_Some in Hf
      as (pre & r0 & post & Hrows & -> & Hpre & Hr0 & <-).
    cbn [fst snd csv_rows Nat.add]. rewrite Hrows, mark_active_middle.
    split; [|split].
    + split; [discriminate|]. intros Hall.
      specialize (Hall r0). rewrite Hall in Hr0; [discriminate|].
      apply elem_of_app. right. left.
    + discriminate.
    + intros i r Hi Hr Hfirst.
      destruct (first_available_unique _ _ _ _ _ Hpre Hr0 Hi Hr Hfirst)
        as [-> ->].
      split; [|split; [|split]].
      * by destruct output_filename, output_dir.
      * rewrite list_lookup_middle by reflexivity.
        by destruct output_filename.
      * rewrite !length_app. reflexivity.
      * intros j Hj.
        destruct (decide (j < length pre)) as [Hlt|Hge].
        -- by rewrite !lookup_app_l by exact Hlt.
        -- rewrite !lookup_app_r by lia.
           destruct (j - length pre) as [|m] eqn:Hm; [lia|]. reflexivity.
  - cbn [fst snd]. apply find_available_from_None in Hf.
    rewrite Forall_forall in Hf.
    split; [|split].
    + split; [intros _; exact Hf|reflexivity].
    + reflexivity.
    + intros i r Hi Hr _. apply list_elem_of_lookup_2, Hf in Hi. congruence.
Qed.

(** C3 on a file whose second row is the first free one: the call returns
    that row's uuid with the path next to the template, and only that row
    changes. *)
Lemma C3_sign_with_next_uuid_witness :
  let w := World [ Row "u-1" "a.svg" "active"; Row "u-2" " " "";
                   Row "u-3" "" "" ] [] None in
  let run := sign_with_next_uuid w "forms/page.svg" None None in
  fst run = Some ("u-2", "forms/u_2.svg") ∧
  csv_rows (snd run) !! 1%nat = Some (Row "u-2" "u_2.svg" "active") ∧
  length (csv_rows (snd run)) = 3%nat ∧
  ∀ j, j ≠ 1%nat → csv_rows (snd run) !! j = csv_rows w !! j.
Proof.
  cbv zeta.
  pose proof (C3_sign_with_next_uuid_first_blank_row
                (World [ Row "u-1" "a.svg" "active"; Row "u-2" " " "";
                         Row "u-3" "" "" ] [] None)
                "forms/page.svg" None None) as H.
  cbv zeta in H. destruct H as (_ & _ & Hfirst).
  apply (Hfirst 1%nat (Row "u-2" " " "")); [reflexivity|reflexivity|].
  intros [|j] r' Hj; [|lia]. intros [= <-]. reflexivity.
Defined.





End Signer.

(** ** scripts/auto_detect_corners.py *)

Module Corners.

Import PyNum.

(** The default [scales=[0.5, 0.75, 1.0, 1.25, 1.5]]; all five are exact
    binary fractions. *)
Definition default_scales : list Q := [1 # 2; 3 # 4; 1; 5 # 4; 3 # 2]%Q.

(** [f.lower().endswith(('.jpg', '.jpeg', '.png'))] *)
Definition is_image_file (f : string) : bool :=
  let l := PyStr.lower f in
  PyStr.endswith l ".jpg" || PyStr.endswith l ".jpeg" || PyStr.endswith l ".png".

(** One value of the annotations dict; [needs_review = None] is a missing
    key. *)
Record annotation := Annotation {
  ann_x : option Q;
  ann_y : option Q;
  ann_confidence : Q;
  needs_review : option bool }.

Section WithOpenCV.

(** What OpenCV contributes: the images, their [shape] as (rows, columns),
    [cv2.imread] (which yields [None] on a file it cannot decode),
    [cv2.cvtColor] to grey, and template matching. [match_template area t
    (w, h)] stands for resizing the grey template [t] to [w] by [h],
    [cv2.matchTemplate] with [TM_CCOEFF_NORMED] over the search area
    [(x, y, width, height)] of the grey image, and [cv2.minMaxLoc]: it
    returns [max_val] and [max_loc]. *)
Variable Image : Type.
Variable shape : Image → Z * Z.
Variable imread : string → option Image.
Variable cvtColor : Image → Image.
Variable match_template :
  Image → Z * Z * Z * Z → Image → Z * Z → Q * (Z * Z).

(** An element of the list built by [load_templates]. *)
Record template := Template {
  t_image : Image;
  t_name : string;
  t_original : Image }.

(** [load_templates]: the files of the template directory with an image
    extension that [cv2.imread] can read. *)
Fixpoint load_templates (template_dir : string) (files : list string)
  : list template :=
  match files with
  | [] => []
  | f :: rest =>
      if is_image_file f then
        match imread (OsPath.join template_dir f) with
        | Some t => Template (cvtColor t) f t :: load_templates template_dir rest
        | None => load_templates template_dir rest
        end
      else load_templates template_dir rest
  end.

(** The loop state [(best_confidence, best_location)]. *)
Definition best := (Q * (option Z * option Z))%type.

(** The body of [for scale in scales]. *)
Definition try_scale (image_gray : Image) (search_region : Z * Z * Z * Z)
    (tpl : template) (b : best) (scale : Q) : best :=
  let '(x_start, y_start, region_w, region_h) := search_region in
  let '(t_h, t_w) := shape (t_image tpl) in
  let scaled_w := py_int (inject_Z t_w * scale) in
  let scaled_h := py_int (inject_Z t_h * scale) in
  if (region_w <? scaled_w)%Z || (region_h <? scaled_h)%Z then b
  else
    let '(max_val, (max_x, max_y)) :=
      match_template image_gray search_region (t_image tpl)
        (scaled_w, scaled_h) in
    if Qgtb max_val (fst b) then
      (max_val, (Some (max_x + x_start + scaled_w `div` 2)%Z,
                 Some (max_y + y_start + scaled_h `div` 2)%Z))
    else b.

(** The body of [for template_info in templates]. *)
Definition try_template (image_gray : Image) (search_region : Z * Z * Z * Z)
    (scales : list Q) (b : best) (tpl : template) : best :=
  fold_left (try_scale image_gray search_region tpl) scales b.

(** [detect_corner_with_templates(image, templates, search_region, scales)] *)
Definition detect_corner_with_templates (image : option Image)
    (templates : list template) (search_region : option (Z * Z * Z * Z))
    (scales : list Q) : option Z * option Z * Q :=
  match image with
  | None => (None, None, 0%Q)
  | Some image =>
      let image_gray := cvtColor image in
      let search_region :=
        match search_region with
        | Some r => r
        | None =>
            let '(h, w) := shape image_gray in
            ((w `div` 2)%Z, 0%Z, (w `div` 2)%Z, (h `div` 2)%Z)
        end in
      let '(best_confidence, best_location) :=
        fold_left (try_template image_gray search_region scales)
          templates (0%Q, (None, None)) in
      (fst best_location, snd best_location, best_confidence)
  end.

(** The three branches that build the value stored for one image. *)
Definition annotate (x y : option Z) (confidence confidence_threshold : Q)
  : annotation :=
  match x, y with
  | Some xv, Some yv =>
      if Qle_bool confidence_threshold confidence then
        Annotation (Some (inject_Z xv)) (Some (inject_Z yv)) confidence None
      else if Qgtb confidence 0 then
        Annotation (Some (inject_Z xv)) (Some (inject_Z yv)) confidence
          (Some true)
      else Annotation None None 0 (Some true)
  | _, _ =>
      if Qgtb confidence 0 then
        Annotation (inject_Z <$> x) (inject_Z <$> y) confidence (Some true)
      else Annotation None None 0 (Some true)
  end.

(** The body of [for image_file in tqdm(image_files)]. *)
Definition process_image (templates : list template) (image_dir : string)
    (confidence_threshold : Q) (annotations : gmap string annotation)
    (image_file : string) : gmap string annotation :=
  match imread (OsPath.join image_dir image_file) with
  | None => annotations
  | Some image =>
      let '(x, y, confidence) :=
        detect_corner_with_templates (Some image) templates None
          default_scales in
      <[image_file := annotate x y confidence confidence_threshold]>
        annotations
  end.

(** [auto_detect_corners]: [template_files] and [image_dir_files] are the
    two [os.listdir] results. The value is the content written to
    [output_file], or [None] when the function returns before writing. *)
Definition auto_detect_corners (template_dir : string)
    (template_files : list string) (image_dir : string)
    (image_dir_files : list string) (confidence_threshold : Q)
  : option (gmap string annotation) :=
  let templates := load_templates template_dir template_files in
  if (length templates =? 0)%nat then None
  else
    let image_files := List.filter is_image_file image_dir_files in
    let image_files :=
      List.filter (λ f, negb (PyStr.contains "_distorted" f)) image_files in
    Some (fold_left (process_image templates image_dir confidence_threshold)
            image_files ∅).

(** *** Specification side: the fitting (template, scale) pairs *)

(** The search region used when none is given: the top-right quadrant. *)
Definition region_or_quadrant (image_gray : Image)
    (search_region : option (Z * Z * Z * Z)) : Z * Z * Z * Z :=
  match search_region with
  | Some r => r
  | None =>
      ((snd (shape image_gray) `div` 2)%Z, 0%Z,
       (snd (shape image_gray) `div` 2)%Z, (fst (shape image_gray) `div` 2)%Z)
  end.

(** A candidate: the correlation maximum of one fitting pair and the centre
    of the matched window in full-image coordinates. *)
Definition candidate := (Q * (Z * Z))%type.

Definition score (c : candidate) : Q := fst c.
Definition centre (c : candidate) : option Z * option Z :=
  (Some (fst (snd c)), Some (snd (snd c))).

(** The candidate of one pair: none when the scaled template is wider or
    taller than the region. *)
Definition candidate_of (image_gray : Image) (search_region : Z * Z * Z * Z)
    (tpl : template) (scale : Q) : list candidate :=
  let '(x_start, y_start, region_w, region_h) := search_region in
  let scaled_w := py_int (inject_Z (snd (shape (t_image tpl))) * scale) in
  let scaled_h := py_int (inject_Z (fst (shape (t_image tpl))) * scale) in
  if (region_w <? scaled_w)%Z || (region_h <? scaled_h)%Z then []
  else
    let m := match_template image_gray search_region (t_image tpl)
               (scaled_w, scaled_h) in
    [(fst m, ((fst (snd m) + x_start + scaled_w `div` 2)%Z,
              (snd (snd m) + y_start + scaled_h `div` 2)%Z))].

(** All candidates, templates outermost, scales innermost. *)
Definition candidates (image_gray : Image) (search_region : Z * Z * Z * Z)
    (templates : list template) (scales : list Q) : list candidate :=
  flat_map (λ tpl, flat_map (candidate_of image_gray search_region tpl) scales)
    templates.

(** Keeping the best candidate so far, with the strict comparison of the
    source. *)
Definition keep_best (b : best) (c : candidate) : best :=
  if Qgtb (score c) (fst b) then (score c, centre c) else b.

Lemma fold_left_flat_map {A B C} (f : A → C → A) (g : B → list C) l a :
  fold_left f (flat_map g l) a
  = fold_left (λ a x, fold_left f (g x) a) l a.
Proof.
  revert a. induction l as [|x l IH]; intros a; cbn; [reflexivity|].
  by rewrite fold_left_app, IH.
Qed.

Lemma try_scale_keep_best image_gray search_region tpl b scale :
  try_scale image_gray search_region tpl b scale
  = fold_left keep_best (candidate_of image_gray search_region tpl scale) b.
Proof.
  unfold try_scale, candidate_of.
  destruct search_region as [[[x_start y_start] region_w] region_h].
  destruct (shape (t_image tpl)) as [t_h t_w]. cbn [fst snd].
  destruct (_ || _); [reflexivity|].
  destruct (match_template _ _ _ _) as [max_val [max_x max_y]].
  reflexivity.
Qed.

Lemma try_template_keep_best image_gray search_region scales b tpl :
  try_template image_gray search_region scales b tpl
  = fold_left keep_best
      (flat_map (candidate_of image_gray search_region tpl) scales) b.
Proof.
  unfold try_template. rewrite fold_left_flat_map.
  revert b. induction scales as [|sc scales IH]; intros b; cbn;
    [reflexivity|].
  by rewrite try_scale_keep_best, IH.
Qed.

Lemma detect_keep_best image templates search_region scales :
  detect_corner_with_templates (Some image) templates search_region scales
  = let b := fold_left keep_best
               (candidates (cvtColor image)
                  (region_or_quadrant (cvtColor image) search_region)
                  templates scales) (0%Q, (None, None)) in
    (fst (snd b), snd (snd b), fst b).
Proof.
  unfold detect_corner_with_templates, candidates, region_or_quadrant.
  rewrite fold_left_flat_map.
  set (reg := match search_region with Some r => r | None => _ end).
  set (reg' := match search_region with Some r => r | None => _ end).
  assert (reg = reg') as <-.
  { subst reg reg'. destruct search_region; [reflexivity|].
    by destruct (shape (cvtColor image)). }
  generalize (0%Q, (@None Z, @None Z)).
  induction templates as [|tpl templates IH]; intros b; cbn.
  - by destruct b.
  - by rewrite try_template_keep_best, IH.
Qed.

(** The running maximum: either no candidate beats the start value, or
    the result is the first candidate of maximal score. *)
Lemma keep_best_spec (cands : list candidate) : ∀ b : best,
  (fold_left keep_best cands b = b ∧
   ∀ c, c ∈ cands → (score c <= fst b)%Q)
  ∨ (∃ pre c post,
       cands = pre ++ c :: post ∧
       fold_left keep_best cands b = (score c, centre c) ∧
       (fst b < score c)%Q ∧
       (∀ c', c' ∈ pre → (score c' < score c)%Q) ∧
       (∀ c', c' ∈ post → (score c' <= score c)%Q)).
Proof.
  induction cands as [|c cands IH]; intros b; cbn [fold_left].
  - left. split; [reflexivity|]. intros c Hc. by apply elem_of_nil in Hc.
  - destruct (Qgtb (score c) (fst b)) eqn:Hgt.
    all: replace (keep_best b c) with
           (if Qgtb (score c) (fst b) then (score c, centre c) else b)
           by reflexivity.
    all: rewrite Hgt.
    + apply Qgtb_true in Hgt.
      destruct (IH (score c, centre c))
        as [[Heq Hall] | (pre & c' & post & -> & Heq & Hlt & Hpre & Hpost)].
      * right. exists [], c, cands. cbn [fst] in Hall.
        repeat split; [exact Heq|exact Hgt| |exact Hall].
        intros c' Hc'. by apply elem_of_nil in Hc'.
      * right. exists (c :: pre), c', post. cbn [fst] in Hlt.
        repeat split; [exact Heq|lra| |exact Hpost].
        intros c'' [->|Hin]%elem_of_cons; [exact Hlt|by apply Hpre].
    + apply Qgtb_false in Hgt.
      destruct (IH b)
        as [[Heq Hall] | (pre & c' & post & -> & Heq & Hlt & Hpre & Hpost)].
      * left. split; [exact Heq|].
        intros c' [->|Hin]%elem_of_cons; [exact Hgt|by apply Hall].
      * right. exists (c :: pre), c', post.
        repeat split; [exact Heq|exact Hlt| |exact Hpost].
        intros c'' [->|Hin]%elem_of_cons; [lra|by apply Hpre].
Qed.


(** *** The annotations written by [auto_detect_corners] *)

(** The value computed for one image file, if the file can be read. *)
Definition entry_of (templates : list template) (image_dir : string)
    (confidence_threshold : Q) (image_file : string) : option annotation :=
  match imread (OsPath.join image_dir image_file) with
  | None => None
  | Some image =>
      let r := detect_corner_with_templates (Some image) templates None
                 default_scales in
      Some (annotate (fst (fst r)) (snd (fst r)) (snd r) confidence_threshold)
  end.

Lemma process_image_entry templates image_dir thr m f :
  process_image templates image_dir thr m f
  = match entry_of templates image_dir thr f with
    | Some a => <[f := a]> m
    | None => m
    end.
Proof.
  unfold process_image, entry_of.
  destruct (imread _) as [image|]; [|reflexivity].
  by destruct (detect_corner_with_templates _ _ _ _) as [[x y] c].
Qed.

Lemma fold_process_image_lookup templates image_dir thr files : ∀ m f,
  fold_left (process_image templates image_dir thr) files m !! f
  = if decide (f ∈ files) then
      match entry_of templates image_dir thr f with
      | Some a => Some a
      | None => m !! f
      end
    else m !! f.
Proof.
  induction files as [|g files IH]; intros m f; cbn [fold_left].
  - rewrite decide_False; [reflexivity|]. apply not_elem_of_nil.
  - rewrite IH, process_image_entry.
    destruct (decide (f ∈ files)) as [Hin|Hnin].
    + rewrite decide_True by (by right).
      destruct (entry_of templates image_dir thr f) eqn:Hf; [reflexivity|].
      destruct (entry_of templates image_dir thr g) eqn:Hg; [|reflexivity].
      rewrite lookup_insert_ne; [reflexivity|]. intros ->. congruence.
    + destruct (decide (f = g)) as [->|Hne].
      * rewrite decide_True by left.
        destruct (entry_of templates image_dir thr g) eqn:Hg; [|reflexivity].
        by rewrite lookup_insert_eq.
      * rewrite decide_False by (by intros [?|?]%elem_of_cons).
        destruct (entry_of templates image_dir thr g) eqn:Hg; [|reflexivity].
        by rewrite lookup_insert_ne.
Qed.


Lemma elem_of_list_filter_bool {A} (p : A → bool) (l : list A) (x : A) :
  x ∈ List.filter p l ↔ x ∈ l ∧ p x = true.
Proof. rewrite !list_elem_of_In. apply filter_In. Qed.


End WithOpenCV.

(** *** A concrete run: correlation maxima that are not positive *)

Module Negative.

(** Images reduced to their shape (rows, columns). The matcher answers as
    OpenCV does on a 4x4 photograph whose top-right quadrant is the inverse
    of the 2x2 template: a 1x1 scaled template has no variance and scores
    0, the 2x2 template scores -1, both at offset (0, 0). *)
Definition Image : Type := (Z * Z)%type.
Definition shape (i : Image) : Z * Z := i.
Definition imread (path : string) : option Image :=
  if PyStr.contains "templates" path then Some (2, 2)%Z
  else if String.eqb path "images/broken.jpg" then None
  else Some (4, 4)%Z.
Definition cvtColor (i : Image) : Image := i.
Definition match_template (_ : Image) (_ : Z * Z * Z * Z) (_ : Image)
    (size : Z * Z) : Q * (Z * Z) :=
  if (fst size =? 1)%Z then (0%Q, (0, 0)%Z) else ((-1)%Q, (0, 0)%Z).

Definition photo : Image := (4, 4)%Z.
Definition marker : template Image := Template Image (2, 2)%Z "qc.png" (2, 2)%Z.



End Negative.






End Corners.

(** ** scripts/convert_to_coco.py: filtering and the train/val/test split *)

Module Coco.

Import PyNum.

(** One value of the verified annotations; [None] stands for a missing key
    as well as for JSON [null], which [ann.get] does not tell apart. *)
Record annotation := Annotation { a_x : option Q; a_y : option Q }.

(** [ann.get('x') is not None and ann.get('y') is not None] *)
Definition is_valid (a : annotation) : Prop := is_Some (a_x a) ∧ is_Some (a_y a).

#[local] Instance is_valid_dec a : Decision (is_valid a).
Proof. unfold is_valid. apply _. Defined.

(** The order of [sorted] on strings: lexicographic on code points. *)
Definition str_le (a b : string) : Prop := String.leb a b = true.

#[local] Instance str_le_dec a b : Decision (str_le a b).
Proof. unfold str_le. apply _. Defined.

(** A slice bound as Python resolves it against a list of length [n]:
    negative bounds count from the end, and everything is clipped. *)
Definition slice_bound (n : nat) (i : Z) : nat :=
  if (i <? 0)%Z then Z.to_nat (Z.max 0 (i + Z.of_nat n))
  else Z.to_nat (Z.min i (Z.of_nat n)).

(** [l[start:stop]] with optional bounds. *)
Definition py_slice {A} (l : list A) (start stop : option Z) : list A :=
  let a := from_option (slice_bound (length l)) 0%nat start in
  let b := from_option (slice_bound (length l)) (length l) stop in
  drop a (take b l).

Record splits := Splits {
  train_files : list string;
  val_files : list string;
  test_files : list string }.

Section WithShuffle.

(** [np.random.seed(42); np.random.shuffle(image_files)]: some fixed
    rearrangement of the list. *)
Variable shuffle : list string → list string.
Hypothesis shuffle_perm : ∀ l, shuffle l ≡ₚ l.

(** The loop that fills [valid_annotations]. *)
Definition valid_annotations (annotations : gmap string annotation)
  : gmap string annotation :=
  filter (λ kv, is_valid (snd kv)) annotations.

(** [sorted(list(valid_annotations.keys()))], then the shuffle. *)
Definition image_files (annotations : gmap string annotation) : list string :=
  shuffle (merge_sort str_le (map fst (map_to_list (valid_annotations annotations)))).

Definition n_train (annotations : gmap string annotation) (train_ratio : Q) : Z :=
  py_int (inject_Z (Z.of_nat (length (image_files annotations))) * train_ratio).

Definition n_val (annotations : gmap string annotation) (val_ratio : Q) : Z :=
  py_int (inject_Z (Z.of_nat (length (image_files annotations))) * val_ratio).

(** Lines 50-61 of [create_coco_structure]. *)
Definition split_files (annotations : gmap string annotation)
    (train_ratio val_ratio : Q) : splits :=
  let files := image_files annotations in
  let nt := n_train annotations train_ratio in
  let nv := n_val annotations val_ratio in
  {| train_files := py_slice files None (Some nt);
     val_files := py_slice files (Some nt) (Some (nt + nv)%Z);
     test_files := py_slice files (Some (nt + nv)%Z) None |}.

(** *** Slices with bounds that are not negative *)




(** *** The list that is split *)

Lemma image_files_perm annotations :
  image_files annotations
  ≡ₚ map fst (map_to_list (valid_annotations annotations)).
Proof.
  unfold image_files. by rewrite shuffle_perm, merge_sort_Permutation.
Qed.



Lemma elem_of_image_files annotations f :
  f ∈ image_files annotations ↔
  ∃ a, annotations !! f = Some a ∧ is_valid a.
Proof.
  rewrite image_files_perm, list_elem_of_fmap. split.
  - intros ([k a] & -> & Hin). exists a.
    apply elem_of_map_to_list in Hin.
    by apply map_lookup_filter_Some in Hin.
  - intros (a & Hf & Hv). exists (f, a). split; [reflexivity|].
    apply elem_of_map_to_list, map_lookup_filter_Some. done.
Qed.


End WithShuffle.

(** *** A concrete annotations file *)

(** Four annotated photographs and one without a location. *)
Definition sample : gmap string annotation :=
  list_to_map
    [ ("p1.jpg", Annotation (Some 10) (Some 20));
      ("p2.jpg", Annotation (Some 11) (Some 21));
      ("p3.jpg", Annotation None None);
      ("p4.jpg", Annotation (Some 13) (Some 23));
      ("p5.jpg", Annotation (Some 14) (Some 24)) ]%Q.

Lemma reverse_perm (l : list string) : reverse l ≡ₚ l.
Proof. apply reverse_Permutation. Qed.



End Coco.

(** ** scripts/distort_images_pil.py: which files a run creates *)

Module Distort.

(** [f.lower().endswith(('.jpg', '.jpeg'))] *)
Definition is_jpg (f : string) : bool :=
  PyStr.endswith (PyStr.lower f) ".jpg" || PyStr.endswith (PyStr.lower f) ".jpeg".

(** [name, ext = os.path.splitext(filename); f"{name}{suffix}{ext}"] *)
Definition output_filename (suffix filename : string) : string :=
  fst (OsPath.splitext filename) +:+ suffix +:+ snd (OsPath.splitext filename).

Section WithPillow.

(** Whether loading, distorting and saving one input goes through; a
    failure raises inside the [try] and leaves no output file. The random
    contrast and white-balance factors only affect pixel values. *)
Variable processes : string → bool.

(** The loop state: the file names present in the folder and the output
    files saved so far. *)
Definition state := (gset string * list string)%type.

(** The body of [for filename in jpg_files]. *)
Definition process_file (suffix : string) (st : state) (filename : string)
  : state :=
  let out := output_filename suffix filename in
  if decide (out ∈ fst st) then st
  else if processes filename then (fst st ∪ {[out]}, snd st ++ [out])
  else st.

(** [distort_images(input_folder, suffix)]: [folder] is [None] when the
    path does not exist, and otherwise the set of names [os.listdir]
    returns. The result is the folder afterwards with the list of files
    saved. *)
Definition distort_images (folder : option (gset string)) (suffix : string)
  : option (gset string) * list string :=
  match folder with
  | None => (None, [])
  | Some names =>
      let jpg_files := List.filter is_jpg (elements names) in
      match jpg_files with
      | [] => (Some names, [])
      | _ =>
          let jpg_files :=
            List.filter (λ f, negb (PyStr.contains suffix f)) jpg_files in
          let st := fold_left (process_file suffix) jpg_files (names, []) in
          (Some (fst st), snd st)
      end
  end.

(** *** Facts on [in] for strings *)

Lemma append_cons c a b : String c a +:+ b = String c (a +:+ b).
Proof. reflexivity. Qed.

Lemma append_nil b : "" +:+ b = b.
Proof. reflexivity. Qed.

Lemma prefix_append sub b : String.prefix sub (sub +:+ b) = true.
Proof.
  induction sub as [|c sub IH].
  - rewrite append_nil. by destruct b.
  - rewrite append_cons. cbn. by destruct (ascii_dec c c).
Qed.

Lemma contains_unfold sub s :
  PyStr.contains sub s
  = String.prefix sub s
    || match s with
       | EmptyString => false
       | String _ r => PyStr.contains sub r
       end.
Proof. by destruct s. Qed.

Lemma contains_middle a sub b : PyStr.contains sub (a +:+ sub +:+ b) = true.
Proof.
  induction a as [|c a IH].
  - rewrite contains_unfold, append_nil.
    by rewrite prefix_append.
  - rewrite contains_unfold, append_cons.
    rewrite IH. apply orb_true_r.
Qed.

Lemma output_contains_suffix suffix f :
  PyStr.contains suffix (output_filename suffix f) = true.
Proof. apply contains_middle. Qed.

(** *** The loop over the input files *)

Lemma process_file_cases suffix st f :
  (process_file suffix st f = st ∧
   (output_filename suffix f ∈ fst st ∨ processes f = false))
  ∨ (process_file suffix st f
       = (fst st ∪ {[output_filename suffix f]},
          snd st ++ [output_filename suffix f]) ∧
     (output_filename suffix f ∉ fst st) ∧ processes f = true).
Proof.
  unfold process_file.
  destruct (decide (output_filename suffix f ∈ fst st)); [left; auto|].
  destruct (processes f); [right; auto|left; auto].
Qed.

(** What the loop does: it only adds files, every file it adds is the
    output of a processed input that was not there before, and afterwards
    the output of every input that can be processed exists. *)
Lemma process_files_spec suffix l : ∀ st,
  let st' := fold_left (process_file suffix) l st in
  fst st ⊆ fst st' ∧
  (∀ f, f ∈ l → processes f = true → output_filename suffix f ∈ fst st') ∧
  ∃ new,
    snd st' = snd st ++ new ∧
    fst st' = fst st ∪ list_to_set new ∧
    ∀ out, out ∈ new →
      (out ∉ fst st) ∧
      ∃ f, f ∈ l ∧ processes f = true ∧ out = output_filename suffix f.
Proof.
  induction l as [|g l IH]; intros st; cbn [fold_left]; cbv zeta.
  - split; [done|]. split; [by intros f []%elem_of_nil|].
    exists []. rewrite app_nil_r. split; [done|].
    split; [by rewrite list_to_set_nil, (right_id_L ∅ (∪))|].
    by intros out []%elem_of_nil.
  - destruct (IH (process_file suffix st g))
      as (Hsub & Hout & new & Hw & Hfs & Hnew).
    destruct (process_file_cases suffix st g)
      as [[Heq Hwhy] | (Heq & Hfresh & Hproc)]; rewrite Heq in *.
    + split; [exact Hsub|]. split.
      * intros f [->|Hin]%elem_of_cons Hp; [|by apply Hout].
        destruct Hwhy as [Hthere|Hno]; [by apply Hsub|congruence].
      * exists new. split; [exact Hw|]. split; [exact Hfs|].
        intros out Hin. destruct (Hnew out Hin) as (? & f & ? & ? & ?).
        split; [done|]. exists f. split; [by right|done].
    + cbn [fst snd] in *. split.
      { etrans; [|exact Hsub]. apply union_subseteq_l. }
      split.
      * intros f [->|Hin]%elem_of_cons Hp; [|by apply Hout].
        apply Hsub, elem_of_union_r, elem_of_singleton. done.
      * exists (output_filename suffix g :: new).
        split; [by rewrite Hw, <- app_assoc|].
        split; [by rewrite Hfs, list_to_set_cons, (assoc_L (∪))|].
        intros out [->|Hin]%elem_of_cons.
        -- split; [done|]. exists g. split; [by left|done].
        -- destruct (Hnew out Hin) as (Hn & f & ? & ? & ?).
           split; [intros ?; by apply Hn, elem_of_union_l|].
           exists f. split; [by right|done].
Qed.

(** A loop in which every input is skipped or fails changes nothing. *)
Lemma process_files_noop suffix l : ∀ st,
  (∀ f, f ∈ l →
        output_filename suffix f ∈ fst st ∨ processes f = false) →
  fold_left (process_file suffix) l st = st.
Proof.
  induction l as [|g l IH]; intros st Hall; cbn [fold_left]; [reflexivity|].
  destruct (process_file_cases suffix st g)
    as [[Heq _] | (_ & Hfresh & Hproc)].
  - rewrite Heq. apply IH. intros f Hf. apply Hall. by right.
  - destruct (Hall g) as [?|?]; [by left|done|congruence].
Qed.

(** The inputs a run loops over. *)
Definition inputs (names : gset string) (suffix : string) : list string :=
  List.filter (λ f, negb (PyStr.contains suffix f))
    (List.filter is_jpg (elements names)).

Lemma elem_of_inputs names suffix f :
  f ∈ inputs names suffix ↔
  f ∈ names ∧ is_jpg f = true ∧ PyStr.contains suffix f = false.
Proof.
  unfold inputs. rewrite !list_elem_of_In, !filter_In, <- list_elem_of_In.
  rewrite elem_of_elements, negb_true_iff. tauto.
Qed.

Lemma distort_images_fold names suffix :
  distort_images (Some names) suffix
  = (Some (fst (fold_left (process_file suffix) (inputs names suffix)
                  (names, []))),
     snd (fold_left (process_file suffix) (inputs names suffix) (names, []))).
Proof.
  unfold distort_images, inputs.
  by destruct (List.filter is_jpg (elements names)).
Qed.

(** C7: [distort_images] is idempotent on the set of files. A run only
    saves outputs of inputs whose name does not contain the suffix, and
    only where no file of that name exists; a second run on the folder
    left by the first one, with the same suffix, saves no file and leaves
    the folder as it is. *)
Theorem C7_second_run_writes_nothing (names : gset string) (suffix : string) :
  let run1 := distort_images (Some names) suffix in
  let run2 := distort_images (fst run1) suffix in
  (∀ out, out ∈ snd run1 →
     (out ∉ names) ∧
     ∃ f, f ∈ names ∧ is_jpg f = true ∧ PyStr.contains suffix f = false ∧
          out = output_filename suffix f) ∧
  (∃ names1, fst run1 = Some names1 ∧
             names1 = names ∪ list_to_set (snd run1)) ∧
  snd run2 = [] ∧
  fst run2 = fst run1.
Proof.
  cbv zeta. rewrite distort_images_fold. cbn [fst snd].
  destruct (process_files_spec suffix (inputs names suffix) (names, []))
    as (Hsub & Hout & new & Hw & Hfs & Hnew).
  cbn [fst snd app] in *.
  set (st1 := fold_left (process_file suffix) (inputs names suffix)
                (names, [])) in *.
  assert (fold_left (process_file suffix) (inputs (fst st1) suffix)
            (fst st1, []) = (fst st1, [])) as Hnoop.
  { apply process_files_noop. cbn [fst]. intros f Hf.
    apply elem_of_inputs in Hf as (Hin & Hjpg & Hsuf).
    assert (f ∈ names) as Hold.
    { rewrite Hfs in Hin. apply elem_of_union in Hin as [?|Hin]; [done|].
      apply elem_of_list_to_set in Hin.
      destruct (Hnew f Hin) as (_ & g & _ & _ & ->).
      rewrite output_contains_suffix in Hsuf. discriminate. }
    destruct (processes f) eqn:Hp; [left|by right].
    apply Hout; [|exact Hp]. by apply elem_of_inputs. }
  split; [|split; [|split]].
  - intros out Hin. rewrite Hw in Hin.
    destruct (Hnew out Hin) as (Hfresh & f & Hf & _ & ->).
    split; [exact Hfresh|]. exists f.
    apply elem_of_inputs in Hf as (? & ? & ?). done.
  - exists (fst st1). split; [reflexivity|]. by rewrite Hw.
  - by rewrite distort_images_fold, Hnoop.
  - by rewrite distort_images_fold, Hnoop.
Qed.

End WithPillow.

(** A folder on which the first run saves one file and the second none. *)
Example distort_twice :
  let names : gset string := {[ "a.jpg"; "b.JPEG"; "b_distorted.JPEG"; "notes.txt" ]} in
  distort_images (λ _, true) (Some names) "_distorted"
    = (Some (names ∪ {[ "a_distorted.jpg" ]}), ["a_distorted.jpg"]) ∧
  distort_images (λ _, true) (Some (names ∪ {[ "a_distorted.jpg" ]}))
    "_distorted"
    = (Some (names ∪ {[ "a_distorted.jpg" ]}), []).
Proof. split; vm_compute; reflexivity. Qed.

End Distort.

(** ** FieldChartOCR/generate_synthetic_bar_tables.py *)

Module SynthTables.

Import PyNum.

Definition SINGLE_SERIES_CATEGORY_POOLS : list (list string) :=
  [
    ["Lion"; "Zebra"; "Bear"; "Tiger"; "Snake"; "Giraffe"; "Hippo"];
    ["Solar"; "Wind"; "Hydro"; "Nuclear"; "Geothermal"; "Biomass"];
    ["Q1"; "Q2"; "Q3"; "Q4"];
    ["Compressor"; "Generator"; "Pump"; "Valve"; "Sensor"; "Actuator"];
    ["North"; "South"; "East"; "West"; "Central"];
    ["Prototype A"; "Prototype B"; "Prototype C"; "Prototype D"];
    ["Apple"; "Banana"; "Cherry"; "Date"; "Fig"];
    ["Copper"; "Iron"; "Gold"; "Silver"; "Platinum"];
    ["Monday"; "Tuesday"; "Wednesday"; "Thursday"; "Friday"];
    ["Jazz"; "Rock"; "Pop"; "Classical"; "Hip-Hop"];
    ["Alpha"; "Beta"; "Gamma"; "Delta"; "Epsilon"; "Zeta"];
    ["Python"; "Java"; "C++"; "JavaScript"; "Go"; "Rust"];
    ["SUV"; "Sedan"; "Truck"; "Coupe"; "Convertible"];
    ["Red"; "Green"; "Blue"; "Yellow"; "Black"; "White"];
    ["Dog"; "Cat"; "Rabbit"; "Horse"; "Sheep"; "Cow"];
    ["Coffee"; "Tea"; "Juice"; "Water"; "Milk"; "Soda"];
    ["Rectangle"; "Circle"; "Triangle"; "Square"; "Pentagon"; "Hexagon"];
    ["Jazz"; "Blues"; "Reggae"; "Funk"; "Soul"; "Country"];
    ["Chef"; "Doctor"; "Lawyer"; "Engineer"; "Artist"];
    ["Physics"; "Chemistry"; "Biology"; "Math"; "Geology"; "Astronomy"];
    ["Bread"; "Rice"; "Pasta"; "Potato"; "Corn"; "Quinoa"];
    ["Star"; "Planet"; "Comet"; "Asteroid"; "Nebula"; "Galaxy"];
    ["Winter"; "Spring"; "Summer"; "Autumn"];
    ["Guitar"; "Piano"; "Drums"; "Violin"; "Trumpet"; "Cello"];
    ["Oak"; "Pine"; "Birch"; "Maple"; "Spruce"; "Cedar"];
    ["Red"; "Orange"; "Yellow"; "Green"; "Blue"; "Indigo"; "Violet"];
    ["Circle"; "Ellipse"; "Arc"; "Sector"; "Chord"];
    ["Bus"; "Train"; "Plane"; "Boat"; "Bicycle"; "Car"];
    ["Mercury"; "Venus"; "Earth"; "Mars"; "Jupiter"; "Saturn"];
    ["Server"; "Client"; "Database"; "Router"; "Switch"]
  ].

Definition GROUP_PRIMARY_LABELS : list (list string) :=
  [
    ["Green"; "Blue"; "Yellow"; "Red"; "Purple"];
    ["Project A"; "Project B"; "Project C"; "Project D"];
    ["Team Alpha"; "Team Beta"; "Team Gamma"; "Team Delta"];
    ["Year 1"; "Year 2"; "Year 3"; "Year 4"];
    ["Summer"; "Autumn"; "Winter"; "Spring"];
    ["Europe"; "Asia"; "Africa"; "America"];
    ["Bronze"; "Silver"; "Gold"; "Platinum"];
    ["Leader"; "Member"; "Advisor"; "Intern"];
    ["Vanilla"; "Chocolate"; "Strawberry"; "Mint"; "Coffee"];
    ["CPU"; "GPU"; "RAM"; "SSD"; "HDD"];
    ["Morning"; "Afternoon"; "Evening"; "Night"];
    ["Section 1"; "Section 2"; "Section 3"; "Section 4"];
    ["Windows"; "Mac"; "Linux"; "Unix"];
    ["Dog"; "Cat"; "Horse"; "Bird"];
    ["Easy"; "Medium"; "Hard"; "Expert"];
    ["Sales"; "Marketing"; "Engineering"; "HR"];
    ["Primary"; "Secondary"; "Tertiary"; "Quaternary"];
    ["Student"; "Teacher"; "Principal"; "Counselor"];
    ["A"; "B"; "C"; "D"; "E"; "F"];
    ["Sakura"; "Rose"; "Tulip"; "Lily"];
    ["Song 1"; "Song 2"; "Song 3"; "Song 4"; "Song 5"];
    ["Batch 1"; "Batch 2"; "Batch 3"];
    ["Alpha 1"; "Alpha 2"; "Beta 1"; "Beta 2"];
    ["Product X"; "Product Y"; "Product Z"];
    ["East"; "West"; "North"; "South"];
    ["Freshman"; "Sophomore"; "Junior"; "Senior"];
    ["Admin"; "User"; "Guest"; "Moderator"];
    ["Quarter 1"; "Quarter 2"; "Quarter 3"; "Quarter 4"]
  ].

Definition GROUP_SECONDARY_LABELS : list (list string) :=
  [
    ["Preschool"; "Primary"; "Secondary"];
    ["On-Time"; "Delayed"; "Critical"];
    ["Low"; "Medium"; "High"];
    ["Week 1"; "Week 2"; "Week 3"; "Week 4"];
    ["Yes"; "No"; "Maybe"];
    ["Standard"; "Premium"; "Deluxe"];
    ["1st"; "2nd"; "3rd"];
    ["Small"; "Medium"; "Large"; "Extra Large"];
    ["Gold"; "Silver"; "Bronze"];
    ["Less"; "Equal"; "More"];
    ["Blue"; "Red"; "Green"; "Yellow"];
    ["Pass"; "Fail"; "Incomplete"];
    ["Short"; "Medium"; "Tall"];
    ["Circle"; "Square"; "Triangle"];
    ["Spring"; "Summer"; "Autumn"; "Winter"];
    ["Young"; "Adult"; "Senior"];
    ["Single"; "Double"; "Triple"];
    ["Morning"; "Noon"; "Night"];
    ["Home"; "Away"; "Neutral"];
    ["Odd"; "Even"; "Prime"];
    ["Mild"; "Spicy"; "Hot"];
    ["Economy"; "Business"; "First"];
    ["A"; "B"; "C"; "D"];
    ["East"; "West"; "Central"];
    ["Red"; "Green"; "Blue"];
    ["Hot"; "Warm"; "Cool"; "Cold"];
    ["Sunny"; "Cloudy"; "Rainy"; "Snowy"];
    ["Alpha"; "Beta"; "Gamma"]
  ].

(** The dataclass [TableSpec]. *)
Record TableSpec := {
  table_type : string;
  header : list string;
  source_file : string;
  primary_label : option string;
  secondary_label : option string;
  notes : option string }.

(** [sep.join(parts)] *)
Fixpoint join_with (sep : string) (parts : list string) : string :=
  match parts with
  | [] => ""
  | [p] => p
  | p :: rest => p +:+ sep +:+ join_with sep rest
  end.

(** [round(x)] on a float: to the nearest integer, ties to even. *)
Definition py_round (x : Q) : Z :=
  let f := Qfloor x in
  let d := (x - inject_Z f)%Q in
  if Qltb d (1 # 2) then f
  else if Qgtb d (1 # 2) then (f + 1)%Z
  else if Z.even f then f else (f + 1)%Z.

(** [sum(xs)]: left to right from 0. *)
Definition py_sum (xs : list Q) : Q := fold_left Qplus xs 0%Q.

(** *** The [random] module *)

(** Computations that consume random draws: the state is the number of
    draws used so far. *)
Definition Rand (A : Type) : Type := nat → A * nat.

#[local] Instance rand_ret : MRet Rand := λ A x i, (x, i).
#[local] Instance rand_bind : MBind Rand :=
  λ A B f m i, let '(x, j) := m i in f x j.

Fixpoint mapM {A B} (f : A → Rand B) (l : list A) : Rand (list B) :=
  match l with
  | [] => mret []
  | x :: rest => y ← f x; ys ← mapM f rest; mret (y :: ys)
  end.

Section WithEntropy.

(** The generator's raw output, one rational per draw; every outcome of
    the calls below arises from some such sequence. *)
Variable draw : nat → Q.

(** [random.randint(a, b)]: an integer of [a..b]. *)
Definition randint (a b : Z) : Rand Z :=
  λ i, ((a + Qfloor (draw i) `mod` (b - a + 1))%Z, S i).

(** [random.choice(pool)] *)
Definition choice (pool : list (list string)) : Rand (list string) :=
  λ i, (nth (Z.to_nat (Qfloor (draw i) `mod` Z.of_nat (length pool))) pool [],
        S i).

(** [random.uniform(a, b)]: [a + (b - a) * random()] with [random()] in
    [0, 1). *)
Definition uniform (a b : Q) : Rand Q :=
  λ i, ((a + (b - a) * (draw i - inject_Z (Qfloor (draw i))))%Q, S i).

(** [random.gauss(mu, sigma)]: any float. *)
Definition gauss (mu sigma : Q) : Rand Q :=
  λ i, ((mu + sigma * draw i)%Q, S i).

Definition random_from_pool (pool : list (list string)) : Rand (list string) :=
  choice pool.

(** [choose_labels(pool, min_len, max_len)] *)
Definition choose_labels (pool : list (list string)) (min_len max_len : Z)
  : Rand (list string) :=
  labels ← random_from_pool pool;
  k ← randint (Z.min min_len (Z.of_nat (length labels)))
              (Z.min max_len (Z.of_nat (length labels)));
  mret (take (Z.to_nat k) labels).

(** The body of [for label in labels] of [gen_single_series]. *)
Definition single_row (label : string) : Rand (string * Z) :=
  base ← randint 10 70;
  noise ← randint (-5) 8;
  let value := Z.max 1 (base + noise) in
  mret (label, value).

(** [gen_single_series()] *)
Definition gen_single_series : Rand (TableSpec * list (string * Z)) :=
  labels ← choose_labels SINGLE_SERIES_CATEGORY_POOLS 4 6;
  let header := ["Category"; "Value"] in
  rows ← mapM single_row labels;
  let spec :=
    {| table_type := "single_series"; header := header;
       source_file := "sample_table_001.csv";
       primary_label := None; secondary_label := None;
       notes := Some "Synthesized single-series bar chart table." |} in
  mret (spec, rows).

(** The body of [for primary in primary_labels] of
    [gen_grouped_series]. *)
Definition gen_group (secondary_labels : list string) (primary : string)
  : Rand (list (string * string * Z)) :=
  base ← randint 5 9;
  share_total ← uniform 12 25;
  weights ← mapM (λ _, g ← gauss 1 (4 # 10); mret (Qabs g)) secondary_labels;
  let weight_sum :=
    if Qeq_bool (py_sum weights) 0 then 1%Q else py_sum weights in
  let normalized := map (λ w, (w / weight_sum)%Q) weights in
  mapM (λ sw : string * Q,
          u ← uniform (- (3 # 2)) (3 # 2);
          let value :=
            Z.max 1 (py_round (inject_Z base + share_total * snd sw + u)) in
          mret (primary, fst sw, value))
       (zip secondary_labels normalized).

(** [gen_grouped_series()] *)
Definition gen_grouped_series
  : Rand (TableSpec * list (string * string * Z)) :=
  primary_labels ← choose_labels GROUP_PRIMARY_LABELS 3 5;
  secondary_labels ← choose_labels GROUP_SECONDARY_LABELS 3 4;
  let header := ["Group"; "Subgroup"; "Value"] in
  groups ← mapM (gen_group secondary_labels) primary_labels;
  let rows := concat groups in
  let spec :=
    {| table_type := "grouped_series"; header := header;
       source_file := "sample_table_002.csv";
       primary_label := Some (join_with "/" primary_labels);
       secondary_label := Some (join_with "/" secondary_labels);
       notes := Some "Synthesized grouped bar chart table." |} in
  mret (spec, rows).

(** *** Facts on the monadic loops *)

Lemma mapM_length {A B} (f : A → Rand B) (l : list A) : ∀ i,
  length (fst (mapM f l i)) = length l.
Proof.
  induction l as [|x l IH]; intros i; [reflexivity|].
  cbn [mapM]. unfold mbind, rand_bind, mret, rand_ret.
  destruct (f x i) as [y j]. specialize (IH j).
  destruct (mapM f l j) as [ys k]. cbn in *. by rewrite IH.
Qed.

Lemma mapM_Forall {A B} (P : B → Prop) (f : A → Rand B) (l : list A) :
  (∀ x i, P (fst (f x i))) → ∀ i, Forall P (fst (mapM f l i)).
Proof.
  intros Hf. induction l as [|x l IH]; intros i; [constructor|].
  cbn [mapM]. unfold mbind, rand_bind, mret, rand_ret.
  pose proof (Hf x i) as Hx. destruct (f x i) as [y j].
  specialize (IH j). destruct (mapM f l j) as [ys k].
  cbn in *. by constructor.
Qed.

Lemma randint_range a b i :
  (a <= b)%Z → (a <= fst (randint a b i) <= b)%Z.
Proof.
  intros Hab. unfold randint. cbn [fst].
  pose proof (Z.mod_pos_bound (Qfloor (draw i)) (b - a + 1)). lia.
Qed.

Lemma choice_elem pool i : pool ≠ [] → fst (choice pool i) ∈ pool.
Proof.
  intros Hne. unfold choice. cbn [fst].
  apply list_elem_of_In, nth_In.
  assert (0 < length pool)%nat by (destruct pool; [done|cbn; lia]).
  pose proof (Z.mod_pos_bound (Qfloor (draw i)) (Z.of_nat (length pool))).
  lia.
Qed.

(** [choose_labels] returns between [min_len] and [max_len] labels when
    every list of the pool has at least [min_len] of them. *)
Lemma choose_labels_length pool (min_len max_len : Z) i :
  pool ≠ [] → (0 <= min_len <= max_len)%Z →
  Forall (λ labels, (min_len <= Z.of_nat (length labels))%Z) pool →
  (min_len <= Z.of_nat (length (fst (choose_labels pool min_len max_len i)))
     <= max_len)%Z.
Proof.
  intros Hne Hlen Hpool. unfold choose_labels, random_from_pool.
  unfold mbind, rand_bind, mret, rand_ret.
  pose proof (choice_elem pool i Hne) as Hin.
  destruct (choice pool i) as [labels j]. cbn [fst] in Hin.
  rewrite Forall_forall in Hpool. specialize (Hpool labels Hin).
  pose proof (randint_range
                (Z.min min_len (Z.of_nat (length labels)))
                (Z.min max_len (Z.of_nat (length labels))) j) as Hk.
  destruct (randint _ _ j) as [k j']. cbn [fst] in *.
  rewrite length_take. lia.
Qed.

Lemma single_pools_ok :
  SINGLE_SERIES_CATEGORY_POOLS ≠ [] ∧
  Forall (λ labels, (4 <= Z.of_nat (length labels))%Z)
    SINGLE_SERIES_CATEGORY_POOLS.
Proof.
  split; [discriminate|].
  apply (bool_decide_unpack _). vm_compute. exact I.
Qed.

Lemma gen_group_values secondary_labels primary i :
  Forall (λ r : string * string * Z, (1 <= snd r)%Z)
    (fst (gen_group secondary_labels primary i)).
Proof.
  unfold gen_group. unfold mbind at 1 2 3, rand_bind at 1 2 3.
  destruct (randint 5 9 i) as [base i1].
  destruct (uniform 12 25 i1) as [share_total i2].
  destruct (mapM _ secondary_labels i2) as [weights i3].
  apply mapM_Forall. intros [secondary weight] j.
  unfold mbind, rand_bind, mret, rand_ret.
  destruct (uniform _ _ j) as [u j']. cbn [fst snd]. lia.
Qed.

Lemma gen_single_series_rows i :
  snd (fst (gen_single_series i))
  = fst (mapM single_row
           (fst (choose_labels SINGLE_SERIES_CATEGORY_POOLS 4 6 i))
           (snd (choose_labels SINGLE_SERIES_CATEGORY_POOLS 4 6 i))).
Proof.
  unfold gen_single_series. unfold mbind at 1 2, rand_bind at 1 2.
  destruct (choose_labels _ _ _ i) as [labels i1]. cbn [fst snd].
  by destruct (mapM single_row labels i1).
Qed.

Lemma gen_single_series_header i :
  header (fst (fst (gen_single_series i))) = ["Category"; "Value"].
Proof.
  unfold gen_single_series. unfold mbind at 1 2, rand_bind at 1 2.
  destruct (choose_labels _ _ _ i) as [labels i1].
  by destruct (mapM single_row labels i1).
Qed.

Lemma single_row_value label i : (1 <= snd (fst (single_row label i)))%Z.
Proof.
  unfold single_row, mbind, rand_bind, mret, rand_ret.
  destruct (randint 10 70 i) as [base i1].
  destruct (randint (-5) 8 i1) as [noise i2]. cbn [fst snd]. lia.
Qed.

Lemma gen_grouped_series_rows j :
  ∃ primary_labels secondary_labels j2,
    snd (fst (gen_grouped_series j))
    = concat (fst (mapM (gen_group secondary_labels) primary_labels j2)).
Proof.
  unfold gen_grouped_series. unfold mbind at 1 2 3, rand_bind at 1 2 3.
  destruct (choose_labels _ _ _ j) as [primary_labels j1].
  destruct (choose_labels _ _ _ j1) as [secondary_labels j2].
  exists primary_labels, secondary_labels, j2.
  by destruct (mapM _ primary_labels j2).
Qed.

(** C9: every ['Value'] written by [gen_single_series] and
    [gen_grouped_series] is an integer of at least 1, whatever the random
    draws are, and a single-series table has between 4 and 6 data rows
    under the header [('Category', 'Value')]. *)
Theorem C9_values_at_least_one_and_single_row_count (i j : nat) :
  let single := fst (gen_single_series i) in
  let grouped := fst (gen_grouped_series j) in
  header (fst single) = ["Category"; "Value"] ∧
  (4 <= length (snd single) <= 6)%nat ∧
  Forall (λ r : string * Z, (1 <= snd r)%Z) (snd single) ∧
  Forall (λ r : string * string * Z, (1 <= snd r)%Z) (snd grouped).
Proof.
  cbv zeta. split; [|split; [|split]].
  - apply gen_single_series_header.
  - rewrite gen_single_series_rows, mapM_length.
    destruct single_pools_ok as [Hne Hpool].
    pose proof (choose_labels_length SINGLE_SERIES_CATEGORY_POOLS 4 6 i
                  Hne ltac:(lia) Hpool). lia.
  - rewrite gen_single_series_rows. apply mapM_Forall.
    intros label k. apply single_row_value.
  - destruct (gen_grouped_series_rows j) as (prim & sec & j2 & ->).
    apply Forall_concat, mapM_Forall. intros primary k.
    apply gen_group_values.
Qed.

End WithEntropy.

(** One table of each kind from the draws 0, 1/3, 2/3, 1, ... *)
Example single_series_run :
  snd (fst (gen_single_series (λ i, Z.of_nat i # 3) 0))
  = [("Lion", 6%Z); ("Zebra", 7%Z); ("Bear", 9%Z); ("Tiger", 10%Z)].
Proof. vm_compute. reflexivity. Qed.

End SynthTables.

(** ** scripts/extract_binary_matrix.py: from the grid region to the matrix *)

Module BinaryMatrix.

Import PyNum.

(** A two-dimensional numpy array of integers as its list of rows. *)
Abbreviation matrix := (list (list Z)).

(** [np.zeros((rows, cols), dtype=int)] *)
Definition zeros (rows cols : nat) : matrix := replicate rows (replicate cols 0%Z).

(** [m[i, j] = v] *)
Definition set2 (i j : nat) (v : Z) (m : matrix) : matrix :=
  alter (λ row, <[j := v]> row) i m.

(** [m[i, j]] *)
Definition get2 (m : matrix) (i j : nat) : option Z :=
  row ← m !! i; row !! j.

(** [a[y0:y1, x0:x1]] for bounds inside the array, flattened. *)
Definition cells (a : matrix) (y0 y1 x0 x1 : nat) : list Z :=
  concat (map (λ row, drop x0 (take x1 row)) (drop y0 (take y1 a))).

(** [np.mean]: [None] stands for the [nan] of an empty region. *)
Definition np_mean (xs : list Z) : option Q :=
  match xs with
  | [] => None
  | _ => Some (inject_Z (fold_left Z.add xs 0%Z)
               / inject_Z (Z.of_nat (length xs)))%Q
  end.

(** The test made for cell [(i, j)]: the sampled window is not empty and
    its mean is below 128. *)
Definition filled (grid_region : matrix) (i j : nat) : bool :=
  let h := length grid_region in
  let w := length (hd [] grid_region) in
  let cell_h := (h / 5)%nat in
  let cell_w := (w / 5)%nat in
  let y_start := (i * cell_h + cell_h / 8)%nat in
  let y_end := ((i + 1) * cell_h - cell_h / 8)%nat in
  let x_start := (j * cell_w + cell_w / 8)%nat in
  let x_end := ((j + 1) * cell_w - cell_w / 8)%nat in
  if (y_start <? y_end)%nat && (x_start <? x_end)%nat then
    match np_mean (cells grid_region y_start y_end x_start x_end) with
    | Some mean_value => Qltb mean_value 128
    | None => false
    end
  else false.

(** The body of the two nested loops. *)
Definition mark_cell (grid_region : matrix) (pattern : matrix)
    (ij : nat * nat) : matrix :=
  if filled grid_region (fst ij) (snd ij)
  then set2 (fst ij) (snd ij) 1 pattern else pattern.

(** [for i in range(5): for j in range(5)], row by row. *)
Definition cell_indices : list (nat * nat) :=
  i ← seq 0 5; j ← seq 0 5; [(i, j)].

Definition pattern_5x5 (grid_region : matrix) : matrix :=
  fold_left (mark_cell grid_region) cell_indices (zeros 5 5).

(** [dst[:rows, :cols] = src] for a [src] of that shape. *)
Fixpoint assign_block (dst src : matrix) : matrix :=
  match src, dst with
  | s :: src', d :: dst' => (s ++ drop (length s) d) :: assign_block dst' src'
  | _, _ => dst
  end.

Definition pattern_6x6 (grid_region : matrix) : matrix :=
  assign_block (zeros 6 6) (pattern_5x5 grid_region).

(** *** Shapes and element access *)

Definition has_shape (rows cols : nat) (m : matrix) : Prop :=
  length m = rows ∧ Forall (λ row, length row = cols) m.

Lemma zeros_shape rows cols : has_shape rows cols (zeros rows cols).
Proof.
  unfold has_shape, zeros. rewrite length_replicate. split; [done|].
  apply Forall_replicate, length_replicate.
Qed.

Lemma set2_shape rows cols i j v m :
  has_shape rows cols m → has_shape rows cols (set2 i j v m).
Proof.
  unfold has_shape, set2. intros [Hlen Hrows]. rewrite length_alter.
  split; [done|].
  apply Forall_alter; [done|]. intros row _ Hrow.
  by rewrite length_insert.
Qed.

Lemma get2_set2 m i j v i' j' :
  get2 (set2 i j v m) i' j'
  = if decide (i = i' ∧ j = j') then (λ _, v) <$> get2 m i' j' else get2 m i' j'.
Proof.
  unfold get2, set2.
  destruct (decide (i = i')) as [<-|Hi].
  - rewrite list_lookup_alter_eq.
    destruct (m !! i) as [row|] eqn:Hrow; cbn.
    + destruct (decide (j = j')) as [<-|Hj].
      * rewrite decide_True by done.
        destruct (row !! j) eqn:Hj.
        -- rewrite list_lookup_insert_eq; [done|].
           by apply lookup_lt_Some in Hj.
        -- apply lookup_ge_None in Hj. cbn.
           apply lookup_ge_None. by rewrite length_insert.
      * rewrite decide_False by (intros [_ ?]; done).
        by rewrite list_lookup_insert_ne.
    + by destruct (decide (i = i ∧ j = j')).
  - rewrite list_lookup_alter_ne by done.
    rewrite decide_False by (intros [? _]; done). done.
Qed.

Lemma fold_mark_shape grid_region idxs : ∀ m,
  has_shape 5 5 m → has_shape 5 5 (fold_left (mark_cell grid_region) idxs m).
Proof.
  induction idxs as [|ij idxs IH]; intros m Hm; cbn [fold_left]; [done|].
  apply IH. unfold mark_cell.
  destruct (filled grid_region ij.1 ij.2); [by apply set2_shape|done].
Qed.

(** After the loops, a cell holds 1 when it was visited and tested dark,
    and its former value otherwise. *)
Lemma fold_mark_get2 grid_region idxs : ∀ m i j,
  get2 (fold_left (mark_cell grid_region) idxs m) i j
  = if bool_decide ((i, j) ∈ idxs) && filled grid_region i j
    then (λ _, 1%Z) <$> get2 m i j else get2 m i j.
Proof.
  induction idxs as [|[i0 j0] idxs IH]; intros m i j; cbn [fold_left].
  - rewrite bool_decide_eq_false_2; [done|]. apply not_elem_of_nil.
  - rewrite IH. unfold mark_cell. cbn [fst snd].
    destruct (decide ((i, j) = (i0, j0))) as [[= -> ->]|Hne].
    + rewrite (bool_decide_eq_true_2 ((i0, j0) ∈ (i0, j0) :: idxs))
        by left.
      destruct (filled grid_region i0 j0) eqn:Hf.
      * rewrite get2_set2, decide_True by done.
        rewrite andb_true_r, andb_true_l.
        destruct (bool_decide _); [|done].
        by destruct (get2 m i0 j0).
      * by rewrite !andb_false_r.
    + assert (bool_decide ((i, j) ∈ (i0, j0) :: idxs)
              = bool_decide ((i, j) ∈ idxs)) as ->.
      { apply bool_decide_ext. rewrite elem_of_cons. tauto. }
      destruct (filled grid_region i0 j0); [|done].
      rewrite get2_set2, decide_False; [done|].
      intros [-> ->]. done.
Qed.

Lemma elem_of_cell_indices i j :
  (i < 5)%nat → (j < 5)%nat → (i, j) ∈ cell_indices.
Proof.
  intros Hi Hj. unfold cell_indices.
  apply list_elem_of_bind. exists i. split.
  - apply list_elem_of_bind. exists j. split; [by left|].
    apply elem_of_seq. lia.
  - apply elem_of_seq. lia.
Qed.

Lemma pattern_5x5_get2 grid_region i j :
  (i < 5)%nat → (j < 5)%nat →
  get2 (pattern_5x5 grid_region) i j
  = Some (if filled grid_region i j then 1 else 0)%Z.
Proof.
  intros Hi Hj. unfold pattern_5x5. rewrite fold_mark_get2.
  rewrite bool_decide_eq_true_2 by (by apply elem_of_cell_indices).
  assert (get2 (zeros 5 5) i j = Some 0%Z) as ->.
  { do 5 (destruct i as [|i]; [do 5 (destruct j as [|j]; [done|]); lia|]).
    lia. }
  by destruct (filled grid_region i j).
Qed.

(** A matrix of five rows of five entries is determined by its 25
    entries. *)
Lemma shape_5x5_eq (m : matrix) :
  has_shape 5 5 m →
  m = map (λ i, map (λ j, default 0%Z (get2 m i j)) (seq 0 5)) (seq 0 5).
Proof.
  intros [Hlen Hrows].
  do 5 (destruct m as [|? m]; [discriminate|]).
  destruct m; [|discriminate].
  repeat match goal with
         | H : Forall _ (_ :: _) |- _ =>
             apply Forall_cons in H as [? H]
         end.
  repeat match goal with
         | H : length ?l = 5%nat |- _ =>
             do 5 (destruct l as [|? l]; [discriminate|]);
             destruct l; [clear H|discriminate]
         end.
  reflexivity.
Qed.

(** The cell of the printed matrix at row [i], column [j]. *)
Definition padded_cell (grid_region : matrix) (i j : nat) : Z :=
  if (i <? 5)%nat && (j <? 5)%nat && filled grid_region i j then 1%Z
  else 0%Z.


(** A 10x10 region whose top-left 2x2 cell is black and the rest white. *)
Definition corner_dark : matrix :=
  replicate 2 (replicate 2 0%Z ++ replicate 8 255%Z)
  ++ replicate 8 (replicate 10 255%Z).

Example corner_dark_matrix :
  pattern_6x6 corner_dark
  = [ [1; 0; 0; 0; 0; 0]; [0; 0; 0; 0; 0; 0]; [0; 0; 0; 0; 0; 0];
      [0; 0; 0; 0; 0; 0]; [0; 0; 0; 0; 0; 0]; [0; 0; 0; 0; 0; 0] ]%Z.
Proof. vm_compute. reflexivity. Qed.

End BinaryMatrix.

(** ** scripts/homework_signer.py: more on the bar encoder, and the
    stand-alone SVG generator *)

Module BarcodeSvg.

Import Barcode.


(** A rectangle added to the drawing: insert point and size. *)
Record rect := Rect { r_x : Z; r_y : Z; r_w : Z; r_h : Z }.

(** The drawing handed to [svgwrite]: file name, size and rectangles in
    the order they are added. *)
Record drawing := Drawing {
  d_filename : string;
  d_size : Z * Z;
  d_rects : list rect }.

Section Generator.

(** The keyword arguments of [generate_4state_barcode_svg]. *)
Variables bar_width space height_full height_asc height_desc tracker_height : Z.

(** The [if bar == 'F' ... elif bar == 'T'] chain at horizontal position
    [x]; any other character adds nothing. *)
Definition rect_of_bar (bar : ascii) (x : Z) : list rect :=
  let y_full := 0%Z in
  let y_tracker := ((height_full - tracker_height) `div` 2)%Z in
  if Ascii.eqb bar "F" then [Rect x y_full bar_width height_full]
  else if Ascii.eqb bar "A" then [Rect x y_full bar_width height_asc]
  else if Ascii.eqb bar "D" then
    [Rect x (height_full - height_desc) bar_width height_desc]
  else if Ascii.eqb bar "T" then [Rect x y_tracker bar_width tracker_height]
  else [].

(** [for bar in bars: ...; x += bar_width + space] *)
Fixpoint draw_bars (bars : list ascii) (x : Z) : list rect :=
  match bars with
  | [] => []
  | bar :: rest =>
      rect_of_bar bar x ++ draw_bars rest (x + (bar_width + space))%Z
  end.

(** [generate_4state_barcode_svg]; [has_svgwrite] is the module flag, and
    [None] is the [ImportError] raised without it. *)
Definition generate_4state_barcode_svg (has_svgwrite : bool) (data : string)
    (filename : string) : option drawing :=
  if negb has_svgwrite then None
  else
    let bars := encode_4state_barcode data in
    Some {| d_filename := filename;
            d_size := ((Z.of_nat (length bars) * (bar_width + space))%Z,
                       height_full);
            d_rects := draw_bars bars 0 |}.

End Generator.

(** *** The encoder *)

Lemma encode_app a b :
  encode_4state_barcode (a +:+ b)
  = encode_4state_barcode a ++ encode_4state_barcode b.
Proof.
  induction a as [|c a IH]; [reflexivity|].
  change (String c a +:+ b) with (String c (a +:+ b)).
  cbn [encode_4state_barcode]. by rewrite IH, app_assoc.
Qed.

Lemma length_list_ascii_of_string s :
  length (list_ascii_of_string s) = String.length s.
Proof. induction s as [|c s IH]; cbn; [reflexivity|by rewrite IH]. Qed.

Lemma encode_length data :
  length (encode_4state_barcode data) = (4 * String.length data)%nat.
Proof.
  induction data as [|c data IH]; [reflexivity|].
  cbn [encode_4state_barcode String.length].
  rewrite length_app, length_list_ascii_of_string, char_to_bars_length, IH.
  lia.
Qed.

(** X1: the encoder emits exactly four bars for every input character,
    mapped or not, so the only input without bars is the empty string. *)
Theorem X1_four_bars_per_character (data : string) :
  length (encode_4state_barcode data) = (4 * String.length data)%nat ∧
  (encode_4state_barcode data = [] ↔ data = "").
Proof.
  split; [apply encode_length|]. split.
  - intros H. pose proof (encode_length data) as Hl. rewrite H in Hl.
    destruct data; [reflexivity|cbn in Hl; lia].
  - by intros ->.
Qed.

(** X2: encoding distributes over concatenation, and the bars of the
    k-th character are the four bars at positions 4k .. 4k+3. *)
Theorem X2_encoding_is_characterwise (a b : string) (c : ascii) :
  encode_4state_barcode (a +:+ b)
    = encode_4state_barcode a ++ encode_4state_barcode b ∧
  take 4 (drop (4 * String.length a)
            (encode_4state_barcode (a +:+ String c b)))
    = list_ascii_of_string (char_to_bars c).
Proof.
  split; [apply encode_app|].
  rewrite encode_app, <- encode_length.
  rewrite drop_app_length. cbn [encode_4state_barcode].
  rewrite <- (char_to_bars_length c), <- length_list_ascii_of_string.
  by rewrite take_app_length.
Qed.

Lemma char_to_bars_upper c :
  char_to_bars (PyStr.upper_char c) = char_to_bars c ∧
  char_to_bars (PyStr.lower_char c) = char_to_bars c.
Proof.
  destruct c as [[] [] [] [] [] [] [] []]; vm_compute; split; reflexivity.
Qed.


(** *** The generated drawing *)

Section Geometry.

Variables bar_width space height_full height_asc height_desc tracker_height : Z.

Abbreviation step := (bar_width + space)%Z.
Abbreviation y_tracker := ((height_full - tracker_height) `div` 2)%Z.

(** The three rectangles that can occur at horizontal position [x]. *)
Definition is_bar_rect (x : Z) (r : rect) : Prop :=
  r = Rect x 0 bar_width height_asc ∨
  r = Rect x (height_full - height_desc) bar_width height_desc ∨
  r = Rect x y_tracker bar_width tracker_height.

Lemma rect_of_used_bar bar x :
  is_used_state bar →
  ∃ r, rect_of_bar bar_width height_full height_asc height_desc
         tracker_height bar x = [r] ∧ is_bar_rect x r.
Proof.
  unfold is_bar_rect. intros [-> | [-> | ->]]; eexists; (split; [reflexivity|]);
    auto.
Qed.

Lemma draw_bars_lookup bars : ∀ x k r,
  Forall is_used_state bars →
  draw_bars bar_width space height_full height_asc height_desc
    tracker_height bars x !! k = Some r →
  (k < length bars)%nat ∧ is_bar_rect (x + Z.of_nat k * step) r.
Proof.
  induction bars as [|bar bars IH]; intros x k r Hbars; cbn [draw_bars].
  - by rewrite lookup_nil.
  - apply Forall_cons in Hbars as [Hbar Hbars].
    destruct (rect_of_used_bar bar x Hbar) as (r0 & -> & Hr0).
    destruct k as [|k]; cbn [app lookup list_lookup length].
    + intros [= <-]. split; [lia|].
      by replace (x + Z.of_nat 0 * step)%Z with x by lia.
    + intros Hk. destruct (IH _ _ _ Hbars Hk) as [Hlt Hr].
      split; [lia|].
      by replace (x + Z.of_nat (S k) * step)%Z
        with (x + step + Z.of_nat k * step)%Z by lia.
Qed.

Lemma draw_bars_length bars : ∀ x,
  Forall is_used_state bars →
  length (draw_bars bar_width space height_full height_asc height_desc
            tracker_height bars x) = length bars.
Proof.
  induction bars as [|bar bars IH]; intros x Hbars; cbn [draw_bars];
    [reflexivity|].
  apply Forall_cons in Hbars as [Hbar Hbars].
  destruct (rect_of_used_bar bar x Hbar) as (r0 & -> & _).
  cbn [app length]. by rewrite IH.
Qed.

(** X4: with [svgwrite] present, the drawing of [data] has one rectangle
    per bar, four per character and none skipped; the k-th rectangle
    starts at x = k * (bar_width + space), is [bar_width] wide, and is an
    ascender, a descender or a tracker rectangle, never the full-height
    one. The drawing is as wide as all the steps together. *)
Theorem X4_one_rectangle_per_bar (data filename : string) :
  ∃ d,
    generate_4state_barcode_svg bar_width space height_full height_asc
      height_desc tracker_height true data filename = Some d ∧
    d_filename d = filename ∧
    d_size d = ((4 * Z.of_nat (String.length data) * step)%Z, height_full) ∧
    length (d_rects d) = (4 * String.length data)%nat ∧
    ∀ k r, d_rects d !! k = Some r → is_bar_rect (Z.of_nat k * step) r.
Proof.
  eexists. split; [reflexivity|]. cbn [d_filename d_size d_rects].
  split; [reflexivity|]. split.
  { rewrite encode_length. f_equal. lia. }
  split.
  { rewrite draw_bars_length by apply encode_used. apply encode_length. }
  intros k r Hk.
  apply draw_bars_lookup in Hk as [_ Hr]; [|apply encode_used].
  by rewrite Z.add_0_l in Hr.
Qed.

(** X5: when the widths are not negative and the three bar heights lie
    between 0 and [height_full], every rectangle lies inside the drawing,
    and each one ends before the next one starts. *)
Theorem X5_rectangles_inside_drawing (data filename : string) (d : drawing) :
  (0 <= bar_width)%Z → (0 <= space)%Z →
  (0 <= height_asc <= height_full)%Z →
  (0 <= height_desc <= height_full)%Z →
  (0 <= tracker_height <= height_full)%Z →
  generate_4state_barcode_svg bar_width space height_full height_asc
    height_desc tracker_height true data filename = Some d →
  ∀ k r, d_rects d !! k = Some r →
    (0 <= r_x r)%Z ∧ (r_x r + r_w r <= fst (d_size d))%Z ∧
    (0 <= r_y r)%Z ∧ (r_y r + r_h r <= snd (d_size d))%Z ∧
    (0 <= r_h r)%Z ∧
    ∀ r', d_rects d !! S k = Some r' → (r_x r + r_w r <= r_x r')%Z.
Proof.
  intros Hbw Hsp Hasc Hdesc Htr [= <-] k r Hk.
  cbn [d_size d_rects fst snd] in *.
  pose proof (conj (Z.div_pos (height_full - tracker_height) 2)
                (Z.div_le_upper_bound (height_full - tracker_height) 2
                   (height_full - tracker_height))) as [Hy0 Hy1].
  apply draw_bars_lookup in Hk as [Hlt Hr]; [|apply encode_used].
  assert ((Z.of_nat k + 1) * step
          <= Z.of_nat (length (encode_4state_barcode data)) * step)%Z
    as Hw by nia.
  assert (∀ r', draw_bars bar_width space height_full height_asc height_desc
                  tracker_height (encode_4state_barcode data) 0 !! S k
                = Some r' → r_x r' = (Z.of_nat k + 1) * step)%Z as Hnext.
  { intros r' Hk'. apply draw_bars_lookup in Hk' as [_ Hr'];
      [|apply encode_used].
    destruct Hr' as [-> | [-> | ->]]; cbn [r_x]; lia. }
  destruct Hr as [-> | [-> | ->]]; cbn [r_x r_y r_w r_h];
    (repeat split; [lia|nia|try lia..]);
    try (intros r' Hr'; rewrite (Hnext r' Hr'); nia).
Qed.

End Geometry.

(** X5 at the default sizes (4, 2, 50, 40, 40, 10): the first bar of
    "HELLO123" is a tracker, drawn at (0, 20) with size 4 by 10 in a
    drawing of 192 by 50. *)
Lemma X5_rectangles_inside_drawing_witness :
  let bars := encode_4state_barcode "HELLO123" in
  let r := Rect 0 20 4 10 in
  draw_bars 4 2 50 40 40 10 bars 0 !! 0%nat = Some r ∧
  (0 <= r_x r)%Z ∧ (r_x r + r_w r <= 192)%Z ∧
  (0 <= r_y r)%Z ∧ (r_y r + r_h r <= 50)%Z ∧
  (0 <= r_h r)%Z ∧
  ∀ r', draw_bars 4 2 50 40 40 10 bars 0 !! 1%nat = Some r' →
        (r_x r + r_w r <= r_x r')%Z.
Proof.
  cbv zeta. split; [reflexivity|].
  apply (X5_rectangles_inside_drawing 4 2 50 40 40 10 "HELLO123"
           "hello_barcode.svg"
           (Drawing "hello_barcode.svg" (192, 50)%Z
              (draw_bars 4 2 50 40 40 10
                 (encode_4state_barcode "HELLO123") 0))
           ltac:(lia) ltac:(lia) ltac:(lia) ltac:(lia) ltac:(lia)
           eq_refl 0%nat (Rect 0 20 4 10)).
  reflexivity.
Defined.

End BarcodeSvg.

(** ** scripts/homework_signer.py: signing with a given UUID, and what a
    signing run does to the free rows *)

Module SignerMore.

Import Signer.

(** [sign_with_uuid(uuid, input_svg_path, output_filename, output_dir)]:
    the CSV file is neither read nor written. *)
Definition sign_with_uuid (w : world) (uuid : string)
    (input_svg_path : string) (output_filename output_dir : option string)
  : (string * string) * world :=
  let uuid_for_barcode := PyStr.replace_char "-" "" uuid in
  let output_dir :=
    match output_dir with
    | Some d => d
    | None =>
        let d := OsPath.dirname input_svg_path in
        if PyStr.truthy d then d else "."
    end in
  let output_filename :=
    match output_filename with
    | Some f => f
    | None => PyStr.replace_char "-" "_" uuid
    end in
  let output_path := OsPath.join output_dir (output_filename +:+ ".svg") in
  let svg :=
    {| svg_path := output_path;
       svg_bars := Barcode.encode_4state_barcode uuid_for_barcode;
       svg_label := uuid |} in
  ((uuid, output_path),
   {| csv_rows := csv_rows w; svgs := svgs w ++ [svg];
      merged_pdf := merged_pdf w |}).

(** The number of characters of [s] other than [c]. *)
Fixpoint count_other (c : ascii) (s : string) : nat :=
  match s with
  | EmptyString => 0
  | String a r => (if Ascii.eqb a c then 0 else 1) + count_other c r
  end.

(** What one call does to the rows, in terms of the free uuids. *)
Lemma sign_with_next_uuid_rows w input ofn od :
  let run := sign_with_next_uuid w input ofn od in
  blank_uuids (csv_rows (snd run)) = drop 1 (blank_uuids (csv_rows w)) ∧
  fst <$> fst run = head (blank_uuids (csv_rows w)) ∧
  map uuid (csv_rows (snd run)) = map uuid (csv_rows w) ∧
  (∀ j r, csv_rows w !! j = Some r → available r = false →
          csv_rows (snd run) !! j = Some r).
Proof.
  cbv zeta. unfold sign_with_next_uuid.
  destruct (find_available (csv_rows w)) as [[i u]|] eqn:Hf.
  - apply find_available_from_Some in Hf
      as (pre & r & post & Hrows & -> & Hpre & Hr & <-).
    cbn [fst snd csv_rows Nat.add fmap option_fmap option_map].
    rewrite Hrows, mark_active_middle.
    rewrite !blank_uuids_split by exact Hpre.
    rewrite Hr, available_active. cbn [app drop head].
    split; [reflexivity|]. split; [reflexivity|]. split.
    + by rewrite !map_app.
    + intros j r0 Hj Ha.
      destruct (decide (j = length pre)) as [->|Hne].
      * rewrite list_lookup_middle in Hj by reflexivity.
        injection Hj as <-. congruence.
      * destruct (decide (j < length pre)%nat) as [Hlt|Hge].
        -- rewrite lookup_app_l in Hj |- * by exact Hlt. exact Hj.
        -- rewrite lookup_app_r in Hj |- * by lia.
           destruct (j - length pre)%nat as [|m] eqn:Hm; [lia|]. exact Hj.
  - cbn [fst snd]. apply find_available_from_None in Hf.
    unfold blank_uuids. rewrite (filter_none_available _ Hf).
    cbn. auto.
Qed.

(** X6: a call of [sign_with_next_uuid] uses up exactly the first free
    uuid: the uuid returned is the head of the free uuids of the CSV (and
    the call returns [None] when there is none), the free uuids afterwards
    are the remaining ones in the same order, the uuid column is
    unchanged, and no row that was already assigned is modified. *)
Theorem X6_next_uuid_consumes_first_free_row
    (w : world) (input_svg_path : string)
    (output_filename output_dir : option string) :
  let run := sign_with_next_uuid w input_svg_path output_filename output_dir in
  fst <$> fst run = head (blank_uuids (csv_rows w)) ∧
  blank_uuids (csv_rows (snd run)) = drop 1 (blank_uuids (csv_rows w)) ∧
  map uuid (csv_rows (snd run)) = map uuid (csv_rows w) ∧
  (∀ j r, csv_rows w !! j = Some r → available r = false →
          csv_rows (snd run) !! j = Some r).
Proof.
  destruct (sign_with_next_uuid_rows w input_svg_path output_filename
              output_dir) as (H1 & H2 & H3 & H4).
  cbv zeta. auto.
Qed.

(** [n] calls in a row on the same template, each on the files left by
    the one before; the uuids returned are collected. *)
Fixpoint sign_repeatedly (n : nat) (w : world) (input_svg_path : string)
  : list string * world :=
  match n with
  | O => ([], w)
  | S k =>
      let run := sign_with_next_uuid w input_svg_path None None in
      let rest := sign_repeatedly k (snd run) input_svg_path in
      (match fst run with
       | Some (u, _) => u :: fst rest
       | None => fst rest
       end, snd rest)
  end.

Lemma sign_repeatedly_uuids n input : ∀ w,
  fst (sign_repeatedly n w input) = take n (blank_uuids (csv_rows w)) ∧
  blank_uuids (csv_rows (snd (sign_repeatedly n w input)))
    = drop n (blank_uuids (csv_rows w)).
Proof.
  induction n as [|n IH]; intros w; cbn [sign_repeatedly fst snd].
  - by rewrite take_0, drop_0.
  - destruct (sign_with_next_uuid_rows w input None None)
      as (Hrest & Hhead & _ & _). cbv zeta in Hrest, Hhead.
    destruct (IH (snd (sign_with_next_uuid w input None None)))
      as [IHu IHb].
    rewrite IHu, IHb, Hrest.
    destruct (blank_uuids (csv_rows w)) as [|u0 free].
    + destruct (fst (sign_with_next_uuid w input None None))
        as [[u path]|]; [discriminate|].
      cbn. by rewrite take_nil, drop_nil.
    + destruct (fst (sign_with_next_uuid w input None None))
        as [[u path]|]; [|discriminate].
      injection Hhead as ->. cbn. by rewrite drop_0.
Qed.

(** X7: [n] successive calls of [sign_with_next_uuid] hand out the first
    [n] free uuids of the CSV in row order, and these are the uuids that
    [sign_pdf_with_barcodes] assigns to the pages of an [n]-page PDF on
    the same CSV; both leave the same uuids free. *)
Theorem X7_repeated_calls_match_pdf_signing
    (n : nat) (w : world) (input_svg_path pdf_path : string)
    (output_path output_dir : option string) :
  let many := sign_repeatedly n w input_svg_path in
  let pdf := sign_pdf_with_barcodes w pdf_path n output_path output_dir in
  fst many = take n (blank_uuids (csv_rows w)) ∧
  fst many = map uuid_of (snd (fst pdf)) ∧
  blank_uuids (csv_rows (snd many)) = blank_uuids (csv_rows (snd pdf)).
Proof.
  cbv zeta.
  destruct (sign_repeatedly_uuids n input_svg_path w) as [Hu Hb].
  rewrite Hu, Hb. unfold sign_pdf_with_barcodes.
  match goal with
  | |- context [sign_pages ?o ?d 0 n (csv_rows w) []] =>
      destruct (sign_pages o d 0 n (csv_rows w) [])
        as [rows' signed'] eqn:Hrun
  end.
  apply sign_pages_spec in Hrun as (Hu' & _ & Hb' & _ & _).
  cbn [fst snd csv_rows map app] in *. by rewrite Hu', Hb'.
Qed.

(** X8: when [sign_with_next_uuid] selects the uuid [u], it returns the
    pair and writes the SVG that [sign_with_uuid] returns and writes for
    [u]; [sign_with_uuid] itself leaves the CSV rows as they are. *)
Theorem X8_next_uuid_signs_like_sign_with_uuid
    (w : world) (input_svg_path : string)
    (output_filename output_dir : option string) (u path : string) :
  fst (sign_with_next_uuid w input_svg_path output_filename output_dir)
    = Some (u, path) →
  let next := sign_with_next_uuid w input_svg_path output_filename output_dir in
  let given := sign_with_uuid w u input_svg_path output_filename output_dir in
  fst given = (u, path) ∧
  svgs (snd given) = svgs (snd next) ∧
  csv_rows (snd given) = csv_rows w ∧
  merged_pdf (snd given) = merged_pdf w.
Proof.
  cbv zeta. unfold sign_with_next_uuid, sign_with_uuid.
  destruct (find_available (csv_rows w)) as [[i u0]|]; [|discriminate].
  cbn [fst snd svgs csv_rows merged_pdf]. intros [= -> <-]. auto.
Qed.

(** X8 on a CSV whose first free row holds the uuid u-2. *)
Lemma X8_next_uuid_signs_like_sign_with_uuid_witness :
  let w := World [ Row "u-1" "a.svg" "active"; Row "u-2" "" "" ] [] None in
  fst (sign_with_uuid w "u-2" "forms/page.svg" None None)
    = ("u-2", "forms/u_2.svg") ∧
  svgs (snd (sign_with_uuid w "u-2" "forms/page.svg" None None))
    = svgs (snd (sign_with_next_uuid w "forms/page.svg" None None)) ∧
  csv_rows (snd (sign_with_uuid w "u-2" "forms/page.svg" None None))
    = csv_rows w ∧
  merged_pdf (snd (sign_with_uuid w "u-2" "forms/page.svg" None None))
    = merged_pdf w.
Proof.
  cbv zeta.
  apply (X8_next_uuid_signs_like_sign_with_uuid
           (World [ Row "u-1" "a.svg" "active"; Row "u-2" "" "" ] [] None)
           "forms/page.svg" None None "u-2" "forms/u_2.svg").
  reflexivity.
Defined.

Lemma replace_hyphen_length u :
  String.length (PyStr.replace_char "-" "" u) = count_other "-" u.
Proof.
  induction u as [|c u IH]; [reflexivity|].
  cbn [PyStr.replace_char count_other].
  destruct (Ascii.eqb c "-").
  - change ("" +:+ PyStr.replace_char "-" "" u)
      with (PyStr.replace_char "-" "" u). by rewrite IH.
  - cbn [String.length]. by rewrite IH.
Qed.

Lemma replace_hyphen_lower u :
  PyStr.replace_char "-" "" (PyStr.lower u)
  = PyStr.lower (PyStr.replace_char "-" "" u).
Proof.
  induction u as [|c u IH]; [reflexivity|].
  cbn [PyStr.lower PyStr.replace_char].
  assert (Ascii.eqb (PyStr.lower_char c) "-" = Ascii.eqb c "-") as ->
    by (destruct c as [[] [] [] [] [] [] [] []]; reflexivity).
  destruct (Ascii.eqb c "-").
  - change ("" +:+ ?x) with x. exact IH.
  - cbn [PyStr.lower]. by rewrite IH.
Qed.

Lemma encode_lower s :
  Barcode.encode_4state_barcode (PyStr.lower s)
  = Barcode.encode_4state_barcode s.
Proof.
  induction s as [|c s IH]; [reflexivity|].
  cbn [PyStr.lower Barcode.encode_4state_barcode].
  destruct (BarcodeSvg.char_to_bars_upper c) as [_ ->]. by rewrite IH.
Qed.

(** X9: the barcode written for a uuid has four bars per character other
    than the hyphen, and does not depend on the case of its letters: the
    lower-case spelling of a uuid gets the same bars. *)
Theorem X9_barcode_ignores_hyphens_and_case
    (w : world) (u input_svg_path : string)
    (output_filename output_dir : option string) :
  let bars_of v :=
    svg_bars <$> last (svgs (snd (sign_with_uuid w v input_svg_path
                                    output_filename output_dir))) in
  (∃ bars, bars_of u = Some bars ∧
           length bars = (4 * count_other "-" u)%nat) ∧
  bars_of (PyStr.lower u) = bars_of u.
Proof.
  cbv zeta. unfold sign_with_uuid. cbn [snd svgs].
  rewrite !last_snoc. cbn [fmap option_fmap option_map svg_bars]. split.
  - eexists. split; [reflexivity|].
    by rewrite BarcodeSvg.encode_length, replace_hyphen_length.
  - by rewrite replace_hyphen_lower, encode_lower.
Qed.

(** X10: [sign_pdf_with_barcodes] keeps the number of rows of the CSV and
    never modifies a row that was already assigned (one whose entity or
    state is not blank). *)
Theorem X10_pdf_signing_keeps_assigned_rows
    (w : world) (pdf_path : string) (num_pages : nat)
    (output_path output_dir : option string) :
  let run := sign_pdf_with_barcodes w pdf_path num_pages output_path output_dir in
  length (csv_rows (snd run)) = length (csv_rows w) ∧
  (∀ j r, csv_rows w !! j = Some r → available r = false →
          csv_rows (snd run) !! j = Some r).
Proof.
  cbv zeta. unfold sign_pdf_with_barcodes.
  match goal with
  | |- context [sign_pages ?o ?d 0 num_pages (csv_rows w) []] =>
      destruct (sign_pages o d 0 num_pages (csv_rows w) [])
        as [rows' signed'] eqn:Hrun
  end.
  apply sign_pages_spec in Hrun as (_ & _ & _ & Hcol & Hkeep).
  cbn [fst snd csv_rows svgs]. split; [|auto].
  by rewrite <- (length_map uuid rows'), Hcol, length_map.
Qed.

End SignerMore.

(** ** scripts/auto_detect_corners.py: what the detection and the written
    annotations always satisfy *)

Module CornersMore.

Import PyNum Corners.

Section WithOpenCV.

Variable Image : Type.
Variable shape : Image → Z * Z.
Variable imread : string → option Image.
Variable cvtColor : Image → Image.
Variable match_template :
  Image → Z * Z * Z * Z → Image → Z * Z → Q * (Z * Z).

Abbreviation detect :=
  (detect_corner_with_templates Image shape cvtColor match_template).
Abbreviation cands_of := (candidates Image shape match_template).

(** The running maximum is an upper bound of the start value and of every
    candidate, and it is the start state or one of the candidates. *)
Lemma keep_best_bounds (cands : list candidate) (b : best) :
  let r := fold_left keep_best cands b in
  (fst b <= fst r)%Q ∧
  (∀ c, c ∈ cands → (score c <= fst r)%Q) ∧
  (r = b ∨ ∃ c, c ∈ cands ∧ (fst b < score c)%Q ∧ r = (score c, centre c)).
Proof.
  cbv zeta.
  destruct (keep_best_spec cands b)
    as [[-> Hall] | (pre & c & post & -> & -> & Hlt & Hpre & Hpost)].
  - split; [lra|]. split; [exact Hall|]. by left.
  - cbn [fst]. split; [lra|]. split.
    + intros c' [Hin | [-> | Hin]%elem_of_cons]%elem_of_app.
      * apply Qlt_le_weak. by apply Hpre.
      * lra.
      * by apply Hpost.
    + right. exists c. split; [|done]. apply elem_of_app. right. left.
Qed.

(** The two shapes of a detection result. *)
Lemma detect_cases image templates search_region scales :
  let cands :=
    cands_of (cvtColor image)
      (region_or_quadrant Image shape (cvtColor image) search_region)
      templates scales in
  let r := detect (Some image) templates search_region scales in
  (∀ c, c ∈ cands → (score c <= snd r)%Q) ∧
  (r = (None, None, 0%Q) ∨
   ∃ c, c ∈ cands ∧ (0 < score c)%Q ∧
        r = (Some (fst (snd c)), Some (snd (snd c)), score c)).
Proof.
  cbv zeta. rewrite detect_keep_best. cbv zeta.
  set (cands := candidates _ _ _ _ _ _ _).
  destruct (keep_best_bounds cands (0%Q, (None, None))) as (_ & Hub & Hr).
  cbv zeta in Hub, Hr. cbn [snd]. split; [exact Hub|].
  destruct Hr as [-> | (c & Hc & Hpos & ->)]; [by left|].
  right. exists c. cbn [fst] in Hpos. by repeat split.
Qed.

Lemma elem_of_candidates image_gray region templates scales c :
  c ∈ cands_of image_gray region templates scales ↔
  ∃ tpl scale, tpl ∈ templates ∧ scale ∈ scales ∧
    c ∈ candidate_of Image shape match_template image_gray region tpl scale.
Proof.
  unfold candidates. rewrite list_elem_of_In, in_flat_map. split.
  - intros (tpl & Ht & Hc). apply in_flat_map in Hc as (scale & Hs & Hc).
    exists tpl, scale. by rewrite !list_elem_of_In.
  - intros (tpl & scale & Ht & Hs & Hc). exists tpl.
    rewrite <- list_elem_of_In. split; [exact Ht|].
    apply in_flat_map. exists scale. by rewrite <- !list_elem_of_In.
Qed.

(** X11: every annotation that [auto_detect_corners] writes has one of two
    shapes. Either x and y are both null, the confidence is 0 and
    needs_review is true; or x and y are both present, the confidence is
    positive, and needs_review is true exactly when the confidence is
    below the threshold and is absent exactly when it is not. *)
Theorem X11_written_annotations_are_consistent
    (template_dir : string) (template_files : list string)
    (image_dir : string) (image_dir_files : list string)
    (confidence_threshold : Q) (annotations : gmap string annotation)
    (f : string) (a : annotation) :
  auto_detect_corners Image shape imread cvtColor match_template
    template_dir template_files image_dir image_dir_files
    confidence_threshold = Some annotations →
  annotations !! f = Some a →
  (ann_x a = None ∧ ann_y a = None ∧ ann_confidence a = 0%Q ∧
   needs_review a = Some true)
  ∨ (is_Some (ann_x a) ∧ is_Some (ann_y a) ∧ (0 < ann_confidence a)%Q ∧
     (needs_review a = Some true ↔
        (ann_confidence a < confidence_threshold)%Q) ∧
     (needs_review a = None ↔
        (confidence_threshold <= ann_confidence a)%Q)).
Proof.
  unfold auto_detect_corners.
  destruct (length _ =? 0)%nat; [discriminate|]. intros [= <-].
  rewrite fold_process_image_lookup, lookup_empty.
  destruct (decide _); [|discriminate].
  unfold entry_of. destruct (imread _) as [image|]; [|discriminate].
  match goal with
  | |- context [detect_corner_with_templates _ _ _ _ (Some image) ?ts None ?sc] =>
      destruct (detect_cases image ts None sc) as [_ Hr]
  end.
  cbv zeta in Hr.
  set (r := detect_corner_with_templates _ _ _ _ _ _ _ _) in *. clearbody r.
  intros [= <-].
  destruct Hr as [-> | (c & _ & Hpos & ->)]; cbn [fst snd].
  - left. by vm_compute.
  - right. unfold annotate.
    destruct (Qle_bool confidence_threshold (score c)) eqn:Hthr.
    + apply Qle_bool_iff in Hthr. cbn.
      repeat split; try done; try (by eexists). intros H. lra.
    + assert (¬ (confidence_threshold <= score c)%Q) as Hn
        by (rewrite <- Qle_bool_iff; congruence).
      apply Qgtb_true in Hpos as Hgt. rewrite Hgt. cbn.
      repeat split; try done; try (by eexists).
      intros _. by apply Qnot_le_lt.
Qed.


(** X13: when the matcher reports its maximum at an offset inside the
    result array (as [cv2.minMaxLoc] does), template shapes and scales
    are not negative, and a point is returned, the point lies inside the
    search region. *)
Theorem X13_detected_point_inside_region
    (image : Image) (templates : list (template Image))
    (search_region : option (Z * Z * Z * Z)) (scales : list Q)
    (x_start y_start region_w region_h x y : Z) (confidence : Q) :
  region_or_quadrant Image shape (cvtColor image) search_region
    = (x_start, y_start, region_w, region_h) →
  (∀ t w h, (w <= region_w)%Z → (h <= region_h)%Z →
     let loc :=
       snd (match_template (cvtColor image)
              (x_start, y_start, region_w, region_h) t (w, h)) in
     (0 <= fst loc <= region_w - w)%Z ∧ (0 <= snd loc <= region_h - h)%Z) →
  (∀ tpl, tpl ∈ templates →
     (0 <= fst (shape (t_image Image tpl)))%Z ∧
     (0 <= snd (shape (t_image Image tpl)))%Z) →
  (∀ scale, scale ∈ scales → (0 <= scale)%Q) →
  detect (Some image) templates search_region scales
    = (Some x, Some y, confidence) →
  (x_start <= x <= x_start + region_w)%Z ∧
  (y_start <= y <= y_start + region_h)%Z.
Proof.
  intros Hreg Hloc Hshape Hscales Hres.
  destruct (detect_cases image templates search_region scales) as [_ Hr].
  cbv zeta in Hr. rewrite Hres, Hreg in Hr.
  destruct Hr as [Hr | (c & Hc & _ & Hr)]; [discriminate|].
  injection Hr as -> -> _.
  apply elem_of_candidates in Hc as (tpl & scale & Ht & Hs & Hc).
  unfold candidate_of in Hc.
  destruct (Hshape tpl Ht) as [Hh Hw].
  set (scaled_w := py_int _) in Hc. set (scaled_h := py_int _) in Hc.
  assert (∀ n, (0 <= n)%Z → (0 <= py_int (inject_Z n * scale))%Z) as Hpos.
  { intros n Hn. rewrite py_int_nonneg.
    - change 0%Z with (Qfloor 0). apply Qfloor_resp_le.
      apply Qmult_le_0_compat; [|by apply Hscales].
      change 0%Q with (inject_Z 0). by rewrite <- Zle_Qle.
    - apply Qmult_le_0_compat; [|by apply Hscales].
      change 0%Q with (inject_Z 0). by rewrite <- Zle_Qle. }
  pose proof (Hpos _ Hw : (0 <= scaled_w)%Z) as Hsw.
  pose proof (Hpos _ Hh : (0 <= scaled_h)%Z) as Hsh.
  destruct (region_w <? scaled_w)%Z eqn:Hfw;
    [by apply elem_of_nil in Hc|].
  destruct (region_h <? scaled_h)%Z eqn:Hfh;
    [by apply elem_of_nil in Hc|].
  apply Z.ltb_ge in Hfw, Hfh. cbn [orb] in Hc.
  apply list_elem_of_singleton in Hc as ->. cbn [fst snd].
  specialize (Hloc (t_image Image tpl) scaled_w scaled_h Hfw Hfh).
  cbv zeta in Hloc. destruct Hloc as [Hx Hy].
  pose proof (Z.div_pos scaled_w 2 Hsw ltac:(lia)).
  pose proof (Z.div_pos scaled_h 2 Hsh ltac:(lia)).
  pose proof (Z.div_le_upper_bound scaled_w 2 scaled_w ltac:(lia) ltac:(lia)).
  pose proof (Z.div_le_upper_bound scaled_h 2 scaled_h ltac:(lia) ltac:(lia)).
  lia.
Qed.

Lemma load_templates_names template_dir files :
  map (t_name Image) (load_templates Image imread cvtColor template_dir files)
  = List.filter
      (λ f, is_image_file f
            && bool_decide (is_Some (imread (OsPath.join template_dir f))))
      files.
Proof.
  induction files as [|f files IH]; [reflexivity|].
  cbn [load_templates List.filter]. destruct (is_image_file f); cbn [andb].
  - destruct (imread (OsPath.join template_dir f)) as [t|].
    + rewrite bool_decide_true by (by eexists). cbn. by rewrite IH.
    + rewrite bool_decide_false by (by intros []%is_Some_None). exact IH.
  - exact IH.
Qed.

(** X14: the templates loaded are, in listing order, the files with an
    image extension that [cv2.imread] can read, each stored with the grey
    version of what was read; [auto_detect_corners] returns without
    writing exactly when the template directory has no such file. *)
Theorem X14_output_written_iff_some_template_loads
    (template_dir : string) (template_files : list string)
    (image_dir : string) (image_dir_files : list string)
    (confidence_threshold : Q) :
  let templates :=
    load_templates Image imread cvtColor template_dir template_files in
  map (t_name Image) templates
    = List.filter
        (λ f, is_image_file f
              && bool_decide (is_Some (imread (OsPath.join template_dir f))))
        template_files ∧
  (∀ tpl, tpl ∈ templates →
     imread (OsPath.join template_dir (t_name Image tpl))
       = Some (t_original Image tpl) ∧
     t_image Image tpl = cvtColor (t_original Image tpl)) ∧
  (auto_detect_corners Image shape imread cvtColor match_template
     template_dir template_files image_dir image_dir_files
     confidence_threshold = None
   ↔ ∀ f, f ∈ template_files → is_image_file f = true →
          imread (OsPath.join template_dir f) = None).
Proof.
  cbv zeta. split; [apply load_templates_names|]. split.
  - induction template_files as [|f files IH]; cbn [load_templates];
      intros tpl Ht; [by apply elem_of_nil in Ht|].
    destruct (is_image_file f); [|by apply IH].
    destruct (imread (OsPath.join template_dir f)) as [t|] eqn:Hread;
      [|by apply IH].
    apply elem_of_cons in Ht as [-> | Ht]; [|by apply IH].
    cbn. by rewrite Hread.
  - unfold auto_detect_corners.
    rewrite <- (length_map (t_name Image)), load_templates_names.
    destruct (List.filter _ template_files) as [|g gs] eqn:Hfil;
      cbn [length Nat.eqb].
    + split; [intros _|reflexivity]. intros f Hf Himg.
      destruct (imread (OsPath.join template_dir f)) eqn:Hread;
        [|reflexivity].
      assert (f ∈ @nil string) as Hin; [|by apply elem_of_nil in Hin].
      rewrite <- Hfil. apply elem_of_list_filter_bool. split; [exact Hf|].
      rewrite Himg, Hread. by rewrite bool_decide_true by (by eexists).
    + split; [discriminate|]. intros Hnone.
      assert (g ∈ g :: gs) as Hin by left. rewrite <- Hfil in Hin.
      apply elem_of_list_filter_bool in Hin as [Hg Hok].
      apply andb_true_iff in Hok as [Himg Hread].
      apply bool_decide_eq_true in Hread. rewrite (Hnone g Hg Himg) in Hread.
      by apply is_Some_None in Hread.
Qed.

End WithOpenCV.

(** A matcher that always finds its window at the top-left corner of the
    search area, with correlation 0.9. *)
Definition corner_match (_ : Negative.Image) (_ : Z * Z * Z * Z)
    (_ : Negative.Image) (_ : Z * Z) : Q * (Z * Z) :=
  (9 # 10, (0, 0)%Z).

(** X11 on a directory with one readable photograph: its entry has both
    coordinates and is not marked for review. *)
Lemma X11_written_annotations_are_consistent_witness :
  let a := Annotation (Some (inject_Z 2)) (Some (inject_Z 0)) (9 # 10) None in
  (ann_x a = None ∧ ann_y a = None ∧ ann_confidence a = 0%Q ∧
   needs_review a = Some true)
  ∨ (is_Some (ann_x a) ∧ is_Some (ann_y a) ∧ (0 < ann_confidence a)%Q ∧
     (needs_review a = Some true ↔ (ann_confidence a < 1 # 2)%Q) ∧
     (needs_review a = None ↔ (1 # 2 <= ann_confidence a)%Q)).
Proof.
  cbv zeta.
  apply (X11_written_annotations_are_consistent
           Negative.Image Negative.shape Negative.imread Negative.cvtColor
           corner_match "templates" ["qc.png"] "images"
           ["a.jpg"; "broken.jpg"] (1 # 2)
           {[ "a.jpg" :=
                Annotation (Some (inject_Z 2)) (Some (inject_Z 0))
                  (9 # 10) None ]}
           "a.jpg").
  - vm_compute. reflexivity.
  - vm_compute. reflexivity.
Defined.

(** X13 on the 4x4 photograph: the point (2, 0) lies in the top-right
    quadrant, which starts at (2, 0) and is 2 by 2. *)
Lemma X13_detected_point_inside_region_witness :
  (2 <= 2 <= 2 + 2)%Z ∧ (0 <= 0 <= 0 + 2)%Z.
Proof.
  apply (X13_detected_point_inside_region
           Negative.Image Negative.shape Negative.cvtColor corner_match
           Negative.photo [Negative.marker] None default_scales
           2 0 2 2 2 0 (9 # 10))%Z.
  - reflexivity.
  - intros t w h Hw Hh. cbn. lia.
  - intros tpl [-> | []%elem_of_nil]%elem_of_cons. cbn. lia.
  - intros scale Hs. unfold default_scales in Hs.
    repeat (apply elem_of_cons in Hs as [-> | Hs]; [by vm_compute|]).
    by apply elem_of_nil in Hs.
  - vm_compute. reflexivity.
Defined.

End CornersMore.

(** ** scripts/convert_to_coco.py: the COCO files written for the splits *)

Module CocoBuild.

Import PyNum Coco.

(** An element of [coco_data["images"]]. *)
Record image_info := ImageInfo {
  im_id : nat;
  im_file_name : string;
  im_width : Z;
  im_height : Z }.

(** An element of [coco_data["annotations"]]; [an_bbox] is
    [[x, y, width, height]]. *)
Record coco_annotation := CocoAnnotation {
  an_id : nat;
  an_image_id : nat;
  an_category_id : nat;
  an_bbox : Q * Q * Q * Q;
  an_area : Q;
  an_iscrowd : nat }.

(** The part of [coco_data] that varies, and the categories; ["info"] and
    ["licenses"] are the same constants in every file. *)
Record coco_data := CocoData {
  cd_images : list image_info;
  cd_annotations : list coco_annotation;
  cd_categories : list (nat * string * string) }.

(** The variables of the loop over the files of one split; [st_copied]
    records the [shutil.copy2] calls as (source, destination). *)
Record loop_state := LoopState {
  image_id : nat;
  annotation_id : nat;
  st_images : list image_info;
  st_annotations : list coco_annotation;
  st_copied : list (string * string) }.

Section WithFiles.

(** [os.path.exists], and [cv2.imread] followed by [img.shape[:2]], which
    is (height, width); [None] is an image that cannot be read. *)
Variable path_exists : string → bool.
Variable imread_shape : string → option (Z * Z).

Section OneSplit.

Variable valid_annotations : gmap string annotation.
Variables image_dir images_dir split_name : string.

Definition src_path (img_file : string) : string :=
  OsPath.join image_dir img_file.

(** [os.path.join(images_dir, split_name, img_file)] *)
Definition dst_path (img_file : string) : string :=
  OsPath.join (OsPath.join images_dir split_name) img_file.

(** The body of [for img_file in files]; [None] is the [KeyError] of
    [valid_annotations[img_file]] or the [TypeError] of [float(None)]. *)
Definition add_image (st : loop_state) (img_file : string)
  : option loop_state :=
  if negb (path_exists (src_path img_file)) then Some st
  else
    let copied := st_copied st ++ [(src_path img_file, dst_path img_file)] in
    match imread_shape (src_path img_file) with
    | None =>
        Some {| image_id := image_id st; annotation_id := annotation_id st;
                st_images := st_images st;
                st_annotations := st_annotations st;
                st_copied := copied |}
    | Some (height, width) =>
        ann ← valid_annotations !! img_file;
        x ← a_x ann;
        y ← a_y ann;
        Some {| image_id := image_id st + 1;
                annotation_id := annotation_id st + 1;
                st_images :=
                  st_images st
                  ++ [ImageInfo (image_id st) img_file width height];
                st_annotations :=
                  st_annotations st
                  ++ [CocoAnnotation (annotation_id st) (image_id st) 0
                        ((x - 3)%Q, (y - 3)%Q, 6%Q, 6%Q) 36%Q 0];
                st_copied := copied |}
    end.

Fixpoint add_images (files : list string) (st : loop_state)
  : option loop_state :=
  match files with
  | [] => Some st
  | img_file :: rest =>
      match add_image st img_file with
      | Some st' => add_images rest st'
      | None => None
      end
  end.

(** One turn of [for split_name, files in splits.items()]: the data
    written to the JSON file, and the copies made. *)
Definition build_split (files : list string)
  : option (coco_data * list (string * string)) :=
  st ← add_images files (LoopState 0 0 [] [] []);
  Some (CocoData (st_images st) (st_annotations st)
          [(0%nat, "top_right_corner", "corner")],
        st_copied st).

End OneSplit.

Variable shuffle : list string → list string.
Hypothesis shuffle_perm : ∀ l, shuffle l ≡ₚ l.

(** [create_coco_structure]: the three JSON files written, as (path,
    content) in the order train, val, test, and all copies made; [None]
    when an exception ends the run. *)
Definition create_coco_structure (annotations : gmap string annotation)
    (image_dir output_dir : string) (train_ratio val_ratio : Q)
  : option (list (string * coco_data) * list (string * string)) :=
  let valid := valid_annotations annotations in
  let data_dir := OsPath.join output_dir "top_right" in
  let images_dir := OsPath.join data_dir "images" in
  let annotations_dir := OsPath.join data_dir "annotations" in
  let s := split_files shuffle annotations train_ratio val_ratio in
  let output_file split_name :=
    OsPath.join annotations_dir
      ("instancesTopRight_" +:+ split_name +:+ ".json") in
  train ← build_split valid image_dir images_dir "train2019" (train_files s);
  val ← build_split valid image_dir images_dir "val2019" (val_files s);
  test ← build_split valid image_dir images_dir "test2019" (test_files s);
  Some ([ (output_file "train2019", fst train);
          (output_file "val2019", fst val);
          (output_file "test2019", fst test) ],
        snd train ++ snd val ++ snd test).

(** *** Specification side *)

(** The files of a split that end up in its COCO file. *)
Definition usable (image_dir : string) (img_file : string) : bool :=
  path_exists (src_path image_dir img_file)
  && bool_decide (is_Some (imread_shape (src_path image_dir img_file))).

(** What links an image entry and the annotation entry at the same
    position. *)
Definition annotates (valid : gmap string annotation) (image_dir : string)
    (im : image_info) (an : coco_annotation) : Prop :=
  an_image_id an = im_id im ∧ an_category_id an = 0%nat ∧
  an_iscrowd an = 0%nat ∧ an_area an = 36%Q ∧
  imread_shape (src_path image_dir (im_file_name im))
    = Some (im_height im, im_width im) ∧
  ∃ ann x y,
    valid !! im_file_name im = Some ann ∧
    a_x ann = Some x ∧ a_y ann = Some y ∧
    an_bbox an = ((x - 3)%Q, (y - 3)%Q, 6%Q, 6%Q).

Definition listed (d : coco_data) : list string :=
  map im_file_name (cd_images d).

Definition copies (image_dir images_dir split_name : string)
    (files : list string) : list (string * string) :=
  map (λ f, (src_path image_dir f, dst_path images_dir split_name f))
    (List.filter (λ f, path_exists (src_path image_dir f)) files).

Lemma add_images_spec valid image_dir images_dir split_name files : ∀ st,
  Forall (λ f, ∃ a, valid !! f = Some a ∧ is_valid a) files →
  ∃ ims ans,
    add_images valid image_dir images_dir split_name files st
      = Some (LoopState (image_id st + length ims)
                (annotation_id st + length ims)
                (st_images st ++ ims) (st_annotations st ++ ans)
                (st_copied st
                 ++ copies image_dir images_dir split_name files)) ∧
    map im_file_name ims = List.filter (usable image_dir) files ∧
    map im_id ims = seq (image_id st) (length ims) ∧
    map an_id ans = seq (annotation_id st) (length ims) ∧
    Forall2 (annotates valid image_dir) ims ans.
Proof.
  induction files as [|f files IH]; intros st Hvalid.
  - exists [], []. cbn. rewrite !app_nil_r, !Nat.add_0_r.
    destruct st. repeat split; constructor.
  - apply Forall_cons in Hvalid as [(a & Ha & [x Hx] & [y Hy]) Hvalid].
    cbn [add_images]. unfold add_image, usable, copies.
    cbn [List.filter]. fold (usable image_dir).
    destruct (path_exists (src_path image_dir f)) eqn:Hex; cbn [negb andb].
    + destruct (imread_shape (src_path image_dir f)) as [[h w]|] eqn:Hread.
      * rewrite Ha. cbn [mbind option_bind]. rewrite Hx, Hy.
        cbn [mbind option_bind].
        rewrite bool_decide_true by (by eexists).
        match goal with
        | |- context [add_images _ _ _ _ files ?s] =>
            destruct (IH s Hvalid) as (ims & ans & -> & Hn & Hi & Hk & Hr)
        end.
        cbn [image_id annotation_id st_images st_annotations st_copied]
          in *.
        eexists (_ :: ims), (_ :: ans). split; [|split; [|split; [|split]]].
        -- cbn [length map]. rewrite <- !app_assoc, <- !Nat.add_assoc.
           reflexivity.
        -- cbn. by rewrite Hn.
        -- cbn. rewrite Hi. do 2 f_equal. lia.
        -- cbn. rewrite Hk. do 2 f_equal. lia.
        -- constructor; [|exact Hr]. unfold annotates. cbn.
           repeat split; [exact Hread|]. by exists a, x, y.
      * rewrite bool_decide_false by (by intros []%is_Some_None).
        match goal with
        | |- context [add_images _ _ _ _ files ?s] =>
            destruct (IH s Hvalid) as (ims & ans & -> & Hn & Hi & Hk & Hr)
        end.
        cbn [image_id annotation_id st_images st_annotations st_copied]
          in *.
        exists ims, ans. split; [|done].
        cbn [map]. by rewrite <- !app_assoc.
    + destruct (IH st Hvalid) as (ims & ans & -> & Hn & Hi & Hk & Hr).
      exists ims, ans. done.
Qed.

Lemma build_split_spec valid image_dir images_dir split_name files :
  Forall (λ f, ∃ a, valid !! f = Some a ∧ is_valid a) files →
  ∃ d,
    build_split valid image_dir images_dir split_name files
      = Some (d, copies image_dir images_dir split_name files) ∧
    listed d = List.filter (usable image_dir) files ∧
    map im_id (cd_images d) = seq 0 (length (cd_images d)) ∧
    map an_id (cd_annotations d) = seq 0 (length (cd_images d)) ∧
    Forall2 (annotates valid image_dir) (cd_images d) (cd_annotations d) ∧
    cd_categories d = [(0%nat, "top_right_corner", "corner")].
Proof.
  intros Hvalid. unfold build_split.
  destruct (add_images_spec valid image_dir images_dir split_name files
              (LoopState 0 0 [] [] []) Hvalid)
    as (ims & ans & -> & Hn & Hi & Hk & Hr).
  cbn. eexists. split; [reflexivity|]. cbn. done.
Qed.

Lemma py_slice_Forall {A} (P : A → Prop) (l : list A) a b :
  Forall P l → Forall P (py_slice l a b).
Proof. intros H. unfold py_slice. by apply Forall_drop, Forall_take. Qed.

Lemma image_files_valid annotations :
  Forall (λ f, ∃ a, valid_annotations annotations !! f = Some a ∧ is_valid a)
    (image_files shuffle annotations).
Proof.
  apply Forall_forall. intros f Hf.
  apply (elem_of_image_files shuffle shuffle_perm) in Hf as (a & Ha & Hv).
  exists a. split; [|exact Hv]. by apply map_lookup_filter_Some.
Qed.

(** What the COCO file [d] of a split with the files [files] holds. *)
Definition split_ok (annotations : gmap string annotation)
    (image_dir : string) (d : coco_data) (files : list string) : Prop :=
  listed d = List.filter (usable image_dir) files ∧
  map im_id (cd_images d) = seq 0 (length (cd_images d)) ∧
  map an_id (cd_annotations d) = seq 0 (length (cd_images d)) ∧
  Forall2 (annotates (valid_annotations annotations) image_dir)
    (cd_images d) (cd_annotations d) ∧
  cd_categories d = [(0%nat, "top_right_corner", "corner")].

(** The run as a whole, split by split. *)
Lemma create_coco_structure_spec annotations image_dir output_dir
    train_ratio val_ratio :
  let s := split_files shuffle annotations train_ratio val_ratio in
  let images_dir :=
    OsPath.join (OsPath.join output_dir "top_right") "images" in
  let annotations_dir :=
    OsPath.join (OsPath.join output_dir "top_right") "annotations" in
  ∃ train val test,
    create_coco_structure annotations image_dir output_dir train_ratio
      val_ratio
    = Some ([ (OsPath.join annotations_dir
                 "instancesTopRight_train2019.json", train);
              (OsPath.join annotations_dir
                 "instancesTopRight_val2019.json", val);
              (OsPath.join annotations_dir
                 "instancesTopRight_test2019.json", test) ],
            copies image_dir images_dir "train2019" (train_files s)
            ++ copies image_dir images_dir "val2019" (val_files s)
            ++ copies image_dir images_dir "test2019" (test_files s)) ∧
    split_ok annotations image_dir train (train_files s) ∧
    split_ok annotations image_dir val (val_files s) ∧
    split_ok annotations image_dir test (test_files s).
Proof.
  cbv zeta. unfold create_coco_structure.
  pose proof (image_files_valid annotations) as Hvalid.
  set (images_dir := OsPath.join (OsPath.join output_dir "top_right") "images").
  destruct (build_split_spec (valid_annotations annotations) image_dir
              images_dir "train2019"
              (train_files (split_files shuffle annotations train_ratio
                              val_ratio)))
    as (d1 & -> & H1); [by apply py_slice_Forall|].
  destruct (build_split_spec (valid_annotations annotations) image_dir
              images_dir "val2019"
              (val_files (split_files shuffle annotations train_ratio
                            val_ratio)))
    as (d2 & -> & H2); [by apply py_slice_Forall|].
  destruct (build_split_spec (valid_annotations annotations) image_dir
              images_dir "test2019"
              (test_files (split_files shuffle annotations train_ratio
                             val_ratio)))
    as (d3 & -> & H3); [by apply py_slice_Forall|].
  exists d1, d2, d3. split; [reflexivity|]. done.
Qed.







(** X16: in every file written, the image entry at position k carries the
    height and width of the image that was read, and the annotation at
    position k is the 6 by 6 box [x - 3, y - 3, 6, 6] with area 36 and
    iscrowd 0, where x and y are the values that the input annotations
    hold for that image's file name. *)
Theorem X16_coco_box_around_annotated_point
    (annotations : gmap string annotation) (image_dir output_dir : string)
    (train_ratio val_ratio : Q) :
  ∃ outputs copied,
    create_coco_structure annotations image_dir output_dir train_ratio
      val_ratio = Some (outputs, copied) ∧
    ∀ path d k im, (path, d) ∈ outputs → cd_images d !! k = Some im →
      imread_shape (OsPath.join image_dir (im_file_name im))
        = Some (im_height im, im_width im) ∧
      ∃ an ann x y,
        cd_annotations d !! k = Some an ∧
        annotations !! im_file_name im = Some ann ∧
        a_x ann = Some x ∧ a_y ann = Some y ∧
        an_bbox an = ((x - 3)%Q, (y - 3)%Q, 6%Q, 6%Q) ∧
        an_area an = 36%Q ∧ an_iscrowd an = 0%nat.
Proof.
  destruct (create_coco_structure_spec annotations image_dir output_dir
              train_ratio val_ratio)
    as (train & val & test & Hrun & H1 & H2 & H3).
  cbv zeta in Hrun. do 2 eexists. split; [exact Hrun|].
  assert (∀ d files k im,
            split_ok annotations image_dir d files →
            cd_images d !! k = Some im →
            imread_shape (OsPath.join image_dir (im_file_name im))
              = Some (im_height im, im_width im) ∧
            ∃ an ann x y,
              cd_annotations d !! k = Some an ∧
              annotations !! im_file_name im = Some ann ∧
              a_x ann = Some x ∧ a_y ann = Some y ∧
              an_bbox an = ((x - 3)%Q, (y - 3)%Q, 6%Q, 6%Q) ∧
              an_area an = 36%Q ∧ an_iscrowd an = 0%nat) as Hone.
  { intros d files k im (_ & _ & _ & Hr & _) Him.
    destruct (Forall2_lookup_l _ _ _ _ _ Hr Him) as (an & Han & Hrel).
    destruct Hrel
      as (_ & _ & Hcrowd & Harea & Hshape & ann & x & y & Hann & Hx & Hy & Hb).
    split; [exact Hshape|]. exists an, ann, x, y.
    apply map_lookup_filter_Some in Hann as [Hann _]. done. }
  intros path d k im Hd.
  repeat (apply elem_of_cons in Hd as [[= -> ->] | Hd]);
    [by eapply Hone..|by apply elem_of_nil in Hd].
Qed.



End WithFiles.

(** *** A concrete run *)

(** The image directory for the annotations [sample]: p4.jpg is missing
    and p2.jpg is there but cannot be decoded; the others are 640 by
    480. *)
Definition sample_exists (path : string) : bool :=
  negb (String.eqb path "imgs/p4.jpg").

Definition sample_shape (path : string) : option (Z * Z) :=
  if String.eqb path "imgs/p2.jpg" then None else Some (480, 640)%Z.

Definition sample_run
  : option (list (string * coco_data) * list (string * string)) :=
  create_coco_structure sample_exists sample_shape reverse sample
    "imgs" "out" (4 # 5) (1 # 10).


(** X16 on the same run. *)
Lemma X16_coco_box_around_annotated_point_witness :
  ∃ outputs copied,
    sample_run = Some (outputs, copied) ∧
    ∀ path d k im, (path, d) ∈ outputs → cd_images d !! k = Some im →
      sample_shape (OsPath.join "imgs" (im_file_name im))
        = Some (im_height im, im_width im) ∧
      ∃ an ann x y,
        cd_annotations d !! k = Some an ∧
        sample !! im_file_name im = Some ann ∧
        a_x ann = Some x ∧ a_y ann = Some y ∧
        an_bbox an = ((x - 3)%Q, (y - 3)%Q, 6%Q, 6%Q) ∧
        an_area an = 36%Q ∧ an_iscrowd an = 0%nat.
Proof.
  apply (X16_coco_box_around_annotated_point sample_exists sample_shape
           reverse reverse_perm sample "imgs" "out" (4 # 5) (1 # 10)).
Defined.



(** The files written on that run. *)
Example sample_run_value :
  sample_run
  = Some
      ([ ("out/top_right/annotations/instancesTopRight_train2019.json",
          CocoData [ImageInfo 0 "p5.jpg" 640 480]
            [CocoAnnotation 0 0 0 ((14 - 3)%Q, (24 - 3)%Q, 6%Q, 6%Q) 36 0]
            [(0%nat, "top_right_corner", "corner")]);
         ("out/top_right/annotations/instancesTopRight_val2019.json",
          CocoData [] [] [(0%nat, "top_right_corner", "corner")]);
         ("out/top_right/annotations/instancesTopRight_test2019.json",
          CocoData [ImageInfo 0 "p1.jpg" 640 480]
            [CocoAnnotation 0 0 0 ((10 - 3)%Q, (20 - 3)%Q, 6%Q, 6%Q) 36 0]
            [(0%nat, "top_right_corner", "corner")]) ],
       [ ("imgs/p5.jpg", "out/top_right/images/train2019/p5.jpg");
         ("imgs/p2.jpg", "out/top_right/images/train2019/p2.jpg");
         ("imgs/p1.jpg", "out/top_right/images/test2019/p1.jpg") ]).
Proof. reflexivity. Qed.

End CocoBuild.

(** ** scripts/distort_images_pil.py and scripts/distort_images_gimp.py:
    what one run saves, and the values handed to GIMP *)

Module DistortMore.

Import PyNum Distort.

Section WithPillow.

(** Whether loading, distorting and saving one input goes through; in the
    GIMP script this is [gimp_file_load] up to [gimp_file_save]. The two
    scripts choose and skip files with the same statements. *)
Variable processes : string → bool.

(** The saved list has no repetitions and never outgrows the inputs. *)
Lemma process_files_saved suffix l : ∀ st,
  (∀ out, out ∈ snd st → out ∈ fst st) → NoDup (snd st) →
  let st' := fold_left (process_file processes suffix) l st in
  (∀ out, out ∈ snd st' → out ∈ fst st') ∧ NoDup (snd st') ∧
  (length (snd st') ≤ length (snd st) + length l)%nat.
Proof.
  induction l as [|g l IH]; intros st Hin Hnd; cbn [fold_left]; cbv zeta.
  - split; [exact Hin|]. split; [exact Hnd|]. lia.
  - destruct (process_file_cases processes suffix st g)
      as [[Heq _] | (Heq & Hfresh & _)]; rewrite Heq.
    + destruct (IH st Hin Hnd) as (H1 & H2 & H3).
      split; [exact H1|]. split; [exact H2|]. cbn [length]. lia.
    + destruct (IH (fst st ∪ {[output_filename suffix g]},
                    snd st ++ [output_filename suffix g]))
        as (H1 & H2 & H3); cbn [fst snd].
      * intros out [Hout | ->%list_elem_of_singleton]%elem_of_app.
        -- apply elem_of_union_l. by apply Hin.
        -- apply elem_of_union_r. by apply elem_of_singleton.
      * apply NoDup_app. split; [exact Hnd|]. split; [|apply NoDup_singleton].
        intros out Hout ->%list_elem_of_singleton. by apply Hfresh, Hin.
      * split; [exact H1|]. split; [exact H2|].
        cbn [fst snd] in H3. rewrite length_app in H3. cbn [length] in *. lia.
Qed.

Lemma list_filter_none {A} (p : A → bool) (l : list A) :
  (∀ x, x ∈ l → p x = false) → List.filter p l = [].
Proof.
  induction l as [|x l IH]; intros Hall; cbn [List.filter]; [reflexivity|].
  rewrite (Hall x) by left. apply IH. intros y Hy. apply Hall. by right.
Qed.

(** X19: a run on a missing folder does nothing. On an existing folder it
    removes no file, and afterwards the output name of every .jpg/.jpeg
    file whose name does not contain the suffix and that can be processed
    is present in the folder; the list of files saved has no repetitions
    and at most one file per such input. *)
Theorem X19_every_processable_input_has_its_output
    (names : gset string) (suffix : string) :
  let run := distort_images processes (Some names) suffix in
  distort_images processes None suffix = (None, []) ∧
  ∃ names',
    fst run = Some names' ∧ names ⊆ names' ∧
    (∀ f, f ∈ names → is_jpg f = true → PyStr.contains suffix f = false →
          processes f = true → output_filename suffix f ∈ names') ∧
    NoDup (snd run) ∧
    (length (snd run) ≤ length (inputs names suffix))%nat.
Proof.
  cbv zeta. split; [reflexivity|]. rewrite distort_images_fold.
  cbn [fst snd]. eexists. split; [reflexivity|].
  destruct (process_files_spec processes suffix (inputs names suffix)
              (names, [])) as (Hsub & Hout & _).
  destruct (process_files_saved suffix (inputs names suffix) (names, []))
    as (_ & Hnd & Hlen); cbn [fst snd].
  { by intros out []%elem_of_nil. }
  { constructor. }
  cbn [fst snd length] in *. split; [exact Hsub|]. split.
  - intros f Hf Hjpg Hsuf Hp. apply Hout; [|exact Hp].
    by apply elem_of_inputs.
  - split; [exact Hnd|]. lia.
Qed.

(** X20: only files whose name does not contain the suffix are inputs;
    so a run on a folder in which every .jpg/.jpeg name contains the
    suffix saves nothing, and a run with the empty suffix saves nothing
    on any folder, because the empty string is contained in every
    name. *)
Theorem X20_no_input_when_names_contain_suffix
    (names : gset string) (suffix : string) :
  distort_images processes (Some names) "" = (Some names, []) ∧
  ((∀ f, f ∈ names → is_jpg f = true → PyStr.contains suffix f = true) →
   distort_images processes (Some names) suffix = (Some names, [])).
Proof.
  assert (∀ sfx,
            (∀ f, f ∈ names → is_jpg f = true →
                  PyStr.contains sfx f = true) →
            distort_images processes (Some names) sfx = (Some names, []))
    as Hgen.
  { intros sfx Hall. rewrite distort_images_fold.
    assert (inputs names sfx = []) as ->; [|reflexivity].
    apply list_filter_none. intros f Hf.
    apply Corners.elem_of_list_filter_bool in Hf as [Hf Hjpg].
    apply elem_of_elements in Hf. by rewrite Hall. }
  split; [|apply Hgen].
  apply Hgen. intros f _ _. rewrite contains_unfold. by destruct f.
Qed.

End WithPillow.

(** *** The values handed to GIMP *)

(** The arguments of the five [pdb] calls that depend on the random
    draws: contrast, saturation, exposure, the colour balance of the
    midtones and that of the highlights. *)
Record gimp_values := GimpValues {
  contrast_scaled : Z;
  saturation_scaled : Z;
  exposure_scaled : Q;
  wb_midtones : Z * Z * Z;
  wb_highlights : Z * Z * Z }.

(** Lines 79-118 of [distort_images_gimp.py], from the six draws. *)
Definition gimp_values_of
    (contrast_adjustment saturation_adjustment exposure_adjustment
       wb_red wb_green wb_blue : Q) : gimp_values :=
  let wb_red_scaled := py_int (wb_red * 100 / 30) in
  let wb_green_scaled := py_int (wb_green * 100 / 30) in
  let wb_blue_scaled := py_int (wb_blue * 100 / 30) in
  {| contrast_scaled := py_int (contrast_adjustment * 127 / 50);
     saturation_scaled := py_int (saturation_adjustment * 100 / 50);
     exposure_scaled := exposure_adjustment * 3 / 1;
     wb_midtones := (wb_red_scaled, wb_green_scaled, wb_blue_scaled);
     wb_highlights :=
       (py_int (inject_Z wb_red_scaled * (1 # 2)),
        py_int (inject_Z wb_green_scaled * (1 # 2)),
        py_int (inject_Z wb_blue_scaled * (1 # 2))) |}.

(** Truncation toward zero stays inside an interval around zero. *)
Lemma py_int_between (a b : Z) (x : Q) :
  (a <= 0)%Z → (0 <= b)%Z → (inject_Z a <= x)%Q → (x <= inject_Z b)%Q →
  (a <= py_int x <= b)%Z.
Proof.
  intros Ha Hb Hax Hxb. unfold py_int.
  destruct (Qle_bool 0 x) eqn:Hpos.
  - apply Qle_bool_iff in Hpos. split.
    + etrans; [exact Ha|]. rewrite <- (Qfloor_Z 0). by apply Qfloor_resp_le.
    + rewrite <- (Qfloor_Z b). by apply Qfloor_resp_le.
  - assert (x <= 0)%Q as Hneg.
    { apply Qlt_le_weak, Qnot_le_lt. intros H.
      apply Qle_bool_iff in H. congruence. }
    split.
    + rewrite <- (Qceiling_Z a). by apply Qceiling_resp_le.
    + etrans; [|exact Hb]. rewrite <- (Qceiling_Z 0).
      by apply Qceiling_resp_le.
Qed.

(** X21: for draws in the ranges of the script, -50..50 for contrast and
    saturation, -1..1 for exposure and -30..30 for the three white
    balance channels, every value handed to GIMP lies in the range GIMP
    accepts: contrast in -127..127, saturation and colour balance in
    -100..100, exposure in -3..3; the highlight balance lies in -50..50. *)
Theorem X21_gimp_values_in_range
    (contrast_adjustment saturation_adjustment exposure_adjustment
       wb_red wb_green wb_blue : Q) :
  (-50 <= contrast_adjustment <= 50)%Q →
  (-50 <= saturation_adjustment <= 50)%Q →
  (-1 <= exposure_adjustment <= 1)%Q →
  (-30 <= wb_red <= 30)%Q → (-30 <= wb_green <= 30)%Q →
  (-30 <= wb_blue <= 30)%Q →
  let v := gimp_values_of contrast_adjustment saturation_adjustment
             exposure_adjustment wb_red wb_green wb_blue in
  let in_range (lo hi : Z) (c : Z * Z * Z) :=
    (lo <= fst (fst c) <= hi)%Z ∧ (lo <= snd (fst c) <= hi)%Z ∧
    (lo <= snd c <= hi)%Z in
  (-127 <= contrast_scaled v <= 127)%Z ∧
  (-100 <= saturation_scaled v <= 100)%Z ∧
  (-3 <= exposure_scaled v <= 3)%Q ∧
  in_range (-100)%Z 100%Z (wb_midtones v) ∧
  in_range (-50)%Z 50%Z (wb_highlights v).
Proof.
  intros Hc Hs He Hr Hg Hb. cbv zeta.
  unfold gimp_values_of.
  cbn [contrast_scaled saturation_scaled exposure_scaled wb_midtones
         wb_highlights fst snd].
  assert (∀ wb, (-30 <= wb <= 30)%Q →
            (-100 <= py_int (wb * 100 / 30) <= 100)%Z) as Hwb.
  { intros wb Hw.
    assert (wb * 100 / 30 == wb * (10 # 3))%Q as Heq by field.
    apply py_int_between; [lia|lia|..]; rewrite Heq; unfold inject_Z; lra. }
  assert (∀ z, (-100 <= z <= 100)%Z →
            (-50 <= py_int (inject_Z z * (1 # 2)) <= 50)%Z) as Hhalf.
  { intros z Hz.
    assert (inject_Z (-100) <= inject_Z z)%Q by (rewrite <- Zle_Qle; lia).
    assert (inject_Z z <= inject_Z 100)%Q by (rewrite <- Zle_Qle; lia).
    apply py_int_between; [lia|lia|..];
      change (inject_Z (-100)) with (-100)%Q in *;
      change (inject_Z 100) with 100%Q in *;
      change (inject_Z (-50)) with (-50)%Q;
      change (inject_Z 50) with 50%Q; lra. }
  split; [|split; [|split; [|split]]].
  - assert (contrast_adjustment * 127 / 50
            == contrast_adjustment * (127 # 50))%Q as Heq by field.
    apply py_int_between; [lia|lia|..]; rewrite Heq; unfold inject_Z; lra.
  - assert (saturation_adjustment * 100 / 50
            == saturation_adjustment * 2)%Q as Heq by field.
    apply py_int_between; [lia|lia|..]; rewrite Heq; unfold inject_Z; lra.
  - assert (exposure_adjustment * 3 / 1 == exposure_adjustment * 3)%Q
      as -> by field.
    lra.
  - repeat split; by apply Hwb.
  - repeat split; by apply Hhalf, Hwb.
Qed.

(** X21 at the largest draws: contrast 127, saturation 100, exposure 3,
    colour balance 100 and 50. *)
Lemma X21_gimp_values_in_range_witness :
  let v := gimp_values_of 50 50 1 30 30 30 in
  let in_range (lo hi : Z) (c : Z * Z * Z) :=
    (lo <= fst (fst c) <= hi)%Z ∧ (lo <= snd (fst c) <= hi)%Z ∧
    (lo <= snd c <= hi)%Z in
  (-127 <= contrast_scaled v <= 127)%Z ∧
  (-100 <= saturation_scaled v <= 100)%Z ∧
  (-3 <= exposure_scaled v <= 3)%Q ∧
  in_range (-100)%Z 100%Z (wb_midtones v) ∧
  in_range (-50)%Z 50%Z (wb_highlights v).
Proof.
  apply (X21_gimp_values_in_range 50 50 1 30 30 30);
    split; discriminate.
Defined.

(** The values at the largest draws. *)
Example gimp_values_largest :
  gimp_values_of 50 50 1 30 30 30
  = GimpValues 127 100 (1 * 3 / 1) (100, 100, 100)%Z (50, 50, 50)%Z.
Proof. reflexivity. Qed.

End DistortMore.

(** ** FieldChartOCR/generate_synthetic_bar_tables.py: labels, rows and
    value ranges of the generated tables *)

Module SynthMore.

Import PyNum SynthTables.

Section WithEntropy.

Variable draw : nat → Q.

Lemma mapM_map {A B C} (g : B → C) (h : A → C) (f : A → Rand B)
    (l : list A) :
  (∀ x i, g (fst (f x i)) = h x) → ∀ i, map g (fst (mapM f l i)) = map h l.
Proof.
  intros Hf. induction l as [|x l IH]; intros i; [reflexivity|].
  cbn [mapM]. unfold mbind, rand_bind, mret, rand_ret.
  pose proof (Hf x i) as Hx. destruct (f x i) as [y j].
  specialize (IH j). destruct (mapM f l j) as [ys k].
  cbn in *. by rewrite Hx, IH.
Qed.

Lemma map_fmap {A B} (f : A → B) (l : list A) : map f l = f <$> l.
Proof. induction l as [|x l IH]; cbn; [reflexivity|by rewrite IH]. Qed.

(** [choose_labels] returns a prefix of one list of the pool. *)
Lemma choose_labels_prefix pool (min_len max_len : Z) i :
  pool ≠ [] →
  ∃ labels, labels ∈ pool ∧
    fst (choose_labels draw pool min_len max_len i) `prefix_of` labels.
Proof.
  intros Hne. unfold choose_labels, random_from_pool.
  unfold mbind, rand_bind, mret, rand_ret.
  pose proof (choice_elem draw pool i Hne) as Hin.
  destruct (choice draw pool i) as [labels j]. cbn [fst] in Hin.
  destruct (randint _ _ _ j) as [k j']. cbn [fst].
  exists labels. split; [exact Hin|]. apply prefix_take.
Qed.

Lemma NoDup_prefix {A} (l1 l2 : list A) :
  l1 `prefix_of` l2 → NoDup l2 → NoDup l1.
Proof. intros [k ->] Hnd. by apply NoDup_app in Hnd as [? _]. Qed.

Lemma single_row_cases label i :
  fst (fst (single_row draw label i)) = label ∧
  (5 <= snd (fst (single_row draw label i)) <= 78)%Z ∧
  ∃ base noise, (10 <= base <= 70)%Z ∧ (-5 <= noise <= 8)%Z ∧
    snd (fst (single_row draw label i)) = (base + noise)%Z.
Proof.
  unfold single_row, mbind, rand_bind, mret, rand_ret.
  pose proof (randint_range draw 10 70 i ltac:(lia)) as Hb.
  destruct (randint draw 10 70 i) as [base i1].
  pose proof (randint_range draw (-5) 8 i1 ltac:(lia)) as Hn.
  destruct (randint draw (-5) 8 i1) as [noise i2]. cbn [fst snd] in *.
  split; [reflexivity|]. split; [lia|]. exists base, noise. lia.
Qed.

Lemma pools_distinct :
  Forall NoDup SINGLE_SERIES_CATEGORY_POOLS ∧
  Forall NoDup GROUP_PRIMARY_LABELS ∧ Forall NoDup GROUP_SECONDARY_LABELS.
Proof.
  repeat split; apply (bool_decide_unpack _); vm_compute; exact I.
Qed.

Lemma group_pools_ok :
  GROUP_PRIMARY_LABELS ≠ [] ∧ GROUP_SECONDARY_LABELS ≠ [] ∧
  Forall (λ labels, (3 <= Z.of_nat (length labels))%Z) GROUP_PRIMARY_LABELS ∧
  Forall (λ labels, (3 <= Z.of_nat (length labels))%Z)
    GROUP_SECONDARY_LABELS.
Proof.
  split; [discriminate|]. split; [discriminate|].
  split; apply (bool_decide_unpack _); vm_compute; exact I.
Qed.

(** X22: every value of a single-series table is the sum of a base in
    10..70 and a noise in -5..8, so it lies in 5..78 and the lower clamp
    [max(1, ...)] never changes it. The categories are the first labels
    of one list of [SINGLE_SERIES_CATEGORY_POOLS], in the order of that
    list, and no category occurs twice. *)
Theorem X22_single_series_values_and_categories (i : nat) :
  let rows := snd (fst (gen_single_series draw i)) in
  Forall (λ r : string * Z,
            (5 <= snd r <= 78)%Z ∧
            ∃ base noise, (10 <= base <= 70)%Z ∧ (-5 <= noise <= 8)%Z ∧
                          snd r = (base + noise)%Z) rows ∧
  (∃ labels, labels ∈ SINGLE_SERIES_CATEGORY_POOLS ∧
             map fst rows `prefix_of` labels) ∧
  NoDup (map fst rows).
Proof.
  cbv zeta. rewrite gen_single_series_rows.
  rewrite (mapM_map fst id (single_row draw))
    by (intros x k; apply single_row_cases).
  rewrite map_id.
  destruct single_pools_ok as [Hne _].
  destruct (choose_labels_prefix SINGLE_SERIES_CATEGORY_POOLS 4 6 i Hne)
    as (labels & Hin & Hpre).
  split; [|split].
  - apply mapM_Forall. intros label k.
    by destruct (single_row_cases label k) as (_ & ? & ?).
  - by exists labels.
  - apply (NoDup_prefix _ labels Hpre).
    destruct pools_distinct as (Hnd & _).
    rewrite Forall_forall in Hnd. by apply Hnd.
Qed.

(** *** Grouped tables *)

Lemma gen_group_labels secondary_labels primary i :
  map fst (fst (gen_group draw secondary_labels primary i))
  = map (pair primary) secondary_labels.
Proof.
  unfold gen_group. unfold mbind at 1 2 3, rand_bind at 1 2 3.
  destruct (randint draw 5 9 i) as [base i1].
  destruct (uniform draw 12 25 i1) as [share_total i2].
  match goal with
  | |- context [mapM ?f secondary_labels i2] =>
      pose proof (mapM_length f secondary_labels i2) as Hlen
  end.
  destruct (mapM _ secondary_labels i2) as [weights i3]. cbn [fst] in Hlen.
  set (normalized := map _ weights).
  assert (length normalized = length secondary_labels) as Hn
    by (subst normalized; by rewrite length_map).
  rewrite (mapM_map fst (λ sw : string * Q, (primary, fst sw))).
  - rewrite <- (map_map fst (pair primary)). f_equal.
    rewrite map_fmap. apply fst_zip. lia.
  - intros [s w] k. unfold mbind, rand_bind, mret, rand_ret.
    by destruct (uniform draw _ _ k).
Qed.

Lemma mapM_concat_map {A B C} (g : B → C) (h : A → list C)
    (f : A → Rand (list B)) (l : list A) :
  (∀ x i, map g (fst (f x i)) = h x) →
  ∀ i, map g (concat (fst (mapM f l i))) = flat_map h l.
Proof.
  intros Hf. induction l as [|x l IH]; intros i; [reflexivity|].
  cbn [mapM flat_map]. unfold mbind, rand_bind, mret, rand_ret.
  pose proof (Hf x i) as Hx. destruct (f x i) as [y j].
  specialize (IH j). destruct (mapM f l j) as [ys k].
  cbn [fst concat] in *. by rewrite map_app, Hx, IH.
Qed.

Lemma flat_map_list_prod {A B} (l : list A) (l' : list B) :
  flat_map (λ a, map (pair a) l') l = list_prod l l'.
Proof. induction l as [|a l IH]; cbn; [reflexivity|by rewrite IH]. Qed.

Lemma NoDup_list_prod {A B} (l : list A) (l' : list B) :
  NoDup l → NoDup l' → NoDup (list_prod l l').
Proof.
  intros Hl Hl'. induction Hl as [|a l Ha _ IH]; cbn; [constructor|].
  apply NoDup_app. split; [|split; [|exact IH]].
  - rewrite map_fmap. apply NoDup_fmap_2; [|exact Hl'].
    by intros x y [= ->].
  - intros [a' b] Hin Hin'. apply list_elem_of_In, in_map_iff in Hin
      as (b' & [= <- <-] & _).
    apply list_elem_of_In, in_prod_iff in Hin' as [Hin' _].
    by apply Ha, list_elem_of_In.
Qed.

(** The run of [gen_grouped_series] with its two label lists exposed. *)
Lemma gen_grouped_series_cases j :
  let primary := fst (choose_labels draw GROUP_PRIMARY_LABELS 3 5 j) in
  let j1 := snd (choose_labels draw GROUP_PRIMARY_LABELS 3 5 j) in
  let secondary := fst (choose_labels draw GROUP_SECONDARY_LABELS 3 4 j1) in
  let j2 := snd (choose_labels draw GROUP_SECONDARY_LABELS 3 4 j1) in
  let t := fst (gen_grouped_series draw j) in
  snd t = concat (fst (mapM (gen_group draw secondary) primary j2)) ∧
  header (fst t) = ["Group"; "Subgroup"; "Value"] ∧
  table_type (fst t) = "grouped_series" ∧
  primary_label (fst t) = Some (join_with "/" primary) ∧
  secondary_label (fst t) = Some (join_with "/" secondary).
Proof.
  cbv zeta. unfold gen_grouped_series.
  unfold mbind, rand_bind, mret, rand_ret.
  destruct (choose_labels draw GROUP_PRIMARY_LABELS 3 5 j)
    as [primary j1]. cbn [fst snd].
  destruct (choose_labels draw GROUP_SECONDARY_LABELS 3 4 j1)
    as [secondary j2]. cbn [fst snd].
  destruct (mapM _ primary j2). repeat split; reflexivity.
Qed.

(** X23: a grouped table has the header (Group, Subgroup, Value) and one
    row for every pair of a group and a subgroup, groups outermost, each
    pair exactly once. The groups are the first 3 to 5 labels of one
    list of [GROUP_PRIMARY_LABELS], the subgroups the first 3 or 4 labels
    of one list of [GROUP_SECONDARY_LABELS], so the table has between 9
    and 20 rows; the spec names the groups and the subgroups joined by
    a slash. *)
Theorem X23_grouped_table_is_a_full_grid (j : nat) :
  let t := fst (gen_grouped_series draw j) in
  ∃ primary secondary,
    (∃ labels, labels ∈ GROUP_PRIMARY_LABELS ∧ primary `prefix_of` labels) ∧
    (∃ labels, labels ∈ GROUP_SECONDARY_LABELS ∧
               secondary `prefix_of` labels) ∧
    (3 <= length primary <= 5)%nat ∧ (3 <= length secondary <= 4)%nat ∧
    map fst (snd t) = list_prod primary secondary ∧
    NoDup (map fst (snd t)) ∧
    length (snd t) = (length primary * length secondary)%nat ∧
    (9 <= length (snd t) <= 20)%nat ∧
    header (fst t) = ["Group"; "Subgroup"; "Value"] ∧
    primary_label (fst t) = Some (join_with "/" primary) ∧
    secondary_label (fst t) = Some (join_with "/" secondary).
Proof.
  cbv zeta.
  destruct (gen_grouped_series_cases j) as (Hrows & Hh & _ & Hp & Hs).
  cbv zeta in Hrows, Hp, Hs.
  destruct group_pools_ok as (Hne1 & Hne2 & Hmin1 & Hmin2).
  pose proof (choose_labels_length draw GROUP_PRIMARY_LABELS 3 5 j Hne1
                ltac:(lia) Hmin1) as Hlen1.
  destruct (choose_labels_prefix GROUP_PRIMARY_LABELS 3 5 j Hne1)
    as (l1 & Hin1 & Hpre1).
  set (primary := fst (choose_labels draw GROUP_PRIMARY_LABELS 3 5 j)) in *.
  set (j1 := snd (choose_labels draw GROUP_PRIMARY_LABELS 3 5 j)) in *.
  pose proof (choose_labels_length draw GROUP_SECONDARY_LABELS 3 4 j1 Hne2
                ltac:(lia) Hmin2) as Hlen2.
  destruct (choose_labels_prefix GROUP_SECONDARY_LABELS 3 4 j1 Hne2)
    as (l2 & Hin2 & Hpre2).
  set (secondary := fst (choose_labels draw GROUP_SECONDARY_LABELS 3 4 j1))
    in *.
  assert (map fst (snd (fst (gen_grouped_series draw j)))
          = list_prod primary secondary) as Hgrid.
  { rewrite Hrows.
    rewrite (mapM_concat_map fst (λ p, map (pair p) secondary))
      by (intros p k; apply gen_group_labels).
    apply flat_map_list_prod. }
  assert (length (snd (fst (gen_grouped_series draw j)))
          = (length primary * length secondary)%nat) as Hcount
    by (by rewrite <- (length_map fst), Hgrid, length_prod).
  exists primary, secondary.
  split; [by exists l1|]. split; [by exists l2|].
  split; [lia|]. split; [lia|]. split; [exact Hgrid|]. split.
  { rewrite Hgrid. destruct pools_distinct as (_ & Hnd1 & Hnd2).
    rewrite Forall_forall in Hnd1, Hnd2.
    apply NoDup_list_prod; eapply NoDup_prefix; eauto. }
  split; [exact Hcount|]. split; [rewrite Hcount; nia|]. done.
Qed.

(** *** The values of a grouped table *)










End WithEntropy.

End SynthMore.

(** ** scripts/extract_binary_matrix.py: regions that are too small, all
    bright or all dark *)

Module MatrixMore.

Import PyNum BinaryMatrix.

(** The printed matrix, cell by cell. *)
Lemma pattern_6x6_cells (grid_region : matrix) :
  pattern_6x6 grid_region
  = map (λ i, map (padded_cell grid_region i) (seq 0 6)) (seq 0 6).
Proof.
  unfold pattern_6x6.
  rewrite (shape_5x5_eq (pattern_5x5 grid_region))
    by apply fold_mark_shape, zeros_shape.
  cbn [seq map].
  rewrite !pattern_5x5_get2 by lia.
  unfold padded_cell. cbn [Nat.ltb Nat.leb andb default].
  reflexivity.
Qed.

Lemma pattern_6x6_zero (grid_region : matrix) :
  (∀ i j, filled grid_region i j = false) →
  pattern_6x6 grid_region = zeros 6 6.
Proof.
  intros Hf. rewrite pattern_6x6_cells. cbn [seq map].
  unfold padded_cell. rewrite !Hf. reflexivity.
Qed.

(** The pixels of a window are pixels of the region. *)
Lemma cells_Forall (P : Z → Prop) (a : matrix) y0 y1 x0 x1 :
  Forall (Forall P) a → Forall P (cells a y0 y1 x0 x1).
Proof.
  intros Ha. unfold cells. apply Forall_concat.
  apply Forall_forall. intros w Hw.
  apply list_elem_of_In, in_map_iff in Hw as (row & <- & Hrow).
  apply Forall_drop, Forall_take.
  apply list_elem_of_In in Hrow.
  assert (Forall (Forall P) (drop y0 (take y1 a))) as Hsub
    by (by apply Forall_drop, Forall_take).
  rewrite Forall_forall in Hsub. by apply Hsub.
Qed.

Lemma sum_lower (lo : Z) (xs : list Z) :
  Forall (λ v, (lo <= v)%Z) xs →
  ∀ acc, (acc + lo * Z.of_nat (length xs) <= fold_left Z.add xs acc)%Z.
Proof.
  induction 1 as [|x xs Hx _ IH]; intros acc; cbn [fold_left length].
  - lia.
  - specialize (IH (acc + x)%Z). lia.
Qed.

Lemma sum_upper (hi : Z) (xs : list Z) :
  Forall (λ v, (v <= hi)%Z) xs →
  ∀ acc, (fold_left Z.add xs acc <= acc + hi * Z.of_nat (length xs))%Z.
Proof.
  induction 1 as [|x xs Hx _ IH]; intros acc; cbn [fold_left length].
  - lia.
  - specialize (IH (acc + x)%Z). lia.
Qed.

(** The mean of pixels that are all at least 128 is not below 128, and
    the mean of a non-empty list of pixels below 128 is. *)
Lemma np_mean_threshold (xs : list Z) :
  (Forall (λ v, (128 <= v)%Z) xs →
   ∀ m, np_mean xs = Some m → Qltb m 128 = false) ∧
  (Forall (λ v, (v <= 127)%Z) xs → xs ≠ [] →
   ∃ m, np_mean xs = Some m ∧ Qltb m 128 = true).
Proof.
  assert (xs ≠ [] → 0 < inject_Z (Z.of_nat (length xs)))%Q as Hpos.
  { intros Hne. change 0%Q with (inject_Z 0). rewrite <- Zlt_Qlt.
    destruct xs; [done|cbn [length]; lia]. }
  split.
  - intros Hxs m Hm. destruct xs as [|x xs]; [discriminate|].
    injection Hm as <-. change (Qltb ?a ?b) with (Qgtb b a).
    apply Qgtb_false. apply Qle_shift_div_l; [by apply Hpos|].
    pose proof (sum_lower 128 _ Hxs 0) as Hs.
    change 128%Q with (inject_Z 128).
    rewrite <- inject_Z_mult, <- Zle_Qle.
    cbn [length fold_left] in Hs |- *. lia.
  - intros Hxs Hne. destruct xs as [|x xs]; [done|].
    eexists. split; [reflexivity|]. change (Qltb ?a ?b) with (Qgtb b a).
    apply Qgtb_true. apply Qlt_shift_div_r; [by apply Hpos|].
    pose proof (sum_upper 127 _ Hxs 0) as Hs.
    change 128%Q with (inject_Z 128).
    rewrite <- inject_Z_mult, <- Zlt_Qlt.
    cbn [length fold_left] in Hs |- *. lia.
Qed.

(** In a region of at least 5 rows of the same length of at least 5,
    every sampled window is inside the region and not empty. *)
Lemma cells_nonempty (grid_region : matrix) (h w i j : nat) :
  length grid_region = h → Forall (λ row, length row = w) grid_region →
  (5 ≤ h)%nat → (5 ≤ w)%nat → (i < 5)%nat → (j < 5)%nat →
  let cell_h := (h / 5)%nat in
  let cell_w := (w / 5)%nat in
  let y_start := (i * cell_h + cell_h / 8)%nat in
  let y_end := ((i + 1) * cell_h - cell_h / 8)%nat in
  let x_start := (j * cell_w + cell_w / 8)%nat in
  let x_end := ((j + 1) * cell_w - cell_w / 8)%nat in
  (y_start < y_end)%nat ∧ (x_start < x_end)%nat ∧
  cells grid_region y_start y_end x_start x_end ≠ [].
Proof.
  intros Hh Hrows H5h H5w Hi Hj. cbv zeta.
  assert (∀ n k, (5 ≤ n)%nat → (k < 5)%nat →
            (k * (n / 5) + n / 5 / 8 < (k + 1) * (n / 5) - n / 5 / 8)%nat ∧
            ((k + 1) * (n / 5) - n / 5 / 8 ≤ n)%nat) as Hwin.
  { intros n k Hn Hk.
    pose proof (Nat.Div0.mul_div_le n 5) as H1.
    pose proof (Nat.Div0.mul_div_le (n / 5) 8) as H2.
    assert (1 ≤ n / 5)%nat as H3
      by (apply Nat.div_le_lower_bound; lia).
    split; nia. }
  destruct (Hwin h i H5h Hi) as [Hy Hyh].
  destruct (Hwin w j H5w Hj) as [Hx Hxw].
  split; [exact Hy|]. split; [exact Hx|].
  set (y0 := (i * (h / 5) + h / 5 / 8)%nat) in *.
  set (y1 := ((i + 1) * (h / 5) - h / 5 / 8)%nat) in *.
  set (x0 := (j * (w / 5) + w / 5 / 8)%nat) in *.
  set (x1 := ((j + 1) * (w / 5) - w / 5 / 8)%nat) in *.
  unfold cells.
  assert (Forall (λ row, length row = w) (drop y0 (take y1 grid_region)))
    as Hsub by (by apply Forall_drop, Forall_take).
  assert (length (drop y0 (take y1 grid_region)) = y1 - y0)%nat as Hlen
    by (rewrite length_drop, length_take; lia).
  destruct (drop y0 (take y1 grid_region)) as [|row rows];
    [cbn [length] in Hlen; lia|].
  apply Forall_cons in Hsub as [Hrow _]. cbn [map concat].
  intros Hnil. apply app_eq_nil in Hnil as [Hnil _].
  apply (f_equal length) in Hnil.
  rewrite length_drop, length_take in Hnil. cbn [length] in Hnil. lia.
Qed.

(** X25: from a region with fewer than 5 rows, or whose first row has
    fewer than 5 pixels, no cell is sampled: the printed matrix is all
    zeros, whatever the pixels are. *)
Theorem X25_small_region_gives_zero_matrix (grid_region : matrix) :
  (length grid_region < 5)%nat ∨ (length (hd [] grid_region) < 5)%nat →
  pattern_6x6 grid_region = zeros 6 6.
Proof.
  intros Hsmall. apply pattern_6x6_zero. intros i j. unfold filled.
  destruct Hsmall as [Hh | Hw].
  - rewrite (Nat.div_small (length grid_region) 5) by exact Hh.
    change (0 / 8)%nat with 0%nat. rewrite !Nat.mul_0_r. reflexivity.
  - rewrite (Nat.div_small (length (hd [] grid_region)) 5) by exact Hw.
    change (0 / 8)%nat with 0%nat. rewrite !Nat.mul_0_r.
    change (0 + 0 <? 0 - 0)%nat with false. by rewrite andb_false_r.
Qed.

(** X25 on a black region of 4 rows of 9 pixels. *)
Lemma X25_small_region_gives_zero_matrix_witness :
  pattern_6x6 (replicate 4 (replicate 9 0%Z)) = zeros 6 6.
Proof.
  apply (X25_small_region_gives_zero_matrix (replicate 4 (replicate 9 0%Z))).
  left. cbn. lia.
Defined.

(** X26: the threshold is 128 on the mean. A region all of whose pixels
    are at least 128 gives the all-zero matrix, whatever its shape; a
    rectangular region of at least 5 by 5 pixels that are all below 128
    gives the matrix whose upper-left 5 by 5 block is all ones. *)
Theorem X26_bright_region_zero_dark_region_ones (grid_region : matrix) :
  (Forall (Forall (λ v, (128 <= v)%Z)) grid_region →
   pattern_6x6 grid_region = zeros 6 6) ∧
  (∀ h w,
     length grid_region = h →
     Forall (λ row, length row = w) grid_region →
     (5 ≤ h)%nat → (5 ≤ w)%nat →
     Forall (Forall (λ v, (v < 128)%Z)) grid_region →
     pattern_6x6 grid_region
     = map (λ i, map (λ j, if (i <? 5)%nat && (j <? 5)%nat
                           then 1%Z else 0%Z) (seq 0 6)) (seq 0 6)).
Proof.
  split.
  - intros Hbright. apply pattern_6x6_zero. intros i j. unfold filled.
    destruct (_ && _); [|reflexivity].
    match goal with
    | |- context [np_mean ?xs] =>
        destruct (np_mean xs) as [m|] eqn:Hm; [|reflexivity];
        destruct (np_mean_threshold xs) as [Hge _]
    end.
    apply (Hge (cells_Forall _ _ _ _ _ _ Hbright) m Hm).
  - intros h w Hh Hrows H5h H5w Hdark.
    assert (∀ i j, (i < 5)%nat → (j < 5)%nat →
              filled grid_region i j = true) as Hfilled.
    { intros i j Hi Hj. unfold filled.
      assert (length (hd [] grid_region) = w) as ->.
      { destruct grid_region as [|row rows]; [cbn in Hh; lia|].
        by apply Forall_cons in Hrows as [? _]. }
      rewrite Hh.
      destruct (cells_nonempty grid_region h w i j Hh Hrows H5h H5w Hi Hj)
        as (Hy & Hx & Hne). cbv zeta in Hy, Hx, Hne.
      apply Nat.ltb_lt in Hy, Hx. rewrite Hy, Hx. cbn [andb].
      match goal with
      | |- context [np_mean ?xs] =>
          destruct (np_mean_threshold xs) as [_ Hlt]
      end.
      destruct Hlt as (m & -> & Hm); [|exact Hne|exact Hm].
      apply cells_Forall.
      eapply Forall_impl; [exact Hdark|]. intros row Hrow.
      eapply Forall_impl; [exact Hrow|]. intros v Hv. cbn in Hv. lia. }
    rewrite pattern_6x6_cells. cbn [seq map]. unfold padded_cell.
    cbn [Nat.ltb Nat.leb andb]. rewrite !Hfilled by lia. reflexivity.
Qed.

End MatrixMore.

(** ** scripts/verify_annotations.py: the review session as a state
    machine *)

Module Verify.

Import PyNum.

(** One value of the annotations dict. For x and y [None] is a missing
    key or JSON null, which [ann.get] does not tell apart; for
    needs_review and verified [None] is a missing key. The confidence
    stands for the keys the tool never writes. *)
Record annotation := Annotation {
  a_x : option Q;
  a_y : option Q;
  a_confidence : option Q;
  a_needs_review : option bool;
  a_verified : option bool }.

(** The [{}] that [self.annotations.get(file, {})] falls back to. *)
Definition empty_annotation : annotation :=
  Annotation None None None None None.

(** [ann['x'] = float(p[0]); ann['y'] = float(p[1]);
    ann['verified'] = True; del ann['needs_review']] *)
Definition with_point (p : Z * Z) (ann : annotation) : annotation :=
  {| a_x := Some (inject_Z (fst p)); a_y := Some (inject_Z (snd p));
     a_confidence := a_confidence ann;
     a_needs_review := None; a_verified := Some true |}.

(** [ann['x'] = None; ann['y'] = None; ann['needs_review'] = True] *)
Definition without_point (ann : annotation) : annotation :=
  {| a_x := None; a_y := None; a_confidence := a_confidence ann;
     a_needs_review := Some true; a_verified := a_verified ann |}.

(** The point read from an annotation by [load_image]. *)
Definition point_of (ann : annotation) : option (Z * Z) :=
  match a_x ann, a_y ann with
  | Some x, Some y => Some (py_int x, py_int y)
  | _, _ => None
  end.

(** What the window delivers: the value of [cv2.waitKey(0)], or a left
    click at (x, y). *)
Inductive event :=
  | Key (code : Z)
  | Click (x y : Z).

#[local] Instance str_le_dec a b : Decision (Coco.str_le a b).
Proof. unfold Coco.str_le. apply _. Defined.

Section WithOpenCV.

Variable Image : Type.
Variable imread : string → option Image.

(** The fields of [AnnotationVerifier] that the session reads and
    writes. *)
Record verifier := Verifier {
  image_dir : string;
  annotations : gmap string annotation;
  image_files : list string;
  current_index : Z;
  current_image : option Image;
  current_image_file : option string;
  current_point : option (Z * Z);
  mouse_point : option (Z * Z) }.

(** [__init__] *)
Definition init (annotations : gmap string annotation) (image_dir : string)
  : verifier :=
  {| image_dir := image_dir; annotations := annotations;
     image_files :=
       merge_sort Coco.str_le (map fst (map_to_list annotations));
     current_index := 0; current_image := None;
     current_image_file := None; current_point := None;
     mouse_point := None |}.

(** [load_image(index)]: the result and the verifier afterwards. *)
Definition load_image (v : verifier) (index : Z) : bool * verifier :=
  if (index <? 0)%Z || (Z.of_nat (length (image_files v)) <=? index)%Z
  then (false, v)
  else
    match image_files v !! Z.to_nat index with
    | None => (false, v)
    | Some file =>
        let image := imread (OsPath.join (image_dir v) file) in
        match image with
        | None =>
            (false,
             {| image_dir := image_dir v; annotations := annotations v;
                image_files := image_files v; current_index := index;
                current_image := None; current_image_file := Some file;
                current_point := current_point v;
                mouse_point := mouse_point v |})
        | Some _ =>
            (true,
             {| image_dir := image_dir v; annotations := annotations v;
                image_files := image_files v; current_index := index;
                current_image := image; current_image_file := Some file;
                current_point :=
                  point_of (default empty_annotation (annotations v !! file));
                mouse_point := None |})
        end
    end.

(** [mouse_callback] on [EVENT_LBUTTONDOWN] *)
Definition click (v : verifier) (x y : Z) : verifier :=
  {| image_dir := image_dir v; annotations := annotations v;
     image_files := image_files v; current_index := current_index v;
     current_image := current_image v;
     current_image_file := current_image_file v;
     current_point := Some (x, y); mouse_point := Some (x, y) |}.

(** [ann = self.annotations.get(file, {}); ...;
    self.annotations[file] = ann] with the update [g] in between. The
    file name is set once [load_image] has passed its bounds check,
    which [run] requires before its loop starts. *)
Definition store (g : annotation → annotation) (v : verifier) : verifier :=
  match current_image_file v with
  | None => v
  | Some file =>
      {| image_dir := image_dir v;
         annotations :=
           <[file := g (default empty_annotation (annotations v !! file))]>
             (annotations v);
         image_files := image_files v; current_index := current_index v;
         current_image := current_image v;
         current_image_file := current_image_file v;
         current_point := current_point v; mouse_point := mouse_point v |}
  end.

(** [if self.current_image_file: ...] *)
Definition file_truthy (v : verifier) : bool :=
  match current_image_file v with
  | Some file => PyStr.truthy file
  | None => false
  end.

(** The block under "Save current annotation before moving". *)
Definition save_before_moving (v : verifier) : verifier :=
  match current_point v with
  | Some p => if file_truthy v then store (with_point p) v else v
  | None => v
  end.

(** [save_annotations]: the content written to the output file. *)
Definition save_annotations (v : verifier) : gmap string annotation :=
  if file_truthy v then
    match current_point v with
    | Some p => annotations (store (with_point p) v)
    | None => annotations (store without_point v)
    end
  else annotations v.

(** The branch for 'r'. *)
Definition reject (v : verifier) : verifier :=
  store without_point
    {| image_dir := image_dir v; annotations := annotations v;
       image_files := image_files v; current_index := current_index v;
       current_image := current_image v;
       current_image_file := current_image_file v;
       current_point := None; mouse_point := None |}.

(** The [while True] loop of [run] over the events that arrive; the
    result is the content of the output file, and [None] when the session
    ends, or the events run out, without a file being written. *)
Fixpoint loop (events : list event) (v : verifier)
  : option (gmap string annotation) :=
  match events with
  | [] => None
  | Click x y :: rest => loop rest (click v x y)
  | Key code :: rest =>
      let key := Z.land code 255 in
      if (key =? 113)%Z then None
      else if (key =? 115)%Z then Some (save_annotations v)
      else if (key =? 110)%Z || (key =? 83)%Z then
        let v := save_before_moving v in
        if (current_index v <? Z.of_nat (length (image_files v)) - 1)%Z
        then loop rest (snd (load_image v (current_index v + 1)))
        else loop rest v
      else if (key =? 112)%Z || (key =? 81)%Z then
        if (0 <? current_index v)%Z then
          let v := save_before_moving v in
          loop rest (snd (load_image v (current_index v - 1)))
        else loop rest v
      else if (key =? 97)%Z then
        match current_point v with
        | Some p => loop rest (store (with_point p) v)
        | None => loop rest v
        end
      else if (key =? 114)%Z then loop rest (reject v)
      else loop rest v
  end.

(** [AnnotationVerifier(...).run()] *)
Definition run (annotations : gmap string annotation) (image_dir : string)
    (events : list event) : option (gmap string annotation) :=
  let '(loaded, v) := load_image (init annotations image_dir) 0 in
  if loaded then loop events v else None.

(** *** What a session keeps *)

(** An entry of the session: it belongs to a name of the input, keeps the
    confidence, and is the input entry, a verified point or a cleared
    one. *)
Definition entry_ok (input : gmap string annotation) (file : string)
    (a : annotation) : Prop :=
  ∃ a0, input !! file = Some a0 ∧ a_confidence a = a_confidence a0 ∧
    (a = a0
     ∨ (is_Some (a_x a) ∧ is_Some (a_y a) ∧ a_verified a = Some true ∧
        a_needs_review a = None)
     ∨ (a_x a = None ∧ a_y a = None ∧ a_needs_review a = Some true)).

Definition entries_ok (input m : gmap string annotation) : Prop :=
  (∀ f, is_Some (m !! f) ↔ is_Some (input !! f)) ∧
  (∀ f a, m !! f = Some a → entry_ok input f a).

Definition inv (input : gmap string annotation) (v : verifier) : Prop :=
  (∀ f, f ∈ image_files v → is_Some (input !! f)) ∧
  (∀ f, current_image_file v = Some f → f ∈ image_files v) ∧
  entries_ok input (annotations v).

(** An update that keeps the confidence and leaves a verified or a
    cleared entry. *)
Definition settles (g : annotation → annotation) : Prop :=
  ∀ a, a_confidence (g a) = a_confidence a ∧
       ((is_Some (a_x (g a)) ∧ is_Some (a_y (g a)) ∧
         a_verified (g a) = Some true ∧ a_needs_review (g a) = None)
        ∨ (a_x (g a) = None ∧ a_y (g a) = None ∧
           a_needs_review (g a) = Some true)).

Lemma with_point_settles p : settles (with_point p).
Proof. intros a. split; [reflexivity|]. left. cbn. by repeat split. Qed.

Lemma without_point_settles : settles without_point.
Proof. intros a. split; [reflexivity|]. right. by cbn. Qed.

Lemma store_inv input g v : settles g → inv input v → inv input (store g v).
Proof.
  intros Hg Hv. unfold store.
  destruct (current_image_file v) as [file|] eqn:Hfile; [|exact Hv].
  destruct Hv as (Hfiles & Hcur & Hdom & Hok).
  split; [exact Hfiles|].
  split; [intros f Hf; apply Hcur; cbn in Hf; congruence|].
  cbn [annotations].
  assert (is_Some (input !! file)) as Hin by (by apply Hfiles, Hcur).
  pose proof (proj2 (Hdom file) Hin) as [a1 Ha1].
  destruct (Hok file a1 Ha1) as (a0 & Ha0 & Hconf & _).
  rewrite Ha1. cbn [default]. split.
  - intros f. destruct (decide (f = file)) as [-> | Hne].
    + rewrite lookup_insert_eq. split; [done|by eexists].
    + rewrite lookup_insert_ne by done. apply Hdom.
  - intros f a. destruct (decide (f = file)) as [-> | Hne].
    + rewrite lookup_insert_eq. intros [= <-].
      destruct (Hg a1) as [Hc Hshape].
      exists a0. split; [exact Ha0|]. split; [congruence|]. by right.
    + rewrite lookup_insert_ne by done. apply Hok.
Qed.

Lemma load_image_inv input v index :
  inv input v → inv input (snd (load_image v index)).
Proof.
  intros Hv. unfold load_image.
  destruct (_ || _); [exact Hv|].
  destruct (image_files v !! Z.to_nat index) as [file|] eqn:Hfile;
    [|exact Hv].
  destruct Hv as (Hfiles & Hcur & Hm).
  apply list_elem_of_lookup_2 in Hfile.
  destruct (imread _); cbn [snd]; (split; [exact Hfiles|]);
    (split; [|exact Hm]); by intros f [= <-].
Qed.

Lemma save_before_moving_inv input v :
  inv input v → inv input (save_before_moving v).
Proof.
  intros Hv. unfold save_before_moving.
  destruct (current_point v) as [p|]; [|done].
  destruct (file_truthy v); [|done].
  by apply store_inv; [apply with_point_settles|].
Qed.

Lemma loop_entries_ok input events : ∀ v out,
  inv input v → loop events v = Some out → entries_ok input out.
Proof.
  induction events as [|e events IH]; intros v out Hv; [discriminate|].
  destruct e as [code | x y]; cbn [loop]; cbv zeta.
  - destruct (Z.land code 255 =? 113)%Z; [discriminate|].
    destruct (Z.land code 255 =? 115)%Z.
    { intros [= <-]. unfold save_annotations.
      destruct (file_truthy v); [|apply Hv].
      destruct (current_point v) as [p|].
      - by apply (store_inv input (with_point p) v
                    (with_point_settles p)).
      - by apply (store_inv input without_point v without_point_settles). }
    destruct (_ || _).
    { pose proof (save_before_moving_inv input v Hv) as Hv'.
      destruct (_ <? _)%Z; apply IH; [by apply load_image_inv|done]. }
    destruct (_ || _).
    { destruct (0 <? _)%Z; apply IH; [|done].
      by apply load_image_inv, save_before_moving_inv. }
    destruct (Z.land code 255 =? 97)%Z.
    { destruct (current_point v) as [p|]; apply IH; [|done].
      by apply store_inv; [apply with_point_settles|]. }
    destruct (Z.land code 255 =? 114)%Z; apply IH; [|done].
    unfold reject. apply store_inv; [apply without_point_settles|].
    exact Hv.
  - apply IH. exact Hv.
Qed.

Lemma init_inv input dir : inv input (init input dir).
Proof.
  split; [|split; [|split]]; cbn.
  - intros f Hf. rewrite merge_sort_Permutation in Hf.
    apply list_elem_of_In, in_map_iff in Hf as ([k a] & <- & Hin).
    apply list_elem_of_In, elem_of_map_to_list in Hin. by eexists.
  - discriminate.
  - done.
  - intros f a Ha. exists a. auto.
Qed.

(** X27: whatever the keys and clicks are, the file a session writes has
    exactly the image names of the input file. Each entry keeps its
    confidence and is either the input entry unchanged, or a verified
    entry with both coordinates and no needs_review key, or a cleared
    entry with x and y null and needs_review true. *)
Theorem X27_session_output_entries
    (input : gmap string annotation) (dir : string) (events : list event)
    (out : gmap string annotation) :
  run input dir events = Some out →
  (∀ f, is_Some (out !! f) ↔ is_Some (input !! f)) ∧
  (∀ f a, out !! f = Some a →
     ∃ a0, input !! f = Some a0 ∧ a_confidence a = a_confidence a0 ∧
       (a = a0
        ∨ (is_Some (a_x a) ∧ is_Some (a_y a) ∧ a_verified a = Some true ∧
           a_needs_review a = None)
        ∨ (a_x a = None ∧ a_y a = None ∧ a_needs_review a = Some true))).
Proof.
  unfold run.
  pose proof (load_image_inv input (init input dir) 0 (init_inv input dir))
    as Hv.
  destruct (load_image (init input dir) 0) as [[] v]; [|discriminate].
  intros Hrun. exact (loop_entries_ok input events v out Hv Hrun).
Qed.

(** *** When a file is written *)

Definition ends_session (e : event) : bool :=
  match e with
  | Key code => (Z.land code 255 =? 113)%Z || (Z.land code 255 =? 115)%Z
  | Click _ _ => false
  end.

Lemma loop_written events : ∀ v out,
  loop events v = Some out →
  ∃ pre code post,
    events = pre ++ Key code :: post ∧ Z.land code 255 = 115%Z ∧
    Forall (λ e, ends_session e = false) pre.
Proof.
  induction events as [|e events IH]; intros v out; [discriminate|].
  assert (∀ v', loop events v' = Some out → ends_session e = false →
            ∃ pre code post,
              e :: events = pre ++ Key code :: post ∧
              Z.land code 255 = 115%Z ∧
              Forall (λ e, ends_session e = false) pre) as Hstep.
  { intros v' Hrun He.
    destruct (IH v' out Hrun) as (pre & code & post & -> & Hs & Hpre).
    exists (e :: pre), code, post. split; [reflexivity|].
    split; [exact Hs|]. by constructor. }
  destruct e as [code | x y]; cbn [loop]; cbv zeta;
    [|intros Hrun; by eapply Hstep].
  destruct (Z.land code 255 =? 113)%Z eqn:Hq; [discriminate|].
  destruct (Z.land code 255 =? 115)%Z eqn:Hs.
  { intros _. exists [], code, events. apply Z.eqb_eq in Hs.
    split; [reflexivity|]. split; [exact Hs|constructor]. }
  assert (ends_session (Key code) = false) as He
    by (cbn [ends_session]; by rewrite Hq, Hs).
  destruct (_ || _).
  { destruct (_ <? _)%Z; intros Hrun; by eapply Hstep. }
  destruct (_ || _).
  { destruct (0 <? _)%Z; intros Hrun; by eapply Hstep. }
  destruct (Z.land code 255 =? 97)%Z.
  { destruct (current_point v); intros Hrun; by eapply Hstep. }
  destruct (Z.land code 255 =? 114)%Z; intros Hrun; by eapply Hstep.
Qed.

(** X28: a session writes its output file only on the key 's': when a
    file is written, the events contain an 's' that no 'q' and no other
    's' precedes. Nothing is written when the input has no image names,
    or when the first image in sorted order cannot be read, whatever the
    events are. *)
Theorem X28_output_only_on_save
    (input : gmap string annotation) (dir : string) (events : list event) :
  (∀ out, run input dir events = Some out →
     ∃ pre code post,
       events = pre ++ Key code :: post ∧ Z.land code 255 = 115%Z ∧
       Forall (λ e, ends_session e = false) pre) ∧
  (input = ∅ → run input dir events = None) ∧
  (∀ file, head (image_files (init input dir)) = Some file →
     imread (OsPath.join dir file) = None → run input dir events = None).
Proof.
  split; [|split].
  - intros out. unfold run.
    destruct (load_image (init input dir) 0) as [[] v]; [|discriminate].
    apply loop_written.
  - intros ->. reflexivity.
  - intros file Hhead Hread. unfold run, load_image.
    destruct (image_files (init input dir)) as [|f files] eqn:Hfiles;
      [discriminate|].
    injection Hhead as ->.
    replace (_ || _) with false; [|symmetry; apply orb_false_iff; split;
      [reflexivity|apply Z.leb_gt; cbn [length]; lia]].
    change ((file :: files) !! Z.to_nat 0) with (Some file).
    cbn [init image_dir]. by rewrite Hread.
Qed.

(** *** Saving on the first image *)





End WithOpenCV.

(** *** A session on two images *)

(** Two detections; a.jpg can be read and b.jpg cannot. *)
Definition two_images : gmap string annotation :=
  list_to_map
    [ ("a.jpg", Annotation (Some (107 # 10)) (Some (202 # 10))
                  (Some (9 # 10)) None None);
      ("b.jpg", Annotation None None (Some 0) (Some true) None) ]%Q.

Definition read_a (path : string) : option unit :=
  if String.eqb path "imgs/b.jpg" then None else Some tt.

(** The output of: click at (5, 6), accept, next, save. *)
Definition two_images_out : gmap string annotation :=
  list_to_map
    [ ("a.jpg", Annotation (Some 5) (Some 6) (Some (9 # 10)) None
                  (Some true));
      ("b.jpg", Annotation (Some 5) (Some 6) (Some 0) None (Some true)) ]%Q.

(** X27 on that session. *)
Lemma X27_session_output_entries_witness :
  (∀ f, is_Some (two_images_out !! f) ↔ is_Some (two_images !! f)) ∧
  (∀ f a, two_images_out !! f = Some a →
     ∃ a0, two_images !! f = Some a0 ∧ a_confidence a = a_confidence a0 ∧
       (a = a0
        ∨ (is_Some (a_x a) ∧ is_Some (a_y a) ∧ a_verified a = Some true ∧
           a_needs_review a = None)
        ∨ (a_x a = None ∧ a_y a = None ∧ a_needs_review a = Some true))).
Proof.
  apply (X27_session_output_entries unit read_a two_images "imgs"
           [Click 5 6; Key 97; Key 110; Key 115] two_images_out).
  vm_compute. reflexivity.
Defined.



End Verify.
